(** * python-smb: a shallow embedding of the SMB transfer service and its REST gateway

    The development follows [smb_service.py] (the transfer service) and
    [smb_api.py] (the Flask gateway).  Python values are modelled by an
    inductive type of dynamic values, exceptions by an explicit outcome type,
    and every effect (local file system, SMB client, call trace) by state
    passing through a small state-and-exception monad.

    The external SMB client library ([smbclient]) is an interface: the service
    is defined over any implementation of it, so that statements quantified
    over the client cover every behaviour of the library.  A reference
    in-memory share with fault injection is provided for concrete runs. *)

From Stdlib Require Import ZArith List Ascii String Floats.
From stdpp Require Import gmap strings list fin_maps pretty.

Import ListNotations.
Local Open Scope string_scope.
Local Open Scope Z_scope.
Set Warnings "-register-all".

(** ** Python values *)

(** Byte strings ([bytes]) as lists of bytes. *)
Abbreviation bytes := (list Byte.byte).

(** Dynamic values as they occur in request bodies and result dictionaries.
    A [dict] keeps its insertion order, as Python's does. *)
Inductive pyval : Type :=
| PNone
| PBool (b : bool)
| PInt (z : Z)
| PFloat (f : float)
| PStr (s : string)
| PList (l : list pyval)
| PDict (d : list (string * pyval)).

Abbreviation pydict := (list (string * pyval)).

(** [d.get(k)] / [d[k]] on a dictionary. *)
Fixpoint dict_get (k : string) (d : pydict) : option pyval :=
  match d with
  | [] => None
  | (k', v) :: d' => if String.eqb k k' then Some v else dict_get k d'
  end.

(** [k in d] on a dictionary. *)
Definition dict_has (k : string) (d : pydict) : bool :=
  match dict_get k d with Some _ => true | None => false end.

(** Truth value of a Python object ([bool(x)], as used by [not x]). *)
Definition truthy (v : pyval) : bool :=
  match v with
  | PNone => false
  | PBool b => b
  | PInt z => negb (z =? 0)
  | PFloat f => negb (PrimFloat.eqb f 0%float)
  | PStr s => negb (String.eqb s "")
  | PList l => match l with [] => false | _ => true end
  | PDict d => match d with [] => false | _ => true end
  end.

(** ** Exceptions *)

(** The classes of [Exception] the code raises or can receive.  [SMBError]
    stands for whatever the SMB client library raises; [OtherError] for any
    further subclass of [Exception], named by its class. *)
Inductive exn_class : Type :=
| FileNotFoundError
| FileExistsError
| IsADirectoryError
| NotADirectoryError
| ValueError
| TypeError
| AttributeError
| SMBError
| OtherError (name : string).

(** An exception: its class and [str(e)]. *)
Record exn : Type := Exn { exn_class_of : exn_class; exn_str : string }.

(** Outcome of running a piece of Python: a value, or a raised exception. *)
Inductive outcome (A : Type) : Type :=
| Ok (a : A)
| Raised (e : exn).
Arguments Ok {A} a.
Arguments Raised {A} e.

(** ** Strings and paths *)

Definition slash : ascii := "/"%char.

(** [s.lstrip('/')] *)
Fixpoint lstrip_slash (s : string) : string :=
  match s with
  | String c s' => if Ascii.eqb c slash then lstrip_slash s' else s
  | EmptyString => EmptyString
  end.

(** [s.split('/')] *)
Fixpoint split_slash (s : string) : list string :=
  match s with
  | EmptyString => [EmptyString]
  | String c s' =>
      if Ascii.eqb c slash then EmptyString :: split_slash s'
      else match split_slash s' with
           | [] => [String c EmptyString]
           | w :: ws => String c w :: ws
           end
  end.

(** ['/'.join(parts)] *)
Fixpoint join_slash (parts : list string) : string :=
  match parts with
  | [] => ""
  | [p] => p
  | p :: ps => p ++ "/" ++ join_slash ps
  end.

(** ASCII lower-casing of one character and [s.lower()] on a byte string. *)
Definition lower_ascii (c : ascii) : ascii :=
  let n := nat_of_ascii c in
  if (Nat.leb 65 n && Nat.leb n 90)%bool then ascii_of_nat (n + 32) else c.

Fixpoint lower (s : string) : string :=
  match s with
  | EmptyString => EmptyString
  | String c s' => String (lower_ascii c) (lower s')
  end.

(** [needle in haystack] for two strings. *)
Fixpoint str_contains (needle haystack : string) : bool :=
  if String.prefix needle haystack then true
  else match haystack with
       | EmptyString => false
       | String _ h' => str_contains needle h'
       end.

(** A [pathlib.PurePosixPath]: its root (empty, one slash, or exactly two
    slashes) and its components, from which empty and ["."] components have
    been dropped. *)
Record PurePath : Type := MkPath { p_root : string; p_parts : list string }.

Definition path_root_of (s : string) : string :=
  match s with
  | String a (String b (String c _)) =>
      if Ascii.eqb a slash then
        if Ascii.eqb b slash then
          if Ascii.eqb c slash then "/" else "//"
        else "/"
      else ""
  | String a (String b EmptyString) =>
      if Ascii.eqb a slash then
        if Ascii.eqb b slash then "//" else "/"
      else ""
  | String a EmptyString => if Ascii.eqb a slash then "/" else ""
  | EmptyString => ""
  end.

Definition keep_part (p : string) : bool :=
  negb (String.eqb p "" || String.eqb p ".").

(** [Path(s)] *)
Definition Path (s : string) : PurePath :=
  MkPath (path_root_of s) (filter (fun p => keep_part p = true) (split_slash s)).

(** [str(p)] *)
Definition path_str (p : PurePath) : string :=
  match p_root p, p_parts p with
  | "", [] => "."
  | r, ps => r ++ join_slash ps
  end.

(** [p.parent]: the path without its last component; a path without
    components is its own parent. *)
Definition path_parent (p : PurePath) : PurePath :=
  MkPath (p_root p) (removelast (p_parts p)).

(** [p.name] *)
Definition path_name (p : PurePath) : string :=
  List.last (p_parts p) "".


(** ** The local file system *)

(** What a local path names.  Paths are identified by their normalised
    spelling [path_str]; links and [..] are not resolved by the model.
    [LFile] is a regular file the process may read and write; [LSealed] a
    regular file whose mode denies it both, so that [open] fails with
    [PermissionError] while [stat] and [unlink], which need the directory
    only, succeed; [LBroken e] a path the system refuses to look up (a name
    component that is too long, a directory that may not be searched, an I/O
    error), so that every call on it fails with the [OSError] [e], one that
    [pathlib] does not take for an absent path. *)
Inductive lnode : Type :=
| LFile (content : bytes)
| LDir
| LSealed (content : bytes)
| LBroken (e : exn).

(** A path without components (the root, or the working directory ["."])
    always names a directory. *)
Definition local_lookup (fs : gmap string lnode) (p : PurePath) : option lnode :=
  match p_parts p with
  | [] => Some LDir
  | _ => fs !! path_str p
  end.

(** [PermissionError] for [p] *)
Definition permission_denied (p : PurePath) : exn :=
  Exn (OtherError "PermissionError") ("[Errno 13] Permission denied: '" ++ path_str p ++ "'").

(** [p.exists()]: [stat] decides, and an [OSError] that does not mean an
    absent path is raised again. *)
Definition local_exists (fs : gmap string lnode) (p : PurePath) : outcome bool :=
  match local_lookup fs p with
  | Some (LBroken e) => Raised e
  | Some _ => Ok true
  | None => Ok false
  end.

(** [p.mkdir(parents=True, exist_ok=True)], walking the chain of ancestors
    from the top: a directory that is there is kept, a missing one is created,
    and a regular file in the way makes the call fail, with [FileExistsError]
    when the file is the path itself and [NotADirectoryError] when it is one
    of its ancestors; a path that cannot be looked up makes it fail with the
    error of the lookup. *)
Fixpoint mkdir_chain (root : string) (above todo : list string)
    (fs : gmap string lnode) : outcome unit * gmap string lnode :=
  match todo with
  | [] => (Ok tt, fs)
  | c :: rest =>
      let here := path_str (MkPath root (above ++ [c])) in
      match fs !! here with
      | Some LDir => mkdir_chain root (above ++ [c]) rest fs
      | Some (LFile _) | Some (LSealed _) =>
          (Raised (match rest with
                   | [] => Exn FileExistsError ("[Errno 17] File exists: '" ++ here ++ "'")
                   | _ => Exn NotADirectoryError
                            ("[Errno 20] Not a directory: '"
                             ++ path_str (MkPath root (above ++ c :: rest)) ++ "'")
                   end), fs)
      | Some (LBroken e) => (Raised e, fs)
      | None => mkdir_chain root (above ++ [c]) rest (<[here := LDir]> fs)
      end
  end.

Definition local_mkdir_parents (p : PurePath) (fs : gmap string lnode)
    : outcome unit * gmap string lnode :=
  mkdir_chain (p_root p) [] (p_parts p) fs.

(** [open(p, 'rb')]: the bytes the handle will deliver. *)
Definition local_open_rb (fs : gmap string lnode) (p : PurePath) : outcome bytes :=
  match local_lookup fs p with
  | Some (LFile content) => Ok content
  | Some LDir => Raised (Exn IsADirectoryError ("[Errno 21] Is a directory: '" ++ path_str p ++ "'"))
  | Some (LSealed _) => Raised (permission_denied p)
  | Some (LBroken e) => Raised e
  | None => Raised (Exn FileNotFoundError ("[Errno 2] No such file or directory: '" ++ path_str p ++ "'"))
  end.

(** [open(p, 'wb')]: creates the file, or truncates it; the directory holding
    it must exist. *)
Definition local_open_wb (p : PurePath) (fs : gmap string lnode)
    : outcome unit * gmap string lnode :=
  match local_lookup fs p with
  | Some LDir => (Raised (Exn IsADirectoryError ("[Errno 21] Is a directory: '" ++ path_str p ++ "'")), fs)
  | Some (LSealed _) => (Raised (permission_denied p), fs)
  | Some (LBroken e) => (Raised e, fs)
  | _ =>
      match local_lookup fs (path_parent p) with
      | Some LDir => (Ok tt, <[path_str p := LFile []]> fs)
      | Some (LFile _) | Some (LSealed _) =>
          (Raised (Exn NotADirectoryError ("[Errno 20] Not a directory: '" ++ path_str p ++ "'")), fs)
      | Some (LBroken e) => (Raised e, fs)
      | None => (Raised (Exn FileNotFoundError ("[Errno 2] No such file or directory: '" ++ path_str p ++ "'")), fs)
      end
  end.

(** [f.write(chunk)] on a file opened for writing: appends. *)
Definition local_write (p : PurePath) (chunk : bytes) (fs : gmap string lnode)
    : gmap string lnode :=
  match fs !! path_str p with
  | Some (LFile content) => <[path_str p := LFile (content ++ chunk)]> fs
  | _ => fs
  end.

(** [p.stat().st_size].  The size of a directory depends on the file system;
    the service never asks for it, since opening a directory fails first. *)
Definition local_stat_size (fs : gmap string lnode) (p : PurePath) : outcome Z :=
  match local_lookup fs p with
  | Some (LFile content) | Some (LSealed content) => Ok (Z.of_nat (length content))
  | Some LDir => Ok 4096
  | Some (LBroken e) => Raised e
  | None => Raised (Exn FileNotFoundError ("[Errno 2] No such file or directory: '" ++ path_str p ++ "'"))
  end.

(** ** The SMB client library *)

(** [os.stat_result] as far as the service reads it. *)
Record stat_result : Type := { st_size : Z; st_mtime : float }.

(** What the successive [read(chunk_size)] calls on a remote file opened for
    reading return: finitely many chunks, after which the file is at its end
    (an empty chunk) or, with [rs_fail], the next call raises. *)
Record read_script : Type := { rs_chunks : list bytes; rs_fail : option exn }.

(** The part of [smbclient] the service calls.  Every call may raise and may
    change the state of the client (session, share). *)
Record SMBClient : Type := {
  smb_state : Type;
  smb_handle : Type;
  register_session :
    string -> string -> string -> Z -> bool -> Z -> smb_state -> outcome unit * smb_state;
  set_require_signing : bool -> smb_state -> outcome unit * smb_state;
  path_exists : string -> smb_state -> outcome bool * smb_state;
  path_isdir : string -> smb_state -> outcome bool * smb_state;
  makedirs : string -> smb_state -> outcome unit * smb_state;
  listdir : string -> smb_state -> outcome (list string) * smb_state;
  stat : string -> smb_state -> outcome stat_result * smb_state;
  open_file_wb : string -> smb_state -> outcome smb_handle * smb_state;
  write : smb_handle -> bytes -> smb_state -> outcome unit * smb_state;
  open_file_rb : string -> smb_state -> outcome (smb_handle * read_script) * smb_state;
  close : smb_handle -> smb_state -> outcome unit * smb_state
}.

(** The calls made to the client, recorded in the order they happen. *)
Inductive smb_call : Type :=
| CallRegisterSession (server : string)
| CallRequireSigning (b : bool)
| CallExists (path : string)
| CallIsdir (path : string)
| CallMakedirs (path : string)
| CallListdir (path : string)
| CallStat (path : string)
| CallOpenWB (path : string)
| CallOpenRB (path : string)
| CallWrite (n : nat)
| CallRead
| CallClose.

(** ** Session configuration, [SMBConfig] *)

Record SMBConfig : Type := {
  server : string;
  share : string;
  username : string;
  password : string;
  domain : string;
  port : Z;
  require_signing : bool;
  encrypt : bool;
  timeout : Z
}.

(** The service object: the configuration and the share root derived from it
    by [__init__]. *)
Record SMBFileService : Type := {
  config : SMBConfig;
  server_url : string
}.

(** [f"//{config.server}/{config.share}"] *)
Definition share_root (cfg : SMBConfig) : string :=
  "//" ++ server cfg ++ "/" ++ share cfg.

Definition new_service (cfg : SMBConfig) : SMBFileService :=
  {| config := cfg; server_url := share_root cfg |}.

(** [f"{self.server_url}/{remote_path.lstrip('/')}"] *)
Definition full_remote (svc : SMBFileService) (remote_path : string) : string :=
  server_url svc ++ "/" ++ lstrip_slash remote_path.

(** [chunk_size = 64 * 1024] *)
Definition chunk_size : nat := 64 * 1024.
Arguments chunk_size : simpl never.

(** ** The transfer service, [SMBFileService] *)

Section Service.

Context {C : SMBClient}.

(** Everything an operation can read or change: the local file system, the
    state of the SMB client and the calls made to it so far.  Logging is not
    part of the state: it changes nothing the operations observe. *)
Record World : Type := {
  w_local : gmap string lnode;
  w_smb : smb_state C;
  w_trace : list smb_call
}.

(** Computations: state passing with exceptions. *)
Definition M (A : Type) : Type := World -> outcome A * World.

Definition ret {A} (a : A) : M A := fun w => (Ok a, w).

Definition raise {A} (e : exn) : M A := fun w => (Raised e, w).

Definition bind {A B} (m : M A) (k : A -> M B) : M B :=
  fun w =>
    match m w with
    | (Ok a, w') => k a w'
    | (Raised e, w') => (Raised e, w')
    end.

(** [try: m  except Exception as e: h e] *)
Definition try_except {A} (m : M A) (h : exn -> M A) : M A :=
  fun w =>
    match m w with
    | (Ok a, w') => (Ok a, w')
    | (Raised e, w') => h e w'
    end.

(** Leaving a [with] block: [cleanup] runs whether [m] raised or not, and an
    exception of [cleanup] replaces the one of [m]. *)
Definition finally {A} (m : M A) (cleanup : M unit) : M A :=
  fun w =>
    match m w with
    | (r, w') =>
        match cleanup w' with
        | (Ok _, w'') => (r, w'')
        | (Raised e, w'') => (Raised e, w'')
        end
    end.

(** A call to the client: recorded in the trace, run on the client state. *)
Definition smb {A} (c : smb_call)
    (op : smb_state C -> outcome A * smb_state C) : M A :=
  fun w =>
    let (r, s) := op (w_smb w) in
    (r, {| w_local := w_local w; w_smb := s; w_trace := w_trace w ++ [c] |}).

(** An operation on the local file system. *)
Definition local {A} (op : gmap string lnode -> outcome A * gmap string lnode) : M A :=
  fun w =>
    let (r, fs) := op (w_local w) in
    (r, {| w_local := fs; w_smb := w_smb w; w_trace := w_trace w |}).

Definition local_read {A} (f : gmap string lnode -> outcome A) : M A :=
  local (fun fs => (f fs, fs)).

End Service.

Declare Scope py_scope.
Delimit Scope py_scope with py.
Notation "x <- m ;; k" := (bind m (fun x => k))
  (at level 100, m at next level, right associativity) : py_scope.
Notation "m ;;; k" := (bind m (fun _ => k))
  (at level 100, right associativity) : py_scope.
Local Open Scope py_scope.

Section Operations.

Context {C : SMBClient}.

(** [_setup_client_config]: the exception of a failed registration is logged
    and raised again. *)
Definition _setup_client_config (cfg : SMBConfig) : M (C:=C) unit :=
  let user :=
    if String.eqb (domain cfg) "" then username cfg
    else domain cfg ++ "\" ++ username cfg in
  try_except
    (smb (CallRegisterSession (server cfg))
         (register_session C (server cfg) user (password cfg) (port cfg)
                           (encrypt cfg) (timeout cfg)) ;;;
     smb (CallRequireSigning (require_signing cfg))
         (set_require_signing C (require_signing cfg)))
    (fun e => raise e).

(** [SMBFileService(config)] *)
Definition SMBFileService_init (cfg : SMBConfig) : M (C:=C) SMBFileService :=
  _setup_client_config cfg ;;; ret (new_service cfg).

(** [_ensure_remote_dir] *)
Definition _ensure_remote_dir (remote_dir_path : string) : M (C:=C) unit :=
  try_except
    (there <- smb (CallExists remote_dir_path) (path_exists C remote_dir_path) ;;
     if negb there
     then smb (CallMakedirs remote_dir_path) (makedirs C remote_dir_path)
     else ret tt)
    (fun e => ret tt).

(** The copy loop of [upload_file]: [local_f.read(chunk_size)] takes the next
    [chunk_size] bytes of what is left of the local file, an empty chunk ends
    the loop.  Every round consumes at least one byte, so [fuel] above the
    length of [rest] is never used up. *)
Fixpoint upload_loop (fuel : nat) (rest : bytes) (remote_f : smb_handle C)
    : M (C:=C) unit :=
  match fuel with
  | O => ret tt
  | S fuel' =>
      match take chunk_size rest with
      | [] => ret tt
      | chunk =>
          smb (CallWrite (length chunk)) (write C remote_f chunk) ;;;
          upload_loop fuel' (drop chunk_size rest) remote_f
      end
  end.

(** The two nested [with] blocks of [upload_file]: the local file is opened
    for reading, the remote one for writing, the loop runs, and the remote
    file is closed on the way out. *)
Definition upload_copy (local_file : PurePath) (full_remote_path : string)
    : M (C:=C) unit :=
  content <- local_read (fun fs => local_open_rb fs local_file) ;;
  remote_f <- smb (CallOpenWB full_remote_path) (open_file_wb C full_remote_path) ;;
  finally (upload_loop (S (length content)) content remote_f)
          (smb CallClose (close C remote_f)).

(** The body of the [try] of [upload_file]. *)
Definition upload_file_try (svc : SMBFileService) (local_path remote_path : string)
    (create_dirs : bool) : M (C:=C) pydict :=
  let local_file := Path local_path in
  there <- local_read (fun fs => local_exists fs local_file) ;;
  if negb there
  then raise (Exn FileNotFoundError ("Local file not found: " ++ local_path))
  else
    let full_remote_path := full_remote svc remote_path in
    (if create_dirs
     then _ensure_remote_dir (path_str (path_parent (Path full_remote_path)))
     else ret tt) ;;;
    upload_copy local_file full_remote_path ;;;
    file_size <- local_read (fun fs => local_stat_size fs local_file) ;;
    ret [ ("status", PStr "success");
          ("local_path", PStr (path_str local_file));
          ("remote_path", PStr full_remote_path);
          ("size_bytes", PInt file_size);
          ("message", PStr "File uploaded successfully") ].

(** [upload_file] *)
Definition upload_file (svc : SMBFileService) (local_path remote_path : string)
    (create_dirs : bool) : M (C:=C) pydict :=
  try_except
    (upload_file_try svc local_path remote_path create_dirs)
    (fun e => ret [ ("status", PStr "error");
                    ("local_path", PStr local_path);
                    ("remote_path", PStr remote_path);
                    ("error", PStr (exn_str e)) ]).

(** The copy loop of [download_file] over the results of the successive
    [remote_f.read(chunk_size)] calls. *)
Fixpoint download_loop (reads : list bytes) (fail : option exn)
    (local_file : PurePath) (total_size : Z) : M (C:=C) Z :=
  match reads with
  | [] =>
      smb CallRead (fun s => (match fail with
                              | None => Ok tt
                              | Some e => Raised e
                              end, s)) ;;;
      ret total_size
  | chunk :: reads' =>
      smb CallRead (fun s => (Ok tt, s)) ;;;
      match chunk with
      | [] => ret total_size
      | _ =>
          local (fun fs => (Ok tt, local_write local_file chunk fs)) ;;;
          download_loop reads' fail local_file (total_size + Z.of_nat (length chunk))
      end
  end.

(** The body of the [try] of [download_file]. *)
Definition download_file_try (svc : SMBFileService) (remote_path local_path : string)
    (overwrite : bool) : M (C:=C) pydict :=
  let local_file := Path local_path in
  there <- local_read (fun fs => local_exists fs local_file) ;;
  if there && negb overwrite
  then raise (Exn FileExistsError
                  ("Local file exists and overwrite=False: " ++ local_path))
  else
    local (local_mkdir_parents (path_parent local_file)) ;;;
    let full_remote_path := full_remote svc remote_path in
    remote_there <- smb (CallExists full_remote_path) (path_exists C full_remote_path) ;;
    if negb remote_there
    then raise (Exn FileNotFoundError ("Remote file not found: " ++ full_remote_path))
    else
      total_size <-
        (opened <- smb (CallOpenRB full_remote_path) (open_file_rb C full_remote_path) ;;
         finally (local (local_open_wb local_file) ;;;
                  download_loop (rs_chunks (snd opened)) (rs_fail (snd opened))
                                local_file 0)
                 (smb CallClose (close C (fst opened)))) ;;
      ret [ ("status", PStr "success");
            ("remote_path", PStr full_remote_path);
            ("local_path", PStr (path_str local_file));
            ("size_bytes", PInt total_size);
            ("message", PStr "File downloaded successfully") ].

(** [download_file] *)
Definition download_file (svc : SMBFileService) (remote_path local_path : string)
    (overwrite : bool) : M (C:=C) pydict :=
  try_except
    (download_file_try svc remote_path local_path overwrite)
    (fun e => ret [ ("status", PStr "error");
                    ("remote_path", PStr remote_path);
                    ("local_path", PStr local_path);
                    ("error", PStr (exn_str e)) ]).

(** One round of the loop of [list_files]: the entry's metadata, or the
    placeholder when [stat] or [isdir] raises. *)
Definition list_entry (full_remote_path entry : string) : M (C:=C) pyval :=
  let entry_path := full_remote_path ++ "/" ++ entry in
  try_except
    (stat_info <- smb (CallStat entry_path) (stat C entry_path) ;;
     is_dir <- smb (CallIsdir entry_path) (path_isdir C entry_path) ;;
     ret (PDict [ ("name", PStr entry);
                  ("size", PInt (st_size stat_info));
                  ("is_dir", PBool is_dir);
                  ("modified", PFloat (st_mtime stat_info)) ]))
    (fun e => ret (PDict [ ("name", PStr entry);
                           ("error", PStr (exn_str e)) ])).

(** [for entry in entries: files.append(...)] *)
Fixpoint list_entries (full_remote_path : string) (entries : list string)
    : M (C:=C) (list pyval) :=
  match entries with
  | [] => ret []
  | entry :: entries' =>
      f <- list_entry full_remote_path entry ;;
      fs <- list_entries full_remote_path entries' ;;
      ret (f :: fs)
  end.

(** [list_files] *)
Definition list_files (svc : SMBFileService) (remote_path : string) : M (C:=C) pydict :=
  try_except
    (let full_remote_path := full_remote svc remote_path in
     entries <- smb (CallListdir full_remote_path) (listdir C full_remote_path) ;;
     files <- list_entries full_remote_path entries ;;
     ret [ ("status", PStr "success");
           ("path", PStr full_remote_path);
           ("files", PList files);
           ("count", PInt (Z.of_nat (length files))) ])
    (fun e => ret [ ("status", PStr "error");
                    ("path", PStr remote_path);
                    ("error", PStr (exn_str e)) ]).

(** [test_connection] *)
Definition test_connection (svc : SMBFileService) : M (C:=C) pydict :=
  try_except
    (result <- smb (CallListdir (server_url svc)) (listdir C (server_url svc)) ;;
     ret [ ("status", PStr "success");
           ("server", PStr (server (config svc)));
           ("share", PStr (share (config svc)));
           ("signing_required", PBool (require_signing (config svc)));
           ("connection", PStr "active");
           ("message", PStr ("Connected successfully. Found "
                             ++ pretty (length result) ++ " items in root.")) ])
    (fun e => ret [ ("status", PStr "error");
                    ("server", PStr (server (config svc)));
                    ("share", PStr (share (config svc)));
                    ("error", PStr (exn_str e)) ]).

End Operations.

(** ** Loading the configuration *)

(** Pure code with exceptions. *)
Definition obind {A B} (o : outcome A) (k : A -> outcome B) : outcome B :=
  match o with
  | Ok a => k a
  | Raised e => Raised e
  end.

(** [all(xs)] over strings: every one is non-empty. *)
Definition all_nonempty (xs : list string) : bool :=
  forallb (fun s => negb (String.eqb s "")) xs.

Section ConfigFromEnv.

(** The builtin [int] applied to a string: the number, or [ValueError]. *)
Variable py_int : string -> outcome Z.

(** [os.getenv(name, default)] *)
Definition getenv (env : gmap string string) (name default : string) : string :=
  match env !! name with
  | Some v => v
  | None => default
  end.

(** [load_config_from_env]: the handler logs and raises the exception again. *)
Definition load_config_from_env (env : gmap string string) : outcome SMBConfig :=
  obind (py_int (getenv env "SMB_PORT" "445")) (fun port_ =>
  obind (py_int (getenv env "SMB_TIMEOUT" "30")) (fun timeout_ =>
    let config_ :=
      {| server := getenv env "SMB_SERVER" "";
         share := getenv env "SMB_SHARE" "";
         username := getenv env "SMB_USERNAME" "";
         password := getenv env "SMB_PASSWORD" "";
         domain := getenv env "SMB_DOMAIN" "";
         port := port_;
         require_signing :=
           String.eqb (lower (getenv env "SMB_REQUIRE_SIGNING" "true")) "true";
         encrypt := String.eqb (lower (getenv env "SMB_ENCRYPT" "false")) "true";
         timeout := timeout_ |} in
    if negb (all_nonempty [server config_; share config_;
                           username config_; password config_])
    then Raised (Exn ValueError
           "Missing required environment variables: SMB_SERVER, SMB_SHARE, SMB_USERNAME, SMB_PASSWORD")
    else Ok config_)).

End ConfigFromEnv.

(** One member of the JSON object of a configuration file.  A member named
    after a field of [SMBConfig] carries a value of the field's annotated type
    (the dataclass itself does not check it); any other member is [E_other]. *)
Inductive cfg_entry : Type :=
| E_server (v : string)
| E_share (v : string)
| E_username (v : string)
| E_password (v : string)
| E_domain (v : string)
| E_port (v : Z)
| E_require_signing (v : bool)
| E_encrypt (v : bool)
| E_timeout (v : Z)
| E_other (key : string) (v : pyval).

(** The keyword arguments collected from the members; a later member of the
    same name replaces an earlier one, as [json.load] does. *)
Record cfg_kwargs : Type := {
  k_server : option string;
  k_share : option string;
  k_username : option string;
  k_password : option string;
  k_domain : option string;
  k_port : option Z;
  k_require_signing : option bool;
  k_encrypt : option bool;
  k_timeout : option Z
}.

Definition no_kwargs : cfg_kwargs :=
  {| k_server := None; k_share := None; k_username := None; k_password := None;
     k_domain := None; k_port := None; k_require_signing := None;
     k_encrypt := None; k_timeout := None |}.

Definition add_kwarg (e : cfg_entry) (k : cfg_kwargs) : outcome cfg_kwargs :=
  match e with
  | E_server v => Ok {| k_server := Some v; k_share := k_share k; k_username := k_username k; k_password := k_password k; k_domain := k_domain k; k_port := k_port k; k_require_signing := k_require_signing k; k_encrypt := k_encrypt k; k_timeout := k_timeout k |}
  | E_share v => Ok {| k_server := k_server k; k_share := Some v; k_username := k_username k; k_password := k_password k; k_domain := k_domain k; k_port := k_port k; k_require_signing := k_require_signing k; k_encrypt := k_encrypt k; k_timeout := k_timeout k |}
  | E_username v => Ok {| k_server := k_server k; k_share := k_share k; k_username := Some v; k_password := k_password k; k_domain := k_domain k; k_port := k_port k; k_require_signing := k_require_signing k; k_encrypt := k_encrypt k; k_timeout := k_timeout k |}
  | E_password v => Ok {| k_server := k_server k; k_share := k_share k; k_username := k_username k; k_password := Some v; k_domain := k_domain k; k_port := k_port k; k_require_signing := k_require_signing k; k_encrypt := k_encrypt k; k_timeout := k_timeout k |}
  | E_domain v => Ok {| k_server := k_server k; k_share := k_share k; k_username := k_username k; k_password := k_password k; k_domain := Some v; k_port := k_port k; k_require_signing := k_require_signing k; k_encrypt := k_encrypt k; k_timeout := k_timeout k |}
  | E_port v => Ok {| k_server := k_server k; k_share := k_share k; k_username := k_username k; k_password := k_password k; k_domain := k_domain k; k_port := Some v; k_require_signing := k_require_signing k; k_encrypt := k_encrypt k; k_timeout := k_timeout k |}
  | E_require_signing v => Ok {| k_server := k_server k; k_share := k_share k; k_username := k_username k; k_password := k_password k; k_domain := k_domain k; k_port := k_port k; k_require_signing := Some v; k_encrypt := k_encrypt k; k_timeout := k_timeout k |}
  | E_encrypt v => Ok {| k_server := k_server k; k_share := k_share k; k_username := k_username k; k_password := k_password k; k_domain := k_domain k; k_port := k_port k; k_require_signing := k_require_signing k; k_encrypt := Some v; k_timeout := k_timeout k |}
  | E_timeout v => Ok {| k_server := k_server k; k_share := k_share k; k_username := k_username k; k_password := k_password k; k_domain := k_domain k; k_port := k_port k; k_require_signing := k_require_signing k; k_encrypt := k_encrypt k; k_timeout := Some v |}
  | E_other key _ =>
      Raised (Exn TypeError ("__init__() got an unexpected keyword argument '" ++ key ++ "'"))
  end.

Fixpoint collect_kwargs (es : list cfg_entry) (k : cfg_kwargs) : outcome cfg_kwargs :=
  match es with
  | [] => Ok k
  | e :: es' => obind (add_kwarg e k) (collect_kwargs es')
  end.

(** The constructor call of [load_config_from_file], with the members of
    the file as keyword arguments: the four fields without a default are
    required, the others fall back to their defaults; the values are stored as
    they come. *)
Definition SMBConfig_of_kwargs (k : cfg_kwargs) : outcome SMBConfig :=
  match k_server k, k_share k, k_username k, k_password k with
  | Some sv, Some sh, Some us, Some pw =>
      Ok {| server := sv; share := sh; username := us; password := pw;
            domain := default "" (k_domain k);
            port := default 445 (k_port k);
            require_signing := default true (k_require_signing k);
            encrypt := default false (k_encrypt k);
            timeout := default 30 (k_timeout k) |}
  | _, _, _, _ =>
      Raised (Exn TypeError "__init__() missing required positional arguments")
  end.

(** [load_config_from_file], given what [open] and [json.load] produce for the
    file: an exception, or the members of its JSON object. *)
Definition load_config_from_file (config_data : outcome (list cfg_entry))
    : outcome SMBConfig :=
  obind config_data (fun members =>
  obind (collect_kwargs members no_kwargs) SMBConfig_of_kwargs).

(** ** The request gateway ([smb_api.py]) *)

Inductive http_method : Type := GET | POST | DELETE.

(** What a view reads of the Flask request: the method, the query string
    ([request.args]) and the outcome of [request.get_json()], which raises on
    a body Flask rejects. *)
Record Request : Type := {
  method : http_method;
  args : list (string * string);
  get_json : outcome pyval
}.

(** A response: the body given to [jsonify] and the status code. *)
Definition Response : Type := pydict * Z.

(** [request.args.get(name)] *)
Fixpoint args_get (name : string) (a : list (string * string)) : pyval :=
  match a with
  | [] => PNone
  | (k, v) :: a' => if String.eqb name k then PStr v else args_get name a'
  end.

(** [type(v).__name__] *)
Definition py_type_name (v : pyval) : string :=
  match v with
  | PNone => "NoneType"
  | PBool _ => "bool"
  | PInt _ => "int"
  | PFloat _ => "float"
  | PStr _ => "str"
  | PList _ => "list"
  | PDict _ => "dict"
  end.

(** [needle in data] for a string [needle].  The texts of the built-in
    exceptions here and below are CPython's (3.8 to 3.10); no statement
    depends on them beyond being the text the handler reports. *)
Definition py_contains (needle : string) (data : pyval) : outcome bool :=
  match data with
  | PDict d => Ok (dict_has needle d)
  | PList l =>
      Ok (existsb (fun v => match v with
                            | PStr s => String.eqb s needle
                            | _ => false
                            end) l)
  | PStr s => Ok (str_contains needle s)
  | _ => Raised (Exn TypeError ("argument of type '" ++ py_type_name data ++ "' is not iterable"))
  end.

(** [data[key]] for a string [key]. *)
Definition py_getitem (data : pyval) (key : string) : outcome pyval :=
  match data with
  | PDict d =>
      match dict_get key d with
      | Some v => Ok v
      | None => Raised (Exn (OtherError "KeyError") ("'" ++ key ++ "'"))
      end
  | PList _ => Raised (Exn TypeError "list indices must be integers or slices, not str")
  | PStr _ => Raised (Exn TypeError "string indices must be integers")
  | _ => Raised (Exn TypeError ("'" ++ py_type_name data ++ "' object is not subscriptable"))
  end.

(** [v.lstrip('/')]: only a string has the method. *)
Definition py_lstrip_slash (v : pyval) : outcome string :=
  match v with
  | PStr s => Ok (lstrip_slash s)
  | _ => Raised (Exn AttributeError
                   ("'" ++ py_type_name v ++ "' object has no attribute 'lstrip'"))
  end.

(** [not data or 'remote_path' not in data] *)
Definition lacks_remote_path (data : pyval) : outcome bool :=
  if negb (truthy data) then Ok true
  else obind (py_contains "remote_path" data) (fun b => Ok (negb b)).

Definition error_body (msg : string) : pydict :=
  [ ("status", PStr "error"); ("error", PStr msg) ].

Section Gateway.

Context {C : SMBClient}.

Definition lift {A} (o : outcome A) : M (C:=C) A := fun w => (o, w).

(** The decorator [require_smb_service], applied to a view; [smb_service] is
    the module's global, [None] until the service is initialised. *)
Definition require_smb_service (smb_service : option SMBFileService)
    (f : SMBFileService -> Request -> M (C:=C) Response) (request : Request)
    : M (C:=C) Response :=
  match smb_service with
  | None => ret (error_body "SMB service not initialized", 500)
  | Some svc => f svc request
  end.

(** The view of [/smb/delete], under the decorator. *)
Definition delete_file_view (svc : SMBFileService) (request : Request)
    : M (C:=C) Response :=
  try_except
    (let finish (remote_path : pyval) : M (C:=C) Response :=
       if negb (truthy remote_path)
       then ret (error_body "remote_path parameter is required", 400)
       else ret (error_body "Delete functionality not yet implemented in SMB service", 501) in
     match method request with
     | DELETE => finish (args_get "path" (args request))
     | _ =>
         data <- lift (get_json request) ;;
         lacking <- lift (lacks_remote_path data) ;;
         if lacking
         then ret (error_body "remote_path is required", 400)
         else
           remote_path <- lift (py_getitem data "remote_path") ;;
           finish remote_path
     end)
    (fun e => ret (error_body (exn_str e), 500)).

Definition delete_file (smb_service : option SMBFileService) (request : Request)
    : M (C:=C) Response :=
  require_smb_service smb_service delete_file_view request.

(** The view of [/smb/mkdir], under the decorator. *)
Definition create_directory_view (svc : SMBFileService) (request : Request)
    : M (C:=C) Response :=
  try_except
    (data <- lift (get_json request) ;;
     lacking <- lift (lacks_remote_path data) ;;
     if lacking
     then ret (error_body "remote_path is required", 400)
     else
       remote_path <- lift (py_getitem data "remote_path") ;;
       stripped <- lift (py_lstrip_slash remote_path) ;;
       let full_remote_path := server_url svc ++ "/" ++ stripped in
       _ensure_remote_dir full_remote_path ;;;
       ret ([ ("status", PStr "success");
              ("remote_path", PStr full_remote_path);
              ("message", PStr "Directory created successfully") ], 200))
    (fun e => ret (error_body (exn_str e), 500)).

Definition create_directory (smb_service : option SMBFileService) (request : Request)
    : M (C:=C) Response :=
  require_smb_service smb_service create_directory_view request.

End Gateway.

(** ** A reference share *)

(** An in-memory share that stores what is written to it, with a plan of
    faults: the nth call to the client raises when the plan has an exception
    at position n.  It is one implementation of [SMBClient], used for the
    concrete runs and for the statements that need a share that keeps its
    data. *)
Module MemShare.

Inductive rnode : Type :=
| RFile (content : bytes) (mtime : float)
| RDir.

Record state : Type := {
  store : gmap string rnode;
  faults : list (option exn)
}.

(** Paths name entries by their normalised spelling; a path without
    components always names a directory. *)
Definition key (p : string) : string := path_str (Path p).

Definition lookup_path (st : gmap string rnode) (q : PurePath) : option rnode :=
  match p_parts q with
  | [] => Some RDir
  | _ => st !! path_str q
  end.

Definition lookup (st : gmap string rnode) (p : string) : option rnode :=
  lookup_path st (Path p).

Definition step {A} (op : gmap string rnode -> outcome A * gmap string rnode)
    (s : state) : outcome A * state :=
  match faults s with
  | Some e :: plan => (Raised e, {| store := store s; faults := plan |})
  | None :: plan =>
      let (r, st) := op (store s) in (r, {| store := st; faults := plan |})
  | [] =>
      let (r, st) := op (store s) in (r, {| store := st; faults := [] |})
  end.

Definition query {A} (f : gmap string rnode -> outcome A) : state -> outcome A * state :=
  step (fun st => (f st, st)).

Definition smb_error (what p : string) : exn :=
  Exn SMBError ("[NtStatus] " ++ what ++ ": '" ++ p ++ "'").

Definition do_exists (p : string) (st : gmap string rnode) : outcome bool :=
  Ok (match lookup st p with Some _ => true | None => false end).

Definition do_isdir (p : string) (st : gmap string rnode) : outcome bool :=
  Ok (match lookup st p with Some RDir => true | _ => false end).

Fixpoint makedirs_chain (root : string) (above todo : list string)
    (st : gmap string rnode) : outcome unit * gmap string rnode :=
  match todo with
  | [] => (Ok tt, st)
  | c :: rest =>
      let here := path_str (MkPath root (above ++ [c])) in
      match st !! here with
      | Some RDir => makedirs_chain root (above ++ [c]) rest st
      | Some (RFile _ _) => (Raised (smb_error "Not a directory" here), st)
      | None => makedirs_chain root (above ++ [c]) rest (<[here := RDir]> st)
      end
  end.

(** [makedirs] refuses a path that exists. *)
Definition do_makedirs (p : string) (st : gmap string rnode)
    : outcome unit * gmap string rnode :=
  match lookup st p with
  | Some _ => (Raised (smb_error "File exists" (key p)), st)
  | None => makedirs_chain (p_root (Path p)) [] (p_parts (Path p)) st
  end.

Definition do_listdir (p : string) (st : gmap string rnode) : outcome (list string) :=
  match lookup st p with
  | Some RDir =>
      Ok (omap (fun kv : string * rnode =>
                  if String.eqb (path_str (path_parent (Path (fst kv)))) (key p)
                     && negb (String.eqb (fst kv) (key p))
                  then Some (path_name (Path (fst kv)))
                  else None)
               (map_to_list st))
  | Some (RFile _ _) => Raised (smb_error "Not a directory" (key p))
  | None => Raised (smb_error "No such file or directory" (key p))
  end.

Definition do_stat (p : string) (st : gmap string rnode) : outcome stat_result :=
  match lookup st p with
  | Some (RFile content mtime) =>
      Ok {| st_size := Z.of_nat (length content); st_mtime := mtime |}
  | Some RDir => Ok {| st_size := 0; st_mtime := 0%float |}
  | None => Raised (smb_error "No such file or directory" (key p))
  end.

(** Opening for writing creates or truncates the file; the directory holding
    it must be there.  The handle is the entry's key. *)
Definition do_open_wb (p : string) (st : gmap string rnode)
    : outcome string * gmap string rnode :=
  match lookup st p with
  | Some RDir => (Raised (smb_error "Is a directory" (key p)), st)
  | _ =>
      match lookup_path st (path_parent (Path p)) with
      | Some RDir => (Ok (key p), <[key p := RFile [] 0%float]> st)
      | _ => (Raised (smb_error "No such file or directory" (key p)), st)
      end
  end.

Definition do_write (h : string) (chunk : bytes) (st : gmap string rnode)
    : outcome unit * gmap string rnode :=
  match st !! h with
  | Some (RFile content mtime) => (Ok tt, <[h := RFile (content ++ chunk) mtime]> st)
  | _ => (Raised (smb_error "Invalid handle" h), st)
  end.

(** The pieces [read(chunk_size)] delivers of [content], one call after the
    other. *)
Fixpoint chunks (fuel : nat) (content : bytes) : list bytes :=
  match fuel with
  | O => []
  | S fuel' =>
      match take chunk_size content with
      | [] => []
      | chunk => chunk :: chunks fuel' (drop chunk_size content)
      end
  end.

Definition do_open_rb (p : string) (st : gmap string rnode)
    : outcome (string * read_script) :=
  match lookup st p with
  | Some (RFile content _) =>
      Ok (key p, {| rs_chunks := chunks (S (length content)) content;
                    rs_fail := None |})
  | Some RDir => Raised (smb_error "Is a directory" (key p))
  | None => Raised (smb_error "No such file or directory" (key p))
  end.

Definition client : SMBClient := {|
  smb_state := state;
  smb_handle := string;
  register_session := fun _ _ _ _ _ _ => query (fun _ => Ok tt);
  set_require_signing := fun _ => query (fun _ => Ok tt);
  path_exists := fun p => query (do_exists p);
  path_isdir := fun p => query (do_isdir p);
  makedirs := fun p => step (do_makedirs p);
  listdir := fun p => query (do_listdir p);
  stat := fun p => query (do_stat p);
  open_file_wb := fun p => step (do_open_wb p);
  write := fun h chunk => step (do_write h chunk);
  open_file_rb := fun p => query (do_open_rb p);
  close := fun _ => query (fun _ => Ok tt)
|}.

(** A world over the reference share. *)
Definition world (fs : gmap string lnode) (st : gmap string rnode)
    (plan : list (option exn)) : World (C:=client) :=
  @Build_World client fs {| store := st; faults := plan |} [].

End MemShare.

(** ** Concrete data for the runs *)

Definition demo_config : SMBConfig :=
  {| server := "srv"; share := "data"; username := "alice"; password := "secret";
     domain := ""; port := 445; require_signing := true; encrypt := false;
     timeout := 30 |}.

Definition demo_service : SMBFileService := new_service demo_config.

Definition demo_bytes : bytes := [Byte.x68; Byte.x69; Byte.x0a].

(** A share holding its root directory only. *)
Definition demo_share : gmap string MemShare.rnode :=
  {[ "//srv" := MemShare.RDir; "//srv/data" := MemShare.RDir ]}.

(** A local file system with one file, in the working directory. *)
Definition demo_local : gmap string lnode :=
  {[ "hi.txt" := LFile demo_bytes ]}.

(** ** The service called with the gateway's untyped arguments *)

Section DynamicCalls.

Context {C : SMBClient}.

(** The body of [upload_file] when [remote_path] and [create_dirs] are
    whatever the request carried: the f-string calls [remote_path.lstrip],
    which only a string has, and [if create_dirs] takes the truth value. *)
Definition upload_file_dyn_try (svc : SMBFileService) (local_path : string)
    (remote_path create_dirs : pyval) : M (C:=C) pydict :=
  let local_file := Path local_path in
  there <- local_read (fun fs => local_exists fs local_file) ;;
  if negb there
  then raise (Exn FileNotFoundError ("Local file not found: " ++ local_path))
  else
    stripped <- lift (py_lstrip_slash remote_path) ;;
    let full_remote_path := server_url svc ++ "/" ++ stripped in
    (if truthy create_dirs
     then _ensure_remote_dir (path_str (path_parent (Path full_remote_path)))
     else ret tt) ;;;
    upload_copy local_file full_remote_path ;;;
    file_size <- local_read (fun fs => local_stat_size fs local_file) ;;
    ret [ ("status", PStr "success");
          ("local_path", PStr (path_str local_file));
          ("remote_path", PStr full_remote_path);
          ("size_bytes", PInt file_size);
          ("message", PStr "File uploaded successfully") ].

Definition upload_file_dyn (svc : SMBFileService) (local_path : string)
    (remote_path create_dirs : pyval) : M (C:=C) pydict :=
  try_except
    (upload_file_dyn_try svc local_path remote_path create_dirs)
    (fun e => ret [ ("status", PStr "error");
                    ("local_path", PStr local_path);
                    ("remote_path", remote_path);
                    ("error", PStr (exn_str e)) ]).

(** The body of [download_file] with an untyped [remote_path]: the f-string
    comes after the local check and the creation of the parent directories. *)
Definition download_file_dyn_try (svc : SMBFileService) (remote_path : pyval)
    (local_path : string) (overwrite : bool) : M (C:=C) pydict :=
  let local_file := Path local_path in
  there <- local_read (fun fs => local_exists fs local_file) ;;
  if there && negb overwrite
  then raise (Exn FileExistsError
                  ("Local file exists and overwrite=False: " ++ local_path))
  else
    local (local_mkdir_parents (path_parent local_file)) ;;;
    stripped <- lift (py_lstrip_slash remote_path) ;;
    let full_remote_path := server_url svc ++ "/" ++ stripped in
    remote_there <- smb (CallExists full_remote_path) (path_exists C full_remote_path) ;;
    if negb remote_there
    then raise (Exn FileNotFoundError ("Remote file not found: " ++ full_remote_path))
    else
      total_size <-
        (opened <- smb (CallOpenRB full_remote_path) (open_file_rb C full_remote_path) ;;
         finally (local (local_open_wb local_file) ;;;
                  download_loop (rs_chunks (snd opened)) (rs_fail (snd opened))
                                local_file 0)
                 (smb CallClose (close C (fst opened)))) ;;
      ret [ ("status", PStr "success");
            ("remote_path", PStr full_remote_path);
            ("local_path", PStr (path_str local_file));
            ("size_bytes", PInt total_size);
            ("message", PStr "File downloaded successfully") ].

Definition download_file_dyn (svc : SMBFileService) (remote_path : pyval)
    (local_path : string) (overwrite : bool) : M (C:=C) pydict :=
  try_except
    (download_file_dyn_try svc remote_path local_path overwrite)
    (fun e => ret [ ("status", PStr "error");
                    ("remote_path", remote_path);
                    ("local_path", PStr local_path);
                    ("error", PStr (exn_str e)) ]).

End DynamicCalls.

(** ** Scratch files *)

(** [tempfile.NamedTemporaryFile(delete=False)], the write of [data] and the
    close: the scratch file the platform named holds [data]. *)
Definition local_create (p : PurePath) (data : bytes) (fs : gmap string lnode)
    : outcome unit * gmap string lnode :=
  (Ok tt, <[path_str p := LFile data]> fs).

(** [os.unlink(p)] *)
Definition local_unlink (p : PurePath) (fs : gmap string lnode)
    : outcome unit * gmap string lnode :=
  match local_lookup fs p with
  | Some (LFile _) | Some (LSealed _) => (Ok tt, delete (path_str p) fs)
  | Some LDir => (Raised (Exn IsADirectoryError ("[Errno 21] Is a directory: '" ++ path_str p ++ "'")), fs)
  | Some (LBroken e) => (Raised e, fs)
  | None => (Raised (Exn FileNotFoundError ("[Errno 2] No such file or directory: '" ++ path_str p ++ "'")), fs)
  end.

(** ** The other routes of the gateway *)

(** [d[k] = v]: replaces the value of an existing key in place, appends a new
    key at the end. *)
Fixpoint dict_set (k : string) (v : pyval) (d : pydict) : pydict :=
  match d with
  | [] => [(k, v)]
  | (k', v') :: d' =>
      if String.eqb k k' then (k, v) :: d' else (k', v') :: dict_set k v d'
  end.

(** Truth value of an optional command-line string: [None] and the empty
    string are false. *)
Definition given (o : option string) : bool :=
  match o with
  | Some v => negb (String.eqb v "")
  | None => false
  end.

(** [request.args.get(name, default)] and [request.form.get(name, default)] *)
Fixpoint args_get_default (name default : string) (a : list (string * string)) : string :=
  match a with
  | [] => default
  | (k, v) :: a' => if String.eqb name k then v else args_get_default name default a'
  end.

(** [data.get(key, default)]: only a dictionary has the method. *)
Definition py_get (data : pyval) (key : string) (default : pyval) : outcome pyval :=
  match data with
  | PDict d => Ok (match dict_get key d with Some v => v | None => default end)
  | _ => Raised (Exn AttributeError
                   ("'" ++ py_type_name data ++ "' object has no attribute 'get'"))
  end.

(** [result['status'] == 'success'] *)
Definition status_is_success (result : pydict) : outcome bool :=
  match dict_get "status" result with
  | Some (PStr s) => Ok (String.eqb s "success")
  | Some _ => Ok false
  | None => Raised (Exn (OtherError "KeyError") "'status'")
  end.

(** [200 if result['status'] == 'success' else 400] *)
Definition status_code (result : pydict) : outcome Z :=
  obind (status_is_success result) (fun ok => Ok (if ok then 200 else 400)).

(** ['file_data' not in data or 'filename' not in data] *)
Definition lacks_upload_fields (data : pyval) : outcome bool :=
  obind (py_contains "file_data" data) (fun has_data =>
    if negb has_data then Ok true
    else obind (py_contains "filename" data) (fun has_name => Ok (negb has_name))).

(** [Path(remote_path).name] *)
Definition py_path_name (v : pyval) : outcome string :=
  match v with
  | PStr s => Ok (path_name (Path s))
  | _ => Raised (Exn TypeError
                   ("expected str, bytes or os.PathLike object, not " ++ py_type_name v))
  end.

(** What the upload view reads of the request: the part named [file] of a
    multipart body with its file name and content, the form fields, and the
    JSON side of the request. *)
Record UploadRequest : Type := {
  u_file : option (string * bytes);
  u_form : list (string * string);
  u_is_json : bool;
  u_get_json : outcome pyval
}.

(** What the download view answers: a JSON body with a status code, or the
    file itself ([send_file] with the path and the download name). *)
Inductive DownloadResponse : Type :=
| JsonResponse (body : pydict) (code : Z)
| SendFile (path : string) (download_name : string).

Module smb_api.

Section Routes.

Context {C : SMBClient}.

(** [werkzeug.utils.secure_filename], [base64.b64decode] and
    [base64.b64encode(...).decode('utf-8')]. *)
Variable secure_filename : string -> string.
Variable b64decode : pyval -> outcome bytes.
Variable b64encode : bytes -> string.

(** [secure_filename] applied to a value of the body: it needs a string. *)
Definition py_secure_filename (v : pyval) : outcome string :=
  match v with
  | PStr s => Ok (secure_filename s)
  | _ => Raised (Exn TypeError
                   ("normalize() argument 2 must be str, not " ++ py_type_name v))
  end.

(** The view of [/smb/test], under the decorator. *)
Definition test_connection_view (svc : SMBFileService) (request : Request)
    : M (C:=C) Response :=
  try_except
    (result <- test_connection svc ;;
     code <- lift (status_code result) ;;
     ret (result, code))
    (fun e => ret (error_body (exn_str e), 500)).

Definition test_connection (smb_service : option SMBFileService) (request : Request)
    : M (C:=C) Response :=
  require_smb_service smb_service test_connection_view request.

(** The view of [/smb/files], under the decorator. *)
Definition list_files_view (svc : SMBFileService) (request : Request)
    : M (C:=C) Response :=
  try_except
    (let remote_path := args_get_default "path" "" (args request) in
     result <- list_files svc remote_path ;;
     code <- lift (status_code result) ;;
     ret (result, code))
    (fun e => ret (error_body (exn_str e), 500)).

Definition list_files (smb_service : option SMBFileService) (request : Request)
    : M (C:=C) Response :=
  require_smb_service smb_service list_files_view request.

(** The end of the upload view: the payload goes to the scratch file, the
    service uploads it, and the scratch file is unlinked on the way out, a
    failure of the unlink being logged only. *)
Definition upload_staged (svc : SMBFileService) (temp_path : string)
    (file_data : bytes) (remote_path create_dirs : pyval) : M (C:=C) Response :=
  local (local_create (Path temp_path) file_data) ;;;
  finally
    (result <- upload_file_dyn svc temp_path remote_path create_dirs ;;
     code <- lift (status_code result) ;;
     ret (result, code))
    (try_except (local (local_unlink (Path temp_path))) (fun e => ret tt)).

(** The view of [/smb/upload], under the decorator; [temp_path] is the name
    the platform gives the scratch file. *)
Definition upload_file_view (temp_path : string) (svc : SMBFileService)
    (request : UploadRequest) : M (C:=C) Response :=
  try_except
    (match u_file request with
     | Some (name, content) =>
         if String.eqb name ""
         then ret (error_body "No file selected", 400)
         else
           let filename := secure_filename name in
           let remote_path := args_get_default "remote_path" filename (u_form request) in
           let create_dirs :=
             String.eqb (lower (args_get_default "create_dirs" "true" (u_form request)))
                        "true" in
           upload_staged svc temp_path content (PStr remote_path) (PBool create_dirs)
     | None =>
         if u_is_json request
         then
           data <- lift (u_get_json request) ;;
           lacking <- lift (lacks_upload_fields data) ;;
           if lacking
           then ret (error_body "JSON upload requires file_data (base64) and filename fields",
                     400)
           else
             decoded <-
               try_except
                 (file_data <- lift (obind (py_getitem data "file_data") b64decode) ;;
                  filename <- lift (obind (py_getitem data "filename") py_secure_filename) ;;
                  ret (inr (file_data, filename)))
                 (fun e => ret (inl (error_body ("Invalid base64 data: " ++ exn_str e), 400))) ;;
             match decoded with
             | inl response => ret response
             | inr (file_data, filename) =>
                 data' <- lift (u_get_json request) ;;
                 remote_path <- lift (py_get data' "remote_path" (PStr filename)) ;;
                 create_dirs <- lift (py_get data' "create_dirs" (PBool true)) ;;
                 upload_staged svc temp_path file_data remote_path create_dirs
             end
         else ret (error_body "No file data provided", 400)
     end)
    (fun e => ret (error_body (exn_str e), 500)).

Definition upload_file (temp_path : string) (smb_service : option SMBFileService)
    (request : UploadRequest) : M (C:=C) Response :=
  match smb_service with
  | None => ret (error_body "SMB service not initialized", 500)
  | Some svc => upload_file_view temp_path svc request
  end.

(** The end of the download view, once [remote_path] and [return_file] are
    read: the empty scratch file is made, the service downloads into it, and
    the answer is the failed record, the file itself, or the record with the
    content in base 64.  The scratch file is unlinked on the way out unless
    [return_file] holds. *)
Definition download_staged (svc : SMBFileService) (temp_path : string)
    (remote_path return_file : pyval) : M (C:=C) DownloadResponse :=
  if negb (truthy remote_path)
  then ret (JsonResponse (error_body "remote_path parameter is required") 400)
  else
    local (local_create (Path temp_path) []) ;;;
    finally
      (result <- download_file_dyn svc remote_path temp_path true ;;
       ok <- lift (status_is_success result) ;;
       if negb ok
       then ret (JsonResponse result 400)
       else if truthy return_file
       then
         filename <- lift (py_path_name remote_path) ;;
         ret (SendFile temp_path filename)
       else
         content <- local_read (fun fs => local_open_rb fs (Path temp_path)) ;;
         ret (JsonResponse
                (dict_set "encoding" (PStr "base64")
                   (dict_set "file_data" (PStr (b64encode content)) result))
                200))
      (if negb (truthy return_file)
       then try_except (local (local_unlink (Path temp_path))) (fun e => ret tt)
       else ret tt).

(** The view of [/smb/download], under the decorator. *)
Definition download_file_view (temp_path : string) (svc : SMBFileService)
    (request : Request) : M (C:=C) DownloadResponse :=
  try_except
    (match method request with
     | GET =>
         let remote_path := args_get "path" (args request) in
         let return_file :=
           String.eqb (lower (args_get_default "return_file" "false" (args request)))
                      "true" in
         download_staged svc temp_path remote_path (PBool return_file)
     | _ =>
         data <- lift (get_json request) ;;
         lacking <- lift (lacks_remote_path data) ;;
         if lacking
         then ret (JsonResponse (error_body "remote_path is required") 400)
         else
           remote_path <- lift (py_getitem data "remote_path") ;;
           return_file <- lift (py_get data "return_file" (PBool false)) ;;
           download_staged svc temp_path remote_path return_file
     end)
    (fun e => ret (JsonResponse (error_body (exn_str e)) 500)).

Definition download_file (temp_path : string) (smb_service : option SMBFileService)
    (request : Request) : M (C:=C) DownloadResponse :=
  match smb_service with
  | None => ret (JsonResponse (error_body "SMB service not initialized") 500)
  | Some svc => download_file_view temp_path svc request
  end.

(** [init_smb_service_from_env]: the new value of the global [smb_service]
    beside the boolean returned. *)
Definition init_smb_service_from_env (py_int : string -> outcome Z)
    (env : gmap string string) (smb_service : option SMBFileService)
    : M (C:=C) (bool * option SMBFileService) :=
  try_except
    (config_ <- lift (load_config_from_env py_int env) ;;
     svc <- SMBFileService_init config_ ;;
     ret (true, Some svc))
    (fun e => ret (false, smb_service)).

(** [init_smb_service_from_config], given what reading the file produces. *)
Definition init_smb_service_from_config (config_data : outcome (list cfg_entry))
    (smb_service : option SMBFileService)
    : M (C:=C) (bool * option SMBFileService) :=
  try_except
    (config_ <- lift (load_config_from_file config_data) ;;
     svc <- SMBFileService_init config_ ;;
     ret (true, Some svc))
    (fun e => ret (false, smb_service)).

(** What [parse_args] returns to [main]. *)
Record Namespace : Type := {
  ns_config : option string;
  ns_env : bool;
  ns_host : string;
  ns_port : Z;
  ns_debug : bool
}.

(** How [main] ends: with [exit(code)], or in [app.run(host, port, debug)]
    serving with the global [smb_service]. *)
Inductive Startup : Type :=
| Exit (code : Z)
| Run (smb_service : option SMBFileService) (host : string) (port_ : Z) (debug : bool).

(** [main], after [parse_args]; [read_config] stands for [open] and
    [json.load] on the file named by [--config]. *)
Definition main (py_int : string -> outcome Z) (env : gmap string string)
    (read_config : string -> outcome (list cfg_entry)) (args : Namespace)
    (smb_service : option SMBFileService) : M (C:=C) Startup :=
  if ns_env args
  then
    r <- init_smb_service_from_env py_int env smb_service ;;
    if negb (fst r) then ret (Exit 1)
    else ret (Run (snd r) (ns_host args) (ns_port args) (ns_debug args))
  else if given (ns_config args)
  then
    r <- init_smb_service_from_config
           (read_config (default "" (ns_config args))) smb_service ;;
    if negb (fst r) then ret (Exit 1)
    else ret (Run (snd r) (ns_host args) (ns_port args) (ns_debug args))
  else
    r <- init_smb_service_from_env py_int env smb_service ;;
    if negb (fst r) then ret (Exit 1)
    else ret (Run (snd r) (ns_host args) (ns_port args) (ns_debug args)).

End Routes.

End smb_api.

(** ** The command line of the service ([main] of [smb_service.py]) *)

(** The sub-command [parse_args] found, with its arguments; [CmdNone] when the
    command line names none. *)
Inductive Command : Type :=
| CmdUpload (local_path remote_path : string) (no_create_dirs : bool)
| CmdDownload (remote_path local_path : string) (overwrite : bool)
| CmdList (remote_path : string)
| CmdTest
| CmdNone.

(** What [parse_args] returns to [main]. *)
Record Namespace : Type := {
  args_config : option string;
  args_env : bool;
  args_server : option string;
  args_share : option string;
  args_username : option string;
  args_password : option string;
  args_domain : string;
  args_no_signing : bool;
  args_command : Command
}.

(** How a run of [main] ends when no exception escapes it: in
    [parser.error], which prints the usage and exits with status 2; after
    [parser.print_help()]; or after the result is printed, returning (status 0)
    or in [exit(1)]. *)
Inductive Ending : Type :=
| UsageError (message : string)
| HelpPrinted
| ResultPrinted (result : pydict) (exit_status : Z).

(** [1] when [result.get('status') == 'error'], the [0] of a normal return
    otherwise. *)
Definition exit_status_of (result : pydict) : Z :=
  match dict_get "status" result with
  | Some (PStr s) => if String.eqb s "error" then 1 else 0
  | _ => 0
  end.

Section CommandLine.

Context {C : SMBClient}.

Variable py_int : string -> outcome Z.
Variable env : gmap string string.
Variable read_config : string -> outcome (list cfg_entry).

(** The configuration [main] works with: from the environment, from the file,
    or from the options; [inr] is the message given to [parser.error]. *)
Definition main_config (args : Namespace) : outcome (SMBConfig + string) :=
  if args_env args
  then obind (load_config_from_env py_int env) (fun c => Ok (inl c))
  else if given (args_config args)
  then obind (load_config_from_file (read_config (default "" (args_config args))))
             (fun c => Ok (inl c))
  else if negb (given (args_server args) && given (args_share args)
                && given (args_username args) && given (args_password args))
  then Ok (inr "Must provide either --env, --config file, or server/share/username/password")
  else Ok (inl {| server := default "" (args_server args);
                  share := default "" (args_share args);
                  username := default "" (args_username args);
                  password := default "" (args_password args);
                  domain := args_domain args;
                  port := 445;
                  require_signing := negb (args_no_signing args);
                  encrypt := false;
                  timeout := 30 |}).

(** The [try] of [main]: the command runs, its result is printed, and
    [exit(1)] follows an error status. *)
Definition main_command (service : SMBFileService) (command : Command)
    : M (C:=C) Ending :=
  match command with
  | CmdUpload local_path remote_path no_create_dirs =>
      result <- upload_file service local_path remote_path (negb no_create_dirs) ;;
      ret (ResultPrinted result (exit_status_of result))
  | CmdDownload remote_path local_path overwrite =>
      result <- download_file service remote_path local_path overwrite ;;
      ret (ResultPrinted result (exit_status_of result))
  | CmdList remote_path =>
      result <- list_files service remote_path ;;
      ret (ResultPrinted result (exit_status_of result))
  | CmdTest =>
      result <- test_connection service ;;
      ret (ResultPrinted result (exit_status_of result))
  | CmdNone => ret HelpPrinted
  end.

(** [main], after [parse_args].  [service.close()] in the [finally] only
    logs. *)
Definition main (args : Namespace) : M (C:=C) Ending :=
  resolved <- lift (main_config args) ;;
  match resolved with
  | inr message => ret (UsageError message)
  | inl config_ =>
      service <- SMBFileService_init config_ ;;
      finally (main_command service (args_command args)) (ret tt)
  end.

End CommandLine.

(** * The vocabulary of the statements *)

(** The two shapes of an element of [files]. *)
Definition placeholder_entry (entry : string) (e : exn) : pyval :=
  PDict [ ("name", PStr entry); ("error", PStr (exn_str e)) ].

Definition full_entry (entry : string) (info : stat_result) (is_dir : bool) : pyval :=
  PDict [ ("name", PStr entry);
          ("size", PInt (st_size info));
          ("is_dir", PBool is_dir);
          ("modified", PFloat (st_mtime info)) ].

Section Vocabulary.

Context {C : SMBClient}.

(** [yields P m]: whatever [m] returns without raising satisfies [P]. *)
Definition yields {A} (P : A -> Prop) (m : M (C:=C) A) : Prop :=
  forall w a w', m w = (Ok a, w') -> P a.

(** What the loop appends for [entry] when it runs from world [w]: the
    placeholder when [stat] raises or, [stat] having returned, [isdir] raises;
    the full entry otherwise. *)
Definition entry_described (full_remote_path entry : string) (w : World (C:=C))
    (f : pyval) : Prop :=
  let entry_path := full_remote_path ++ "/" ++ entry in
  match stat C entry_path (w_smb w) with
  | (Raised e, _) => f = placeholder_entry entry e
  | (Ok info, s1) =>
      match path_isdir C entry_path s1 with
      | (Raised e, _) => f = placeholder_entry entry e
      | (Ok is_dir, _) => f = full_entry entry info is_dir
      end
  end.

(** [files] describes [entries] one by one, each entry from the world the
    previous ones left. *)
Fixpoint listing_described (full_remote_path : string) (entries : list string)
    (w : World (C:=C)) (files : list pyval) : Prop :=
  match entries, files with
  | [], [] => True
  | entry :: entries', f :: files' =>
      entry_described full_remote_path entry w f
      /\ listing_described full_remote_path entries'
           (snd (list_entry full_remote_path entry w)) files'
  | _, _ => False
  end.

(** Calls to the share leave the local file system alone. *)
Definition keeps_local {A} (m : M (C:=C) A) : Prop :=
  forall w, w_local (snd (m w)) = w_local w.

End Vocabulary.

(** A result record carries one of the two status tags, and an [error] field
    exactly when the tag is [error]. *)
Definition result_record (d : pydict) : Prop :=
  (dict_get "status" d = Some (PStr "success")
   \/ dict_get "status" d = Some (PStr "error"))
  /\ (dict_has "error" d = true <-> dict_get "status" d = Some (PStr "error")).

(** [m] returns a result record from every world: it raises nothing. *)
Definition returns_result {C : SMBClient} (m : M (C:=C) pydict) : Prop :=
  forall w, exists d w', m w = (Ok d, w') /\ result_record d.

(** A share with one file besides its root, and a plan in which the third
    call to the client fails. *)
Definition share_with_file : gmap string MemShare.rnode :=
  <[ "//srv/data/a.txt" := MemShare.RFile demo_bytes 0%float ]> demo_share.

Definition access_denied : exn := Exn SMBError "STATUS_ACCESS_DENIED".

(** The share root and the remote path of a service built from [cfg]. *)
Definition remote_of (cfg : SMBConfig) (remote_path : string) : string :=
  share_root cfg ++ "/" ++ lstrip_slash remote_path.

(** The world in which the copy of [upload_file] starts: after the optional
    creation of the remote directory. *)
Definition after_create_dirs {C : SMBClient} (cfg : SMBConfig) (remote_path : string)
    (create_dirs : bool) (w : World (C:=C)) : World (C:=C) :=
  snd ((if create_dirs
        then _ensure_remote_dir (path_str (path_parent (Path (remote_of cfg remote_path))))
        else ret tt) w).

(** What the share raises when the connection is gone. *)
Definition connection_lost : exn := Exn SMBError "STATUS_CONNECTION_DISCONNECTED".

(** [fs'] is [fs] with directories added: every path of [fs] names in [fs']
    what it named before, and a path new in [fs'] names a directory. *)
Definition dirs_added (fs fs' : gmap string lnode) : Prop :=
  forall k, fs' !! k = fs !! k \/ (fs !! k = None /\ fs' !! k = Some LDir).

(** A world over the reference share with no fault planned. *)
Abbreviation calm_world fs st tr :=
  (@Build_World MemShare.client fs {| MemShare.store := st; MemShare.faults := [] |} tr).

(** The record and the world of the upload of the demo file. *)
Definition demo_upload_record : pydict :=
  [ ("status", PStr "success");
    ("local_path", PStr "hi.txt");
    ("remote_path", PStr "//srv/data/in/a.txt");
    ("size_bytes", PInt 3);
    ("message", PStr "File uploaded successfully") ].

Definition demo_uploaded : World (C:=MemShare.client) :=
  snd (upload_file (C:=MemShare.client) demo_service "hi.txt" "in/a.txt" true
         (MemShare.world demo_local demo_share [])).

(** A configuration file whose server is the empty string. *)
Definition file_with_empty_server : list cfg_entry :=
  [ E_server ""; E_share "data"; E_username "alice"; E_password "secret" ].

(** The configuration file that spells out every field of [cfg]. *)
Definition members_of (cfg : SMBConfig) : list cfg_entry :=
  [ E_server (server cfg); E_share (share cfg); E_username (username cfg);
    E_password (password cfg); E_domain (domain cfg); E_port (port cfg);
    E_require_signing (require_signing cfg); E_encrypt (encrypt cfg);
    E_timeout (timeout cfg) ].

(** The request carries a remote path the view accepts: a non-empty [path] in
    the query string of a DELETE, or a JSON object with a truthy [remote_path]
    otherwise. *)
Definition supplies_path (request : Request) : bool :=
  match method request with
  | DELETE => truthy (args_get "path" (args request))
  | _ =>
      match get_json request with
      | Ok (PDict d) =>
          match dict_get "remote_path" d with
          | Some v => truthy v
          | None => false
          end
      | _ => false
      end
  end.

Definition not_implemented_body : pydict :=
  error_body "Delete functionality not yet implemented in SMB service".

(** ** Steps on the local file system and calls to the share *)

(** Every run of [m] takes the local file system to one related to it by [R]. *)
Definition local_step {C : SMBClient} {A} (R : relation (gmap string lnode))
    (m : M (C:=C) A) : Prop :=
  forall w, R (w_local w) (w_local (snd (m w))).

(** Away from [key], [fs'] is [fs] with directories added. *)
Definition touches_only (key : string) (fs fs' : gmap string lnode) : Prop :=
  forall k, k <> key ->
    fs' !! k = fs !! k \/ (fs !! k = None /\ fs' !! k = Some LDir).

(** Every run of [m] adds calls to the trace, all of them [allowed]. *)
Definition calls_only {C : SMBClient} {A} (allowed : smb_call -> bool)
    (m : M (C:=C) A) : Prop :=
  forall w, exists added,
    w_trace (snd (m w)) = (w_trace w ++ added)%list /\ forallb allowed added = true.

(** The calls of [download_file]: none of them writes to the share. *)
Definition download_call (c : smb_call) : bool :=
  match c with
  | CallExists _ | CallOpenRB _ | CallRead | CallClose => true
  | _ => false
  end.

(** The calls of [list_files] and [test_connection]. *)
Definition listing_call (c : smb_call) : bool :=
  match c with
  | CallListdir _ | CallStat _ | CallIsdir _ => true
  | _ => false
  end.

(** The calls of [upload_file]: none of them reads a remote file. *)
Definition upload_call (c : smb_call) : bool :=
  match c with
  | CallExists _ | CallMakedirs _ | CallOpenWB _ | CallWrite _ | CallClose => true
  | _ => false
  end.

(** A share like the reference one, except that a file opened for reading
    delivers one chunk and then loses the connection. *)
Definition flaky_client : SMBClient := {|
  smb_state := MemShare.state;
  smb_handle := string;
  register_session := register_session MemShare.client;
  set_require_signing := set_require_signing MemShare.client;
  path_exists := path_exists MemShare.client;
  path_isdir := path_isdir MemShare.client;
  makedirs := makedirs MemShare.client;
  listdir := listdir MemShare.client;
  stat := stat MemShare.client;
  open_file_wb := open_file_wb MemShare.client;
  write := write MemShare.client;
  open_file_rb := fun p =>
    MemShare.query (fun st =>
      Ok (MemShare.key p, {| rs_chunks := [demo_bytes]; rs_fail := Some connection_lost |}));
  close := close MemShare.client
|}.

(** An [int] that reads the two numbers of the default configuration. *)
Definition demo_int (s : string) : outcome Z :=
  if String.eqb s "445" then Ok 445
  else if String.eqb s "30" then Ok 30
  else Raised (Exn ValueError ("invalid literal for int() with base 10: '" ++ s ++ "'")).

(** An environment with the four required variables, and signing set to [1]. *)
Definition demo_env : gmap string string :=
  {[ "SMB_SERVER" := "srv"; "SMB_SHARE" := "data"; "SMB_USERNAME" := "alice";
     "SMB_PASSWORD" := "secret"; "SMB_REQUIRE_SIGNING" := "1" ]}.

(** The members of a configuration file name a field more than once, or
    not at all; these tell whether a member of the kind is there. *)
Definition is_server (e : cfg_entry) : bool :=
  match e with E_server _ => true | _ => false end.
Definition is_share (e : cfg_entry) : bool :=
  match e with E_share _ => true | _ => false end.
Definition is_username (e : cfg_entry) : bool :=
  match e with E_username _ => true | _ => false end.
Definition is_password (e : cfg_entry) : bool :=
  match e with E_password _ => true | _ => false end.
Definition is_other (e : cfg_entry) : bool :=
  match e with E_other _ _ => true | _ => false end.

(** The status code the query routes give a result record:
    [200 if result['status'] == 'success' else 400]. *)
Definition answer_code (result : pydict) : Z :=
  match dict_get "status" result with
  | Some (PStr s) => if String.eqb s "success" then 200 else 400
  | _ => 400
  end.

(** The answer of every route when the service is not initialised. *)
Definition not_initialized : Response :=
  (error_body "SMB service not initialized", 500).

(** ** Local files out of reach *)

(** A local file system whose one file the process may not read. *)
Definition demo_sealed_local : gmap string lnode :=
  {[ "hi.txt" := LSealed demo_bytes ]}.

(** What [stat] raises under a directory that may not be searched. *)
Definition stat_denied : exn :=
  Exn (OtherError "PermissionError") "[Errno 13] Permission denied: 'locked/a.txt'".

(** A local file system with a path that cannot be looked up. *)
Definition demo_locked_local : gmap string lnode :=
  {[ "locked/a.txt" := LBroken stat_denied ]}.

(** ** The writes of an upload *)

(** The [pieces] written through [remote_f] one after the other, up to the
    first write that raises. *)
Fixpoint write_pieces {C : SMBClient} (remote_f : smb_handle C) (pieces : list bytes)
    : M (C:=C) unit :=
  match pieces with
  | [] => ret tt
  | piece :: rest =>
      smb (CallWrite (length piece)) (write C remote_f piece) ;;;
      write_pieces remote_f rest
  end.

(** ** Requests the delete view cannot read *)

(** The body of a request that is not a DELETE cannot be read: [get_json]
    raises, or it delivers a value that is no object and on which the
    membership test or the subscript raises: a number other than zero, [true],
    a string that contains [remote_path], an array with the string
    [remote_path] among its elements. *)
Definition body_unreadable (request : Request) : bool :=
  match method request with
  | DELETE => false
  | _ =>
      match get_json request with
      | Raised _ => true
      | Ok PNone => false
      | Ok (PBool b) => b
      | Ok (PInt z) => negb (z =? 0)
      | Ok (PFloat f) => negb (PrimFloat.eqb f 0%float)
      | Ok (PStr s) => str_contains "remote_path" s
      | Ok (PList l) =>
          List.existsb (fun v => match v with
                                 | PStr s => String.eqb s "remote_path"
                                 | _ => false
                                 end) l
      | Ok (PDict _) => false
      end
  end.

(** ** Scratch files of the gateway *)


(** [key] names a regular file. *)
Definition is_file_at (key : string) (fs : gmap string lnode) : Prop :=
  exists content, fs !! key = Some (LFile content).

(** A step that touches [key] only, apart from directories added, and keeps a
    file at [key] a file. *)
Definition scratch_step (key : string) (fs fs' : gmap string lnode) : Prop :=
  touches_only key fs fs' /\ (is_file_at key fs -> is_file_at key fs').

(** Whether a download request asks for the file itself: [return_file=true]
    in the query string of a GET, a truthy [return_file] in the JSON object
    otherwise. *)
Definition wants_file (request : Request) : bool :=
  match method request with
  | GET =>
      String.eqb (lower (args_get_default "return_file" "false" (args request))) "true"
  | _ =>
      match get_json request with
      | Ok (PDict d) =>
          match dict_get "return_file" d with
          | Some v => truthy v
          | None => false
          end
      | _ => false
      end
  end.

(** The remote path a download request names, when it names one the view
    accepts: a non-empty [path] in the query string of a GET, a truthy
    [remote_path] in the JSON object otherwise. *)
Definition download_path (request : Request) : option pyval :=
  match method request with
  | GET =>
      if truthy (args_get "path" (args request))
      then Some (args_get "path" (args request)) else None
  | _ =>
      match get_json request with
      | Ok (PDict d) =>
          match dict_get "remote_path" d with
          | Some v => if truthy v then Some v else None
          | None => None
          end
      | _ => None
      end
  end.

(** Stand-ins for the library functions in the concrete runs: a file name
    that is already safe, a decoder that rejects everything, an encoder that
    writes one letter per byte. *)
Definition demo_secure_filename (s : string) : string := s.

Definition demo_b64decode (v : pyval) : outcome bytes :=
  Raised (Exn (OtherError "binascii.Error") "Incorrect padding").

Definition demo_b64encode (data : bytes) : string :=
  string_of_list_ascii (map (fun _ : Byte.byte => "A"%char) data).

(** A step that leaves nothing new at [key]: away from [key] it adds
    directories at most, and [key] names nothing after when it named nothing
    before. *)
Definition tidy (key : string) (fs fs' : gmap string lnode) : Prop :=
  touches_only key fs fs' /\ (fs !! key = None -> fs' !! key = None).

(** A share that holds one file under its root. *)
Definition demo_stocked_share : gmap string MemShare.rnode :=
  {[ "//srv" := MemShare.RDir; "//srv/data" := MemShare.RDir;
     "//srv/data/a.txt" := MemShare.RFile demo_bytes 0%float ]}.

(** [GET /smb/download?path=a.txt], and the same with [return_file=true]. *)
Definition demo_download_request : Request :=
  {| method := GET; args := [("path", "a.txt")]; get_json := Ok PNone |}.

Definition demo_send_file_request : Request :=
  {| method := GET; args := [("path", "a.txt"); ("return_file", "true")];
     get_json := Ok PNone |}.

(** ** Command lines *)

(** [smb_service.py --server srv --share data -u alice -p secret test] *)
Definition demo_args : Namespace :=
  {| args_config := None; args_env := false;
     args_server := Some "srv"; args_share := Some "data";
     args_username := Some "alice"; args_password := Some "secret";
     args_domain := ""; args_no_signing := false; args_command := CmdTest |}.

(** No configuration file can be read. *)
Definition no_config_file (path : string) : outcome (list cfg_entry) :=
  Raised (Exn FileNotFoundError ("[Errno 2] No such file or directory: '" ++ path ++ "'")).

(** * Properties *)

(** ** Paths *)

Example Path_unc : path_str (path_parent (Path "//srv/data/in/a.bin")) = "//srv/data/in".
Proof. reflexivity. Qed.

Example Path_norm : path_str (Path "tmp//x/./y/") = "tmp/x/y".
Proof. reflexivity. Qed.

Example Path_cwd : path_str (path_parent (Path "a.bin")) = ".".
Proof. reflexivity. Qed.

Lemma string_app_assoc (a b c : string) : (a ++ b) ++ c = a ++ (b ++ c).
Proof.
  induction a as [|x a IH]; [reflexivity |].
  change (String x ((a ++ b) ++ c) = String x (a ++ (b ++ c))). rewrite IH. reflexivity.
Qed.

Lemma string_app_length (a b : string) :
  String.length (a ++ b) = (String.length a + String.length b)%nat.
Proof.
  induction a as [|x a IH]; [reflexivity |].
  change (S (String.length (a ++ b)) = S (String.length a + String.length b)).
  rewrite IH. reflexivity.
Qed.

(** ** Reasoning about computations *)

Section MonadFacts.

Context {C : SMBClient}.

Lemma yields_ret {A} (P : A -> Prop) (a : A) : P a -> yields (C:=C) P (ret a).
Proof. intros HP w a' w' H. inversion H; subst. exact HP. Qed.

Lemma yields_raise {A} (P : A -> Prop) (e : exn) : yields (C:=C) P (raise e).
Proof. intros w a w' H. discriminate H. Qed.

Lemma yields_bind {A B} (P : B -> Prop) (m : M A) (k : A -> M B) :
  (forall a, yields (C:=C) P (k a)) -> yields (C:=C) P (bind m k).
Proof.
  intros Hk w b w' H. unfold bind in H.
  destruct (m w) as [[a|e] w1]; [eapply Hk; eassumption | discriminate H].
Qed.

Lemma bind_run {A B} (m : M (C:=C) A) (k : A -> M (C:=C) B) (w : World (C:=C)) :
  bind m k w = match m w with
               | (Ok a, w1) => k a w1
               | (Raised e, w1) => (Raised e, w1)
               end.
Proof. reflexivity. Qed.

Lemma local_read_run {A} (f : gmap string lnode -> outcome A) (w : World (C:=C)) :
  local_read f w = (f (w_local w), w).
Proof. destruct w; reflexivity. Qed.

(** A [try] whose handler returns a value always returns a value: the one of
    the body, or the one the handler builds from the exception. *)
Lemma try_except_total {A} (P : A -> Prop) (m : M A) (h : exn -> A) (w : World) :
  yields (C:=C) P m -> (forall e, P (h e)) ->
  exists a w', try_except m (fun e => ret (h e)) w = (Ok a, w') /\ P a.
Proof.
  intros Hm Hh. unfold try_except.
  destruct (m w) as [[a|e] w1] eqn:E.
  - exists a, w1. split; [reflexivity | eapply Hm; eassumption].
  - exists (h e), w1. split; [reflexivity | apply Hh].
Qed.

End MonadFacts.

Ltac yields_steps :=
  repeat first
    [ apply yields_ret
    | apply yields_raise
    | apply yields_bind; intros
    | match goal with |- yields _ (if ?b then _ else _) => destruct b end ].

(** ** Result records (C2) *)

Lemma success_record (d : pydict) :
  dict_get "status" d = Some (PStr "success") -> dict_has "error" d = false ->
  result_record d.
Proof.
  intros Hs He. split; [left; exact Hs |].
  rewrite Hs, He. split; intros H; discriminate H.
Qed.

Lemma error_record (d : pydict) :
  dict_get "status" d = Some (PStr "error") -> dict_has "error" d = true ->
  result_record d.
Proof.
  intros Hs He. split; [right; exact Hs |].
  rewrite Hs, He. split; reflexivity.
Qed.

(** C2.  For every client, service, argument and world, each of the four
    public operations returns a dictionary and raises nothing; the dictionary
    has status [success] or [error], and it has an [error] field if and only
    if its status is [error]. *)
Theorem operations_return_result_records :
  forall (C : SMBClient) (svc : SMBFileService),
    (forall local_path remote_path create_dirs,
        returns_result (C:=C) (upload_file svc local_path remote_path create_dirs))
    /\ (forall remote_path local_path overwrite,
        returns_result (C:=C) (download_file svc remote_path local_path overwrite))
    /\ (forall remote_path, returns_result (C:=C) (list_files svc remote_path))
    /\ returns_result (C:=C) (test_connection svc).
Proof.
  intros C svc. repeat split; intros; intros w.
  - apply (try_except_total result_record).
    + unfold upload_file_try. yields_steps. apply success_record; reflexivity.
    + intros e. apply error_record; reflexivity.
  - apply (try_except_total result_record).
    + unfold download_file_try. yields_steps. apply success_record; reflexivity.
    + intros e. apply error_record; reflexivity.
  - apply (try_except_total result_record).
    + yields_steps. apply success_record; reflexivity.
    + intros e. apply error_record; reflexivity.
  - apply (try_except_total result_record).
    + yields_steps. apply success_record; reflexivity.
    + intros e. apply error_record; reflexivity.
Qed.

(** ** Refusing to overwrite (C4) *)

(** C4.  When [local_path] exists and [overwrite] is false, the body of
    [download_file] raises [FileExistsError], [download_file] returns the error
    record built from it, and the world is the one it started from: no call to
    the SMB client was made (the trace and the client state are unchanged) and
    the local file system is untouched. *)
Theorem download_refuses_existing_local :
  forall (C : SMBClient) (svc : SMBFileService) (remote_path local_path : string)
         (w : World (C:=C)),
    local_exists (w_local w) (Path local_path) = Ok true ->
    download_file_try svc remote_path local_path false w
    = (Raised (Exn FileExistsError
                   ("Local file exists and overwrite=False: " ++ local_path)), w)
    /\ download_file svc remote_path local_path false w
       = (Ok [ ("status", PStr "error");
               ("remote_path", PStr remote_path);
               ("local_path", PStr local_path);
               ("error", PStr ("Local file exists and overwrite=False: " ++ local_path)) ],
          w).
Proof.
  intros C svc remote_path local_path [fs s tr] Hex. simpl in Hex.
  assert (Hbody : download_file_try svc remote_path local_path false
                    (Build_World fs s tr)
                  = (Raised (Exn FileExistsError
                       ("Local file exists and overwrite=False: " ++ local_path)),
                     Build_World fs s tr)).
  { unfold download_file_try, bind, local_read, local. simpl. rewrite Hex. reflexivity. }
  split; [exact Hbody |].
  unfold download_file, try_except. rewrite Hbody. reflexivity.
Qed.

Lemma download_refuses_existing_local_witness :
  local_exists demo_local (Path "hi.txt") = Ok true
  /\ download_file (C:=MemShare.client) demo_service "in/a.txt" "hi.txt" false
       (MemShare.world demo_local demo_share [])
     = (Ok [ ("status", PStr "error");
             ("remote_path", PStr "in/a.txt");
             ("local_path", PStr "hi.txt");
             ("error", PStr "Local file exists and overwrite=False: hi.txt") ],
        MemShare.world demo_local demo_share []).
Proof.
  split; [reflexivity |].
  exact (proj2 (download_refuses_existing_local MemShare.client demo_service
                  "in/a.txt" "hi.txt" (MemShare.world demo_local demo_share [])
                  eq_refl)).
Defined.

(** ** The reference share without faults *)

Lemma step_no_fault {A} (op : gmap string MemShare.rnode -> outcome A * gmap string MemShare.rnode)
    (st : gmap string MemShare.rnode) :
  MemShare.step op {| MemShare.store := st; MemShare.faults := [] |}
  = (fst (op st), {| MemShare.store := snd (op st); MemShare.faults := [] |}).
Proof. unfold MemShare.step. simpl. destruct (op st); reflexivity. Qed.

Lemma query_no_fault {A} (f : gmap string MemShare.rnode -> outcome A)
    (st : gmap string MemShare.rnode) :
  MemShare.query f {| MemShare.store := st; MemShare.faults := [] |}
  = (f st, {| MemShare.store := st; MemShare.faults := [] |}).
Proof. unfold MemShare.query. rewrite step_no_fault. reflexivity. Qed.

(** Unfolds the calls to the reference share and the projections of worlds. *)
Ltac share_simpl :=
  cbn [w_smb w_local w_trace fst snd MemShare.client MemShare.world
       register_session set_require_signing path_exists path_isdir makedirs
       listdir stat open_file_wb write open_file_rb close
       MemShare.store MemShare.faults].

Tactic Notation "share_simpl" "in" hyp(H) :=
  cbn [w_smb w_local w_trace fst snd MemShare.client MemShare.world
       register_session set_require_signing path_exists path_isdir makedirs
       listdir stat open_file_wb write open_file_rb close
       MemShare.store MemShare.faults] in H.

(** A successful [makedirs] leaves a directory under the last path of the
    chain. *)
Lemma makedirs_chain_creates (root : string) (todo above : list string)
    (st st' : gmap string MemShare.rnode) :
  todo <> [] ->
  MemShare.makedirs_chain root above todo st = (Ok tt, st') ->
  st' !! path_str (MkPath root (above ++ todo)) = Some MemShare.RDir.
Proof.
  revert above st. induction todo as [|c rest IH]; intros above st Hne Hrun; [congruence |].
  cbn [MemShare.makedirs_chain] in Hrun.
  destruct rest as [|c2 rest].
  - cbn [MemShare.makedirs_chain] in Hrun.
    destruct (st !! path_str (MkPath root (above ++ [c]))) as [[content mtime|]|] eqn:E.
    + discriminate Hrun.
    + inversion Hrun; subst. exact E.
    + inversion Hrun; subst. apply lookup_insert_eq.
  - replace (above ++ c :: c2 :: rest)%list with ((above ++ [c]) ++ c2 :: rest)%list
      by (rewrite <- app_assoc; reflexivity).
    destruct (st !! path_str (MkPath root (above ++ [c]))) as [[content mtime|]|] eqn:E.
    + discriminate Hrun.
    + eapply IH; [discriminate | exact Hrun].
    + eapply IH; [discriminate | exact Hrun].
Qed.

Lemma do_makedirs_creates (p : string) (st st' : gmap string MemShare.rnode) :
  MemShare.do_makedirs p st = (Ok tt, st') ->
  MemShare.do_exists p st' = Ok true.
Proof.
  unfold MemShare.do_makedirs, MemShare.do_exists, MemShare.lookup, MemShare.lookup_path.
  destruct (p_parts (Path p)) as [|c rest] eqn:Hparts; [discriminate |].
  destruct (st !! path_str (Path p)); [discriminate |].
  intros Hrun.
  apply makedirs_chain_creates in Hrun; [| discriminate].
  unfold Path in *. simpl in *. rewrite Hparts. rewrite Hrun. reflexivity.
Qed.

(** ** Ensuring a remote directory (C7) *)

Section EnsureRemoteDir.

Context {C : SMBClient}.

(** [_ensure_remote_dir] raises nothing, whatever the client does. *)
Lemma ensure_remote_dir_total (p : string) (w : World (C:=C)) :
  exists w', _ensure_remote_dir p w = (Ok tt, w').
Proof.
  unfold _ensure_remote_dir, try_except, bind, smb, ret.
  destruct (path_exists C p (w_smb w)) as [[[|]|e] s1]; simpl; eauto.
  destruct (makedirs C p s1) as [[[]|e] s2]; simpl; eauto.
Qed.

(** When the directory is there, the existence check is the only call. *)
Lemma ensure_remote_dir_existing (p : string) (w : World (C:=C)) (s1 : smb_state C) :
  path_exists C p (w_smb w) = (Ok true, s1) ->
  _ensure_remote_dir p w
  = (Ok tt, {| w_local := w_local w; w_smb := s1;
               w_trace := w_trace w ++ [CallExists p] |}).
Proof.
  intros Hex. unfold _ensure_remote_dir, try_except, bind, smb, ret.
  rewrite Hex. reflexivity.
Qed.

End EnsureRemoteDir.

(** C7.  (1) [_ensure_remote_dir] returns normally from every world of every
    client: a failure of the existence check or of the creation is swallowed.
    (2) When the client reports the directory as existing, the call makes the
    existence check and nothing else: no [makedirs].  (3) On a share that keeps
    its data, after a first call that found the directory or created it, a
    second call on the same path makes the existence check only, creates
    nothing and leaves the share as it is. *)
Theorem ensure_remote_dir_idempotent :
  (forall (C : SMBClient) (p : string) (w : World (C:=C)),
      exists w', _ensure_remote_dir p w = (Ok tt, w'))
  /\ (forall (C : SMBClient) (p : string) (w : World (C:=C)) (s1 : smb_state C),
      path_exists C p (w_smb w) = (Ok true, s1) ->
      _ensure_remote_dir p w
      = (Ok tt, {| w_local := w_local w; w_smb := s1;
                   w_trace := w_trace w ++ [CallExists p] |}))
  /\ (forall (p : string) (fs : gmap string lnode) (st : gmap string MemShare.rnode),
      MemShare.do_exists p st = Ok true
      \/ fst (MemShare.do_makedirs p st) = Ok tt ->
      let w1 := snd (_ensure_remote_dir p (MemShare.world fs st [])) in
      _ensure_remote_dir p w1
      = (Ok tt, {| w_local := w_local w1; w_smb := w_smb w1;
                   w_trace := w_trace w1 ++ [CallExists p] |})).
Proof.
  split; [intros; apply ensure_remote_dir_total |].
  split; [intros; apply ensure_remote_dir_existing; assumption |].
  intros p fs st Hfirst w1.
  assert (Hw1 : exists st1,
             w_smb w1 = {| MemShare.store := st1; MemShare.faults := [] |}
             /\ MemShare.do_exists p st1 = Ok true).
  { subst w1. unfold _ensure_remote_dir, try_except, bind, smb, ret.
    share_simpl. rewrite query_no_fault.
    destruct (MemShare.do_exists p st) as [[|]|e] eqn:Hex; share_simpl.
    - exists st. split; [reflexivity | exact Hex].
    - cbn [negb]. share_simpl. rewrite step_no_fault.
      destruct Hfirst as [Hfirst | Hfirst]; [discriminate Hfirst |].
      destruct (MemShare.do_makedirs p st) as [r st1] eqn:Hmk. simpl in Hfirst. subst r.
      share_simpl. exists st1. split; [reflexivity |].
      eapply do_makedirs_creates; exact Hmk.
    - discriminate Hex. }
  destruct Hw1 as [st1 [Hs1 Hex1]].
  apply ensure_remote_dir_existing.
  share_simpl. rewrite Hs1. rewrite query_no_fault. rewrite Hex1. reflexivity.
Qed.

Lemma ensure_remote_dir_idempotent_witness :
  fst (MemShare.do_makedirs "//srv/data/in" demo_share) = Ok tt
  /\ (let w1 := snd (_ensure_remote_dir "//srv/data/in"
                       (MemShare.world demo_local demo_share [])) in
      w_trace w1 = [CallExists "//srv/data/in"; CallMakedirs "//srv/data/in"]
      /\ _ensure_remote_dir "//srv/data/in" w1
         = (Ok tt, {| w_local := w_local w1; w_smb := w_smb w1;
                      w_trace := w_trace w1 ++ [CallExists "//srv/data/in"] |})).
Proof.
  split; [vm_compute; reflexivity |].
  split; [vm_compute; reflexivity |].
  exact (proj2 (proj2 ensure_remote_dir_idempotent) "//srv/data/in" demo_local demo_share
               (or_intror eq_refl)).
Defined.

(** ** Listing a directory (C6) *)

Section Listing.

Context {C : SMBClient}.

Lemma list_entry_described (full_remote_path entry : string) (w : World (C:=C)) :
  exists f w', list_entry full_remote_path entry w = (Ok f, w')
               /\ entry_described full_remote_path entry w f.
Proof.
  unfold list_entry, entry_described, try_except, bind, smb, ret. cbn [w_smb].
  destruct (stat C _ (w_smb w)) as [[info|e] s1]; [| eauto].
  cbn [w_smb].
  destruct (path_isdir C _ s1) as [[is_dir|e] s2]; eauto.
Qed.

Lemma list_entries_described (full_remote_path : string) (entries : list string) :
  forall w : World (C:=C),
  exists files w',
    list_entries full_remote_path entries w = (Ok files, w')
    /\ length files = length entries
    /\ listing_described full_remote_path entries w files.
Proof.
  induction entries as [|entry entries IH]; intros w.
  - exists [], w. repeat split.
  - destruct (list_entry_described full_remote_path entry w) as [f [w1 [Hf Hd]]].
    destruct (IH w1) as [files [w2 [Hfs [Hlen Hds]]]].
    exists (f :: files), w2.
    cbn [list_entries]. unfold bind at 1. rewrite Hf.
    unfold bind at 1. rewrite Hfs.
    split; [reflexivity |].
    split; [simpl; congruence |].
    cbn [listing_described]. rewrite Hf. split; assumption.
Qed.

End Listing.

(** C6, as the code has it.  When the enumeration of the directory returns
    [entries], [list_files] returns a success record whose [count] is the
    number of entries and whose [files] has one element per entry, in order:
    the placeholder (name and error string) for an entry whose [stat] call or
    whose [isdir] call raises, the full entry (name, size, is_dir, modified)
    for every other one.  No failure on an entry ends the listing. *)
Theorem list_files_isolates_entry_failures :
  forall (C : SMBClient) (svc : SMBFileService) (remote_path : string)
         (w : World (C:=C)) (entries : list string) (s1 : smb_state C),
    listdir C (full_remote svc remote_path) (w_smb w) = (Ok entries, s1) ->
    exists files w',
      list_files svc remote_path w
      = (Ok [ ("status", PStr "success");
              ("path", PStr (full_remote svc remote_path));
              ("files", PList files);
              ("count", PInt (Z.of_nat (length entries))) ], w')
      /\ length files = length entries
      /\ listing_described (full_remote svc remote_path) entries
           {| w_local := w_local w; w_smb := s1;
              w_trace := w_trace w ++ [CallListdir (full_remote svc remote_path)] |}
           files.
Proof.
  intros C svc remote_path w entries s1 Hls.
  destruct (list_entries_described (full_remote svc remote_path) entries
              {| w_local := w_local w; w_smb := s1;
                 w_trace := w_trace w ++ [CallListdir (full_remote svc remote_path)] |})
    as [files [w' [Hrun [Hlen Hd]]]].
  exists files, w'.
  split; [| split; assumption].
  unfold list_files, try_except. unfold bind at 1. unfold smb at 1.
  rewrite Hls. unfold bind at 1. rewrite Hrun. unfold ret. rewrite Hlen. reflexivity.
Qed.

Lemma list_files_isolates_entry_failures_witness :
  listdir MemShare.client (full_remote demo_service "")
          {| MemShare.store := share_with_file; MemShare.faults := [] |}
  = (Ok ["a.txt"], {| MemShare.store := share_with_file; MemShare.faults := [] |})
  /\ exists files w',
      list_files (C:=MemShare.client) demo_service ""
                 (MemShare.world demo_local share_with_file [])
      = (Ok [ ("status", PStr "success");
              ("path", PStr "//srv/data/");
              ("files", PList files);
              ("count", PInt 1) ], w')
      /\ length files = 1%nat
      /\ listing_described (C:=MemShare.client) "//srv/data/" ["a.txt"]
           (@Build_World MemShare.client demo_local
              {| MemShare.store := share_with_file; MemShare.faults := [] |}
              [CallListdir "//srv/data/"])
           files.
Proof.
  split; [vm_compute; reflexivity |].
  exact (list_files_isolates_entry_failures MemShare.client demo_service ""
           (MemShare.world demo_local share_with_file []) ["a.txt"]
           {| MemShare.store := share_with_file; MemShare.faults := [] |} eq_refl).
Defined.

(** Counterexample to C6 as stated: the entry's [stat] call returns, its [isdir] call
    raises, and the entry is listed as a placeholder without size, is_dir and
    modified. *)
Lemma list_files_placeholder_after_stat :
  stat MemShare.client "//srv/data//a.txt"
       {| MemShare.store := share_with_file; MemShare.faults := [None; Some access_denied] |}
  = (Ok {| st_size := 3; st_mtime := 0%float |},
     {| MemShare.store := share_with_file; MemShare.faults := [Some access_denied] |})
  /\ fst (list_files (C:=MemShare.client) demo_service ""
            (MemShare.world demo_local share_with_file [None; None; Some access_denied]))
     = Ok [ ("status", PStr "success");
            ("path", PStr "//srv/data/");
            ("files", PList [ PDict [ ("name", PStr "a.txt");
                                      ("error", PStr "STATUS_ACCESS_DENIED") ] ]);
            ("count", PInt 1) ]
  /\ w_trace (snd (list_files (C:=MemShare.client) demo_service ""
            (MemShare.world demo_local share_with_file [None; None; Some access_denied])))
     = [ CallListdir "//srv/data/"; CallStat "//srv/data//a.txt";
         CallIsdir "//srv/data//a.txt" ].
Proof. repeat split; vm_compute; reflexivity. Qed.

(** ** Calls to the share leave the local file system alone *)

Section KeepsLocal.

Context {C : SMBClient}.

Lemma keeps_local_ret {A} (a : A) : keeps_local (C:=C) (ret a).
Proof. intros w. reflexivity. Qed.

Lemma keeps_local_raise {A} (e : exn) : keeps_local (C:=C) (raise (A:=A) e).
Proof. intros w. reflexivity. Qed.

Lemma keeps_local_smb {A} (c : smb_call) (op : smb_state C -> outcome A * smb_state C) :
  keeps_local (C:=C) (smb c op).
Proof. intros w. unfold smb. destruct (op (w_smb w)). reflexivity. Qed.

Lemma keeps_local_local_read {A} (f : gmap string lnode -> outcome A) :
  keeps_local (C:=C) (local_read f).
Proof. intros w. reflexivity. Qed.

Lemma keeps_local_bind {A B} (m : M A) (k : A -> M B) :
  keeps_local (C:=C) m -> (forall a, keeps_local (C:=C) (k a)) -> keeps_local (C:=C) (bind m k).
Proof.
  intros Hm Hk w. unfold bind. specialize (Hm w).
  destruct (m w) as [[a|e] w1]; simpl in *; [rewrite Hk; exact Hm | exact Hm].
Qed.

Lemma keeps_local_try_except {A} (m : M A) (h : exn -> M A) :
  keeps_local (C:=C) m -> (forall e, keeps_local (C:=C) (h e)) -> keeps_local (C:=C) (try_except m h).
Proof.
  intros Hm Hh w. unfold try_except. specialize (Hm w).
  destruct (m w) as [[a|e] w1]; simpl in *; [exact Hm | rewrite Hh; exact Hm].
Qed.

Lemma keeps_local_finally {A} (m : M A) (cleanup : M unit) :
  keeps_local (C:=C) m -> keeps_local (C:=C) cleanup -> keeps_local (C:=C) (finally m cleanup).
Proof.
  intros Hm Hc w. unfold finally. specialize (Hm w).
  destruct (m w) as [r w1]. specialize (Hc w1).
  destruct (cleanup w1) as [[u|e] w2]; simpl in *; congruence.
Qed.

Lemma keeps_local_upload_loop (fuel : nat) :
  forall (rest : bytes) (remote_f : smb_handle C),
    keeps_local (C:=C) (upload_loop fuel rest remote_f).
Proof.
  induction fuel as [|fuel IH]; intros rest remote_f; cbn [upload_loop].
  - apply keeps_local_ret.
  - destruct (take chunk_size rest) as [|b chunk].
    + apply keeps_local_ret.
    + apply keeps_local_bind; [apply keeps_local_smb | intros _; apply IH].
Qed.

Lemma keeps_local_ensure_remote_dir (p : string) : keeps_local (C:=C) (_ensure_remote_dir p).
Proof.
  unfold _ensure_remote_dir. apply keeps_local_try_except.
  - apply keeps_local_bind; [apply keeps_local_smb |].
    intros there. destruct (negb there); [apply keeps_local_smb | apply keeps_local_ret].
  - intros e. apply keeps_local_ret.
Qed.

Lemma keeps_local_upload_copy (local_file : PurePath) (full_remote_path : string) :
  keeps_local (C:=C) (upload_copy local_file full_remote_path).
Proof.
  unfold upload_copy.
  apply keeps_local_bind; [apply keeps_local_local_read | intros content].
  apply keeps_local_bind; [apply keeps_local_smb | intros remote_f].
  apply keeps_local_finally; [apply keeps_local_upload_loop | apply keeps_local_smb].
Qed.

End KeepsLocal.

(** ** Uploading (C1) *)

(** C1, as the code has it.  For a local regular file that exists with
    [content], whether the process may read it or not, [upload_file] returns
    the success record exactly when the copy (the local file opened for
    reading, the remote file opened for writing, the chunk writes, the close)
    raises nothing; the success record has [size_bytes] equal to the length of
    [content] and [remote_path] equal to the share root, a slash, and
    [remote_path] without its leading slashes.  When the copy raises, the
    error record built from the exception is returned; the copy raises
    [PermissionError] when the local file may not be read. *)
Theorem upload_file_success_record :
  forall (C : SMBClient) (cfg : SMBConfig) (local_path remote_path : string)
         (create_dirs : bool) (w : World (C:=C)) (content : bytes),
    local_lookup (w_local w) (Path local_path) = Some (LFile content)
    \/ local_lookup (w_local w) (Path local_path) = Some (LSealed content) ->
    match upload_copy (Path local_path) (remote_of cfg remote_path)
            (after_create_dirs cfg remote_path create_dirs w) with
    | (Ok _, w') =>
        upload_file (new_service cfg) local_path remote_path create_dirs w
        = (Ok [ ("status", PStr "success");
                ("local_path", PStr (path_str (Path local_path)));
                ("remote_path", PStr ("//" ++ server cfg ++ "/" ++ share cfg ++ "/"
                                      ++ lstrip_slash remote_path));
                ("size_bytes", PInt (Z.of_nat (length content)));
                ("message", PStr "File uploaded successfully") ], w')
    | (Raised e, w') =>
        upload_file (new_service cfg) local_path remote_path create_dirs w
        = (Ok [ ("status", PStr "error");
                ("local_path", PStr local_path);
                ("remote_path", PStr remote_path);
                ("error", PStr (exn_str e)) ], w')
    end
    /\ (local_lookup (w_local w) (Path local_path) = Some (LSealed content) ->
        fst (upload_copy (Path local_path) (remote_of cfg remote_path)
               (after_create_dirs cfg remote_path create_dirs w))
        = Raised (permission_denied (Path local_path))).
Proof.
  intros C cfg local_path remote_path create_dirs w content Hfile.
  assert (Hsame : w_local (after_create_dirs cfg remote_path create_dirs w) = w_local w).
  { unfold after_create_dirs. destruct create_dirs; [| reflexivity].
    apply keeps_local_ensure_remote_dir. }
  split.
  2: { intros Hsealed. unfold upload_copy. rewrite bind_run, local_read_run.
       unfold local_open_rb. rewrite Hsame, Hsealed. reflexivity. }
  assert (Hex : local_exists (w_local w) (Path local_path) = Ok true)
    by (unfold local_exists; destruct Hfile as [Hf | Hf]; rewrite Hf; reflexivity).
  assert (Hurl : full_remote (new_service cfg) remote_path = remote_of cfg remote_path)
    by reflexivity.
  assert (Hstr : ("//" ++ server cfg ++ "/" ++ share cfg ++ "/" ++ lstrip_slash remote_path)
                 = remote_of cfg remote_path).
  { unfold remote_of, share_root. rewrite !string_app_assoc. reflexivity. }
  rewrite Hstr.
  unfold upload_file, try_except, upload_file_try. rewrite Hurl.
  rewrite bind_run, local_read_run, Hex. cbn [negb].
  rewrite bind_run.
  unfold after_create_dirs.
  set (pre := if create_dirs
              then _ensure_remote_dir (path_str (path_parent (Path (remote_of cfg remote_path))))
              else ret tt).
  assert (Hpre : exists w1, pre w = (Ok tt, w1) /\ w_local w1 = w_local w).
  { subst pre. destruct create_dirs.
    - destruct (ensure_remote_dir_total
                  (path_str (path_parent (Path (remote_of cfg remote_path)))) w)
        as [w1 Hw1].
      exists w1. split; [exact Hw1 |].
      pose proof (keeps_local_ensure_remote_dir
                    (path_str (path_parent (Path (remote_of cfg remote_path)))) w) as Hk.
      rewrite Hw1 in Hk. exact Hk.
    - exists w. split; reflexivity. }
  destruct Hpre as [w1 [Hw1 Hfs1]]. rewrite Hw1. cbn [snd].
  rewrite bind_run.
  pose proof (keeps_local_upload_copy (Path local_path) (remote_of cfg remote_path) w1) as Hk.
  destruct (upload_copy (Path local_path) (remote_of cfg remote_path) w1) as [[u|e] w2];
    cbn [snd] in Hk; [| reflexivity].
  rewrite bind_run, local_read_run.
  unfold local_stat_size. rewrite Hk, Hfs1.
  destruct Hfile as [Hf | Hf]; rewrite Hf; reflexivity.
Qed.

Lemma upload_file_success_record_witness :
  (local_lookup demo_local (Path "hi.txt") = Some (LFile demo_bytes)
   \/ local_lookup demo_local (Path "hi.txt") = Some (LSealed demo_bytes))
  /\ fst (upload_file (C:=MemShare.client) (new_service demo_config) "hi.txt" "/in/a.txt" true
            (MemShare.world demo_local demo_share []))
     = Ok [ ("status", PStr "success");
            ("local_path", PStr "hi.txt");
            ("remote_path", PStr "//srv/data/in/a.txt");
            ("size_bytes", PInt 3);
            ("message", PStr "File uploaded successfully") ].
Proof.
  split; [left; reflexivity |].
  pose proof (proj1 (upload_file_success_record MemShare.client demo_config "hi.txt"
                       "/in/a.txt" true (MemShare.world demo_local demo_share [])
                       demo_bytes (or_introl eq_refl))) as H.
  assert (Hcopy : fst (upload_copy (C:=MemShare.client) (Path "hi.txt")
                         (remote_of demo_config "/in/a.txt")
                         (after_create_dirs demo_config "/in/a.txt" true
                            (MemShare.world demo_local demo_share []))) = Ok tt)
    by (vm_compute; reflexivity).
  destruct (upload_copy _ _ _) as [[u|e] w']; [| discriminate Hcopy].
  rewrite H. vm_compute. reflexivity.
Defined.

(** Counterexample to C1 as stated: the local file exists, the share refuses the open, and
    the result is the error record. *)
Lemma upload_file_error_for_existing_file :
  local_lookup demo_local (Path "hi.txt") = Some (LFile demo_bytes)
  /\ fst (upload_file (C:=MemShare.client) demo_service "hi.txt" "a.txt" false
            (MemShare.world demo_local demo_share [Some connection_lost]))
     = Ok [ ("status", PStr "error");
            ("local_path", PStr "hi.txt");
            ("remote_path", PStr "a.txt");
            ("error", PStr "STATUS_CONNECTION_DISCONNECTED") ]
  /\ w_trace (snd (upload_file (C:=MemShare.client) demo_service "hi.txt" "a.txt" false
            (MemShare.world demo_local demo_share [Some connection_lost])))
     = [ CallOpenWB "//srv/data/a.txt" ].
Proof. repeat split; vm_compute; reflexivity. Qed.

(** A local file that exists and may not be read: the result is the error
    record of the [PermissionError], and the share is not called. *)
Example upload_file_unreadable_local :
  local_exists demo_sealed_local (Path "hi.txt") = Ok true
  /\ upload_file (C:=MemShare.client) demo_service "hi.txt" "a.txt" false
       (MemShare.world demo_sealed_local demo_share [])
     = (Ok [ ("status", PStr "error");
             ("local_path", PStr "hi.txt");
             ("remote_path", PStr "a.txt");
             ("error", PStr "[Errno 13] Permission denied: 'hi.txt'") ],
        MemShare.world demo_sealed_local demo_share []).
Proof. split; reflexivity. Qed.

(** ** Downloading what is not there (C5) *)

Lemma dirs_added_refl (fs : gmap string lnode) : dirs_added fs fs.
Proof. intros k. left. reflexivity. Qed.

Lemma dirs_added_trans (fs1 fs2 fs3 : gmap string lnode) :
  dirs_added fs1 fs2 -> dirs_added fs2 fs3 -> dirs_added fs1 fs3.
Proof.
  intros H12 H23 k. destruct (H12 k) as [E12 | [N1 D2]], (H23 k) as [E23 | [N2 D3]].
  - left. congruence.
  - right. split; congruence.
  - right. split; congruence.
  - congruence.
Qed.

Lemma dirs_added_insert (fs : gmap string lnode) (k : string) :
  fs !! k = None -> dirs_added fs (<[k := LDir]> fs).
Proof.
  intros Hk k'. destruct (decide (k = k')) as [<- | Hne].
  - right. split; [exact Hk | apply lookup_insert_eq].
  - left. apply lookup_insert_ne. exact Hne.
Qed.

Lemma mkdir_chain_dirs_added (root : string) (todo : list string) :
  forall (above : list string) (fs fs' : gmap string lnode) (r : outcome unit),
    mkdir_chain root above todo fs = (r, fs') -> dirs_added fs fs'.
Proof.
  induction todo as [|c rest IH]; intros above fs fs' r Hrun; cbn [mkdir_chain] in Hrun.
  - inversion Hrun; subst. apply dirs_added_refl.
  - destruct (fs !! path_str (MkPath root (above ++ [c]))) as [[content| |content|e]|] eqn:E.
    + inversion Hrun; subst. apply dirs_added_refl.
    + eapply IH; exact Hrun.
    + inversion Hrun; subst. apply dirs_added_refl.
    + inversion Hrun; subst. apply dirs_added_refl.
    + eapply dirs_added_trans; [apply dirs_added_insert; exact E | eapply IH; exact Hrun].
Qed.




(** ** Chunks *)

Lemma chunk_size_pos : (0 < chunk_size)%nat.
Proof. unfold chunk_size. lia. Qed.

Lemma drop_chunk_shorter (rest : bytes) (b : Byte.byte) (chunk : bytes) :
  take chunk_size rest = b :: chunk ->
  (length (drop chunk_size rest) < length rest)%nat.
Proof.
  intros Htake. pose proof chunk_size_pos as Hpos.
  rewrite length_drop. destruct rest as [|x rest]; [| cbn [length]; lia].
  rewrite take_nil in Htake. discriminate Htake.
Qed.

(** Reading [content] in chunks and putting the chunks together gives
    [content] back. *)
Lemma chunks_concat (fuel : nat) :
  forall content : bytes,
    (length content < fuel)%nat -> concat (MemShare.chunks fuel content) = content.
Proof.
  induction fuel as [|fuel IH]; intros content Hlen; [lia |].
  cbn [MemShare.chunks].
  destruct (take chunk_size content) as [|b chunk] eqn:Htake.
  - pose proof chunk_size_pos as Hpos.
    destruct content as [|x content]; [reflexivity |].
    destruct chunk_size; [lia | discriminate Htake].
  - cbn [concat]. rewrite IH.
    + rewrite <- Htake. apply take_drop.
    + pose proof (drop_chunk_shorter _ _ _ Htake). lia.
Qed.

(** The fuel of the upload loop is never used up: with any fuel above the
    length of what is left to read, the loop does the same. *)
Lemma upload_loop_fuel {C : SMBClient} (remote_f : smb_handle C) (fuel1 : nat) :
  forall (fuel2 : nat) (rest : bytes) (w : World (C:=C)),
    (length rest < fuel1)%nat -> (length rest < fuel2)%nat ->
    upload_loop fuel1 rest remote_f w = upload_loop fuel2 rest remote_f w.
Proof.
  induction fuel1 as [|fuel1 IH]; intros fuel2 rest w H1 H2; [lia |].
  destruct fuel2 as [|fuel2]; [lia |].
  cbn [upload_loop].
  destruct (take chunk_size rest) as [|b chunk] eqn:Htake; [reflexivity |].
  rewrite !bind_run.
  destruct (smb _ _ w) as [[u|e] w1]; [| reflexivity].
  pose proof (drop_chunk_shorter _ _ _ Htake).
  apply IH; lia.
Qed.

(** ** Uploading to the reference share *)

Lemma upload_loop_stores (fuel : nat) :
  forall (rest c0 : bytes) (h : string) (mtime : float)
         (fs : gmap string lnode) (st : gmap string MemShare.rnode) (tr : list smb_call),
    (length rest < fuel)%nat ->
    st !! h = Some (MemShare.RFile c0 mtime) ->
    exists tr',
      upload_loop (C:=MemShare.client) fuel rest h (calm_world fs st tr)
      = (Ok tt, calm_world fs (<[h := MemShare.RFile (c0 ++ rest) mtime]> st) tr').
Proof.
  induction fuel as [|fuel IH]; intros rest c0 h mtime fs st tr Hlen Hh; [lia |].
  cbn [upload_loop].
  destruct (take chunk_size rest) as [|b chunk] eqn:Htake.
  - pose proof chunk_size_pos as Hpos.
    assert (rest = []) as ->.
    { destruct rest as [|x rest]; [reflexivity |].
      destruct chunk_size; [lia | discriminate Htake]. }
    exists tr. unfold ret. rewrite app_nil_r, insert_id by exact Hh. reflexivity.
  - rewrite bind_run. unfold smb at 1. share_simpl. rewrite step_no_fault.
    unfold MemShare.do_write. rewrite Hh. cbn [fst snd].
    destruct (IH (drop chunk_size rest) (c0 ++ b :: chunk)%list h mtime fs
                 (<[h := MemShare.RFile (c0 ++ b :: chunk) mtime]> st)
                 (tr ++ [CallWrite (length (b :: chunk))])%list) as [tr' Hrun].
    + pose proof (drop_chunk_shorter _ _ _ Htake). lia.
    + apply lookup_insert_eq.
    + exists tr'. rewrite Hrun. rewrite insert_insert_eq.
      rewrite <- app_assoc, <- Htake, take_drop. reflexivity.
Qed.

(** A copy that raises nothing leaves the content of the local file under the
    key of the remote path, which then names a file. *)
Lemma upload_copy_stores (local_file : PurePath) (full_remote_path : string)
    (content : bytes) (fs : gmap string lnode) (st : gmap string MemShare.rnode)
    (tr : list smb_call) (w' : World (C:=MemShare.client)) :
  local_lookup fs local_file = Some (LFile content) ->
  upload_copy (C:=MemShare.client) local_file full_remote_path (calm_world fs st tr)
  = (Ok tt, w') ->
  exists st' tr',
    w' = calm_world fs st' tr'
    /\ MemShare.lookup st' full_remote_path = Some (MemShare.RFile content 0%float).
Proof.
  intros Hfile Hrun. unfold upload_copy in Hrun.
  rewrite bind_run, local_read_run in Hrun. cbn [w_local] in Hrun.
  unfold local_open_rb in Hrun. rewrite Hfile in Hrun.
  rewrite bind_run in Hrun. unfold smb at 1 in Hrun. share_simpl in Hrun.
  rewrite step_no_fault in Hrun.
  unfold MemShare.do_open_wb in Hrun.
  assert (Hparts : forall o, MemShare.lookup st full_remote_path <> Some MemShare.RDir ->
            MemShare.lookup (<[MemShare.key full_remote_path := o]> st) full_remote_path
            = Some o).
  { intros o Hnd. unfold MemShare.lookup, MemShare.lookup_path in *.
    destruct (p_parts (Path full_remote_path)); [congruence |].
    apply lookup_insert_eq. }
  destruct (MemShare.lookup st full_remote_path) as [[c0 m0|]|] eqn:Hlk;
    [| discriminate Hrun |];
    (destruct (MemShare.lookup_path st (path_parent (Path full_remote_path)))
       as [[c1 m1|]|]; cbn [fst snd] in Hrun; try discriminate Hrun);
    (destruct (upload_loop_stores (S (length content)) content [] (MemShare.key full_remote_path)
                0%float fs (<[MemShare.key full_remote_path := MemShare.RFile [] 0%float]> st)
                (tr ++ [CallOpenWB full_remote_path])%list ltac:(lia) ltac:(apply lookup_insert_eq))
       as [tr' Hloop]);
    unfold finally in Hrun; rewrite Hloop in Hrun;
    unfold smb at 1 in Hrun; share_simpl in Hrun; rewrite query_no_fault in Hrun;
    inversion Hrun; subst;
    eexists _, _; (split; [reflexivity |]);
    rewrite insert_insert_eq; apply Hparts; congruence.
Qed.

(** ** Keys of paths and of their ancestors *)

Lemma path_str_parts (root : string) (parts : list string) :
  parts <> [] -> path_str (MkPath root parts) = root ++ join_slash parts.
Proof.
  intros Hne. unfold path_str. cbn [p_root p_parts].
  destruct parts as [|c parts]; [congruence |]. destruct root; reflexivity.
Qed.

Lemma join_slash_cons (c : string) (parts : list string) :
  parts <> [] -> join_slash (c :: parts) = c ++ "/" ++ join_slash parts.
Proof. destruct parts; [congruence | reflexivity]. Qed.

Lemma join_slash_app (pre suf : list string) :
  pre <> [] -> suf <> [] ->
  join_slash (pre ++ suf) = join_slash pre ++ "/" ++ join_slash suf.
Proof.
  intros Hpre Hsuf. induction pre as [|c pre IH]; [congruence |].
  destruct pre as [|c2 pre].
  - cbn [app]. rewrite join_slash_cons by exact Hsuf. reflexivity.
  - change ((c :: c2 :: pre) ++ suf)%list with (c :: ((c2 :: pre) ++ suf))%list.
    rewrite join_slash_cons by discriminate.
    rewrite IH by discriminate.
    rewrite (join_slash_cons c (c2 :: pre)) by discriminate.
    rewrite !string_app_assoc. reflexivity.
Qed.

(** A path and a proper ancestor of it with at least one component have
    different keys. *)
Lemma ancestor_key_differs (root : string) (pre suf : list string) :
  pre <> [] -> suf <> [] ->
  path_str (MkPath root (pre ++ suf)) <> path_str (MkPath root pre).
Proof.
  intros Hpre Hsuf Heq.
  rewrite (path_str_parts root (pre ++ suf)) in Heq
    by (destruct pre; [congruence | discriminate]).
  rewrite (path_str_parts root pre) in Heq by exact Hpre.
  rewrite join_slash_app in Heq by assumption.
  apply (f_equal String.length) in Heq.
  rewrite !string_app_length in Heq. cbn [String.length] in Heq. lia.
Qed.

(** [mkdir] touches the keys of the directories of its chain only. *)
Lemma mkdir_chain_frame (root : string) (todo : list string) :
  forall (above : list string) (fs fs' : gmap string lnode) (r : outcome unit) (k : string),
    mkdir_chain root above todo fs = (r, fs') ->
    (forall pre suf, pre <> [] -> todo = (pre ++ suf)%list ->
                     k <> path_str (MkPath root (above ++ pre))) ->
    fs' !! k = fs !! k.
Proof.
  induction todo as [|c rest IH]; intros above fs fs' r k Hrun Hk; cbn [mkdir_chain] in Hrun.
  - inversion Hrun; subst. reflexivity.
  - assert (Hhere : k <> path_str (MkPath root (above ++ [c])))
      by (apply (Hk [c] rest); [discriminate | reflexivity]).
    assert (Hrest : forall pre suf, pre <> [] -> rest = (pre ++ suf)%list ->
                      k <> path_str (MkPath root ((above ++ [c]) ++ pre))).
    { intros pre suf Hpre ->. rewrite <- app_assoc.
      apply (Hk (c :: pre) suf); [discriminate | reflexivity]. }
    destruct (fs !! path_str (MkPath root (above ++ [c]))) as [[content| |content|e]|] eqn:E.
    + inversion Hrun; subst. reflexivity.
    + eapply IH; eassumption.
    + inversion Hrun; subst. reflexivity.
    + inversion Hrun; subst. reflexivity.
    + erewrite IH by eassumption. apply lookup_insert_ne. congruence.
Qed.

(** A [mkdir] that returns leaves a directory under the last path of its
    chain. *)
Lemma mkdir_chain_creates (root : string) (todo : list string) :
  forall (above : list string) (fs fs' : gmap string lnode),
    todo <> [] ->
    mkdir_chain root above todo fs = (Ok tt, fs') ->
    fs' !! path_str (MkPath root (above ++ todo)) = Some LDir.
Proof.
  induction todo as [|c rest IH]; intros above fs fs' Hne Hrun; [congruence |].
  cbn [mkdir_chain] in Hrun.
  destruct rest as [|c2 rest].
  - cbn [mkdir_chain] in Hrun.
    destruct (fs !! path_str (MkPath root (above ++ [c]))) as [[content| |content|e]|] eqn:E.
    + discriminate Hrun.
    + inversion Hrun; subst. exact E.
    + discriminate Hrun.
    + discriminate Hrun.
    + inversion Hrun; subst. apply lookup_insert_eq.
  - replace (above ++ c :: c2 :: rest)%list with ((above ++ [c]) ++ c2 :: rest)%list
      by (rewrite <- app_assoc; reflexivity).
    destruct (fs !! path_str (MkPath root (above ++ [c]))) as [[content| |content|e]|] eqn:E.
    + discriminate Hrun.
    + eapply IH; [discriminate | exact Hrun].
    + discriminate Hrun.
    + discriminate Hrun.
    + eapply IH; [discriminate | exact Hrun].
Qed.

(** After the parent directories of a path that names nothing have been made,
    the path still names nothing and its parent is a directory. *)
Lemma mkdir_parents_fresh (p : PurePath) (fs fs1 : gmap string lnode) :
  local_exists fs p = Ok false ->
  local_mkdir_parents (path_parent p) fs = (Ok tt, fs1) ->
  fs1 !! path_str p = None
  /\ local_lookup fs1 p = None
  /\ local_lookup fs1 (path_parent p) = Some LDir.
Proof.
  destruct p as [root parts]. unfold local_exists, local_lookup, local_mkdir_parents, path_parent.
  cbn [p_root p_parts].
  rename parts into ps. intros Hex Hmk.
  assert (Hne : ps <> []) by (intros ->; discriminate Hex).
  assert (Hfresh : fs !! path_str (MkPath root ps) = None).
  { destruct ps as [|c ps]; [congruence |].
    destruct (fs !! path_str (MkPath root (c :: ps))) as [[content| |content|e]|];
      first [discriminate Hex | reflexivity]. }
  clear Hex.
  assert (Hsplit : ps = (removelast ps ++ [List.last ps ""])%list)
    by (apply app_removelast_last; exact Hne).
  assert (Hkey : fs1 !! path_str (MkPath root ps) = None).
  { rewrite <- Hfresh. eapply (mkdir_chain_frame root (removelast ps) []); [exact Hmk |].
    intros pre suf Hpre Hrl. cbn [app].
    rewrite Hsplit, Hrl, <- app_assoc.
    apply ancestor_key_differs; [exact Hpre |]. destruct suf; discriminate. }
  split; [exact Hkey |].
  split.
  - destruct ps; [congruence | exact Hkey].
  - destruct (removelast ps) as [|d ds] eqn:Hrl; [reflexivity |].
    apply (mkdir_chain_creates root (d :: ds) [] fs fs1); [discriminate | exact Hmk].
Qed.

(** ** Downloading from the reference share *)

Lemma bind_ok_inv {C : SMBClient} {A B} (m : M (C:=C) A) (k : A -> M (C:=C) B)
    (w w' : World (C:=C)) (b : B) :
  bind m k w = (Ok b, w') ->
  exists a w1, m w = (Ok a, w1) /\ k a w1 = (Ok b, w').
Proof.
  rewrite bind_run. destruct (m w) as [[a|e] w1]; [eauto | discriminate].
Qed.

(** The loop of [download_file] over the chunks of [content] appends
    [content] to the local file and counts its bytes. *)
Lemma download_loop_chunks {C : SMBClient} (p : PurePath) (fuel : nat) :
  forall (content c0 : bytes) (total : Z) (fs : gmap string lnode)
         (s : smb_state C) (tr : list smb_call),
    (length content < fuel)%nat ->
    fs !! path_str p = Some (LFile c0) ->
    exists tr',
      download_loop (MemShare.chunks fuel content) None p total (Build_World fs s tr)
      = (Ok (total + Z.of_nat (length content)),
         Build_World (<[path_str p := LFile (c0 ++ content)]> fs) s tr').
Proof.
  induction fuel as [|fuel IH]; intros content c0 total fs s tr Hlen Hfile; [lia |].
  cbn [MemShare.chunks].
  destruct (take chunk_size content) as [|b chunk] eqn:Htake.
  - pose proof chunk_size_pos as Hpos.
    assert (content = []) as ->.
    { destruct content as [|x content]; [reflexivity |].
      destruct chunk_size; [lia | discriminate Htake]. }
    exists (tr ++ [CallRead])%list. cbn [download_loop].
    rewrite bind_run. unfold smb at 1. cbn [w_smb w_local w_trace].
    unfold ret. rewrite app_nil_r, insert_id by exact Hfile.
    cbn [length Z.of_nat]. rewrite Z.add_0_r. reflexivity.
  - cbn [download_loop].
    rewrite bind_run. unfold smb at 1. cbn [w_smb w_local w_trace].
    rewrite bind_run. unfold local at 1. cbn [w_smb w_local w_trace].
    unfold local_write. rewrite Hfile.
    destruct (IH (drop chunk_size content) (c0 ++ b :: chunk)%list
                 (total + Z.of_nat (length (b :: chunk)))
                 (<[path_str p := LFile (c0 ++ b :: chunk)]> fs) s
                 (tr ++ [CallRead])%list) as [tr' Hrun].
    + pose proof (drop_chunk_shorter _ _ _ Htake). lia.
    + apply lookup_insert_eq.
    + exists tr'. rewrite Hrun. rewrite insert_insert_eq.
      rewrite <- app_assoc, <- Htake, take_drop.
      rewrite <- Z.add_assoc, <- Nat2Z.inj_add, <- length_app, take_drop.
      reflexivity.
Qed.

Lemma ensure_remote_dir_calm (p : string) (fs : gmap string lnode)
    (st : gmap string MemShare.rnode) (tr : list smb_call) :
  exists st' tr',
    _ensure_remote_dir (C:=MemShare.client) p (calm_world fs st tr)
    = (Ok tt, calm_world fs st' tr').
Proof.
  unfold _ensure_remote_dir, try_except. rewrite bind_run.
  unfold smb at 1. share_simpl. rewrite query_no_fault. unfold MemShare.do_exists.
  destruct (MemShare.lookup st p); cbn [negb].
  - unfold ret. eauto.
  - unfold smb. share_simpl. rewrite step_no_fault.
    destruct (MemShare.do_makedirs p st) as [[[]|e] st']; cbn [fst snd]; unfold ret; eauto.
Qed.

(** ** Round trip (C3) *)

(** C3.  On a share that keeps what is written to it, take a local file with
    [content] whose upload returned the success record, and a fresh local
    path: one that names nothing and whose directory can be made.  Then the
    download of the same remote path to the fresh path returns the success
    record, the fresh path holds [content], byte for byte, as the uploaded file
    still does, and [size_bytes] is the length of [content] in both records. *)
Theorem upload_download_round_trip :
  forall (svc : SMBFileService) (local_path remote_path fresh_path : string)
         (create_dirs overwrite : bool) (content : bytes)
         (fs : gmap string lnode) (st : gmap string MemShare.rnode)
         (tr : list smb_call) (up : pydict) (w1 : World (C:=MemShare.client)),
    local_lookup fs (Path local_path) = Some (LFile content) ->
    upload_file svc local_path remote_path create_dirs
      (@Build_World MemShare.client fs
         {| MemShare.store := st; MemShare.faults := [] |} tr) = (Ok up, w1) ->
    dict_get "status" up = Some (PStr "success") ->
    local_exists fs (Path fresh_path) = Ok false ->
    fst (local_mkdir_parents (path_parent (Path fresh_path)) fs) = Ok tt ->
    exists (down : pydict) (w2 : World (C:=MemShare.client)),
      download_file svc remote_path fresh_path overwrite w1 = (Ok down, w2)
      /\ dict_get "status" down = Some (PStr "success")
      /\ local_lookup (w_local w2) (Path fresh_path) = Some (LFile content)
      /\ local_lookup (w_local w2) (Path local_path) = Some (LFile content)
      /\ dict_get "size_bytes" up = Some (PInt (Z.of_nat (length content)))
      /\ dict_get "size_bytes" down = Some (PInt (Z.of_nat (length content))).
Proof.
  intros svc local_path remote_path fresh_path create_dirs overwrite content fs st tr
         up w1 Hfile Hup Hstatus Hfresh Hmk.
  (* the upload: its body returned, so the copy did *)
  unfold upload_file, try_except in Hup.
  destruct (upload_file_try svc local_path remote_path create_dirs (calm_world fs st tr))
    as [[d|e] wb] eqn:Hbody;
    [| inversion Hup; subst; discriminate Hstatus].
  inversion Hup; subst d wb. clear Hup.
  unfold upload_file_try in Hbody.
  apply bind_ok_inv in Hbody as [there [wa [Hthere Hbody]]].
  rewrite local_read_run in Hthere. inversion Hthere as [[Hex Hwa]]. subst wa. clear Hthere.
  destruct (negb there); [discriminate Hbody |].
  apply bind_ok_inv in Hbody as [u [wa [Hpre Hbody]]].
  assert (Hwa : exists sta tra, wa = calm_world fs sta tra).
  { destruct create_dirs.
    - destruct (ensure_remote_dir_calm
                  (path_str (path_parent (Path (full_remote svc remote_path)))) fs st tr)
        as [sta [tra Hens]].
      rewrite Hens in Hpre. inversion Hpre; subst. eauto.
    - inversion Hpre; subst. eauto. }
  destruct Hwa as [sta [tra ->]]. clear Hpre.
  apply bind_ok_inv in Hbody as [[] [wb [Hcopy Hbody]]].
  destruct (upload_copy_stores _ _ _ _ _ _ _ Hfile Hcopy) as [stb [trb [-> Hstored]]].
  clear Hcopy.
  apply bind_ok_inv in Hbody as [size [wc [Hsize Hbody]]].
  rewrite local_read_run in Hsize. cbn [w_local] in Hsize.
  unfold local_stat_size in Hsize. rewrite Hfile in Hsize.
  inversion Hsize; subst size wc. clear Hsize.
  inversion Hbody; subst up w1. clear Hbody Hstatus.
  (* the download *)
  destruct (local_mkdir_parents (path_parent (Path fresh_path)) fs) as [r fs1] eqn:Hmk1.
  cbn [fst] in Hmk. subst r.
  destruct (mkdir_parents_fresh _ _ _ Hfresh Hmk1) as [Hkey [Hnone Hparent]].
  assert (Hexists : MemShare.do_exists (full_remote svc remote_path) stb = Ok true)
    by (unfold MemShare.do_exists; rewrite Hstored; reflexivity).
  assert (Hopen : MemShare.do_open_rb (full_remote svc remote_path) stb
                  = Ok (MemShare.key (full_remote svc remote_path),
                        {| rs_chunks := MemShare.chunks (S (length content)) content;
                           rs_fail := None |}))
    by (unfold MemShare.do_open_rb; rewrite Hstored; reflexivity).
  destruct (download_loop_chunks (C:=MemShare.client) (Path fresh_path)
              (S (length content)) content [] 0
              (<[path_str (Path fresh_path) := LFile []]> fs1)
              {| MemShare.store := stb; MemShare.faults := [] |}
              ((trb ++ [CallExists (full_remote svc remote_path)])
                   ++ [CallOpenRB (full_remote svc remote_path)])%list
              ltac:(lia) ltac:(apply lookup_insert_eq))
    as [trc Hloop].
  rewrite insert_insert_eq in Hloop.
  eexists _, _.
  split.
  { unfold download_file, try_except, download_file_try.
    rewrite bind_run, local_read_run. cbn [w_local]. rewrite Hfresh. cbn [andb].
    rewrite bind_run. unfold local at 1. cbn [w_local w_smb w_trace]. rewrite Hmk1.
    rewrite bind_run. unfold smb at 1. share_simpl. rewrite query_no_fault, Hexists.
    cbn [negb].
    rewrite bind_run. rewrite bind_run.
    unfold smb at 1. share_simpl. rewrite query_no_fault, Hopen.
    unfold finally. rewrite bind_run. unfold local at 1. cbn [w_local w_smb w_trace].
    unfold local_open_wb. rewrite Hnone, Hparent. cbn [fst snd rs_chunks rs_fail].
    rewrite Hloop.
    unfold smb at 1. share_simpl. rewrite query_no_fault.
    unfold ret. reflexivity. }
  cbn [w_local].
  split; [reflexivity |].
  split.
  { unfold local_lookup in *. destruct (p_parts (Path fresh_path)); [discriminate Hnone |].
    apply lookup_insert_eq. }
  split; [| split; reflexivity].
  assert (Hlocal_key : fs !! path_str (Path local_path) = Some (LFile content)).
  { unfold local_lookup in Hfile. destruct (p_parts (Path local_path)); [discriminate | exact Hfile]. }
  unfold local_lookup in *. destruct (p_parts (Path local_path)); [discriminate Hfile |].
  rewrite lookup_insert_ne.
  - destruct (mkdir_chain_dirs_added _ _ _ _ _ _ Hmk1 (path_str (Path local_path)))
      as [Hsame | [Hwas _]]; congruence.
  - intros Heq. rewrite Heq in Hkey.
    destruct (mkdir_chain_dirs_added _ _ _ _ _ _ Hmk1 (path_str (Path local_path)))
      as [Hsame | [Hwas _]]; congruence.
Qed.

Lemma upload_download_round_trip_witness :
  local_lookup demo_local (Path "hi.txt") = Some (LFile demo_bytes)
  /\ upload_file (C:=MemShare.client) demo_service "hi.txt" "in/a.txt" true
       (MemShare.world demo_local demo_share [])
     = (Ok demo_upload_record, demo_uploaded)
  /\ local_exists demo_local (Path "out/b.txt") = Ok false
  /\ exists (down : pydict) (w2 : World (C:=MemShare.client)),
      download_file demo_service "in/a.txt" "out/b.txt" false demo_uploaded = (Ok down, w2)
      /\ dict_get "status" down = Some (PStr "success")
      /\ local_lookup (w_local w2) (Path "out/b.txt") = Some (LFile demo_bytes)
      /\ local_lookup (w_local w2) (Path "hi.txt") = Some (LFile demo_bytes)
      /\ dict_get "size_bytes" demo_upload_record = Some (PInt (Z.of_nat (length demo_bytes)))
      /\ dict_get "size_bytes" down = Some (PInt (Z.of_nat (length demo_bytes))).
Proof.
  assert (Hup : upload_file (C:=MemShare.client) demo_service "hi.txt" "in/a.txt" true
                  (MemShare.world demo_local demo_share [])
                = (Ok demo_upload_record, demo_uploaded))
    by reflexivity.
  split; [reflexivity |].
  split; [exact Hup |].
  split; [reflexivity |].
  exact (upload_download_round_trip demo_service "hi.txt" "in/a.txt" "out/b.txt" true false
           demo_bytes demo_local demo_share [] demo_upload_record demo_uploaded
           eq_refl Hup eq_refl eq_refl eq_refl).
Defined.

(** ** Loading the configuration (C8) *)

Lemma all_nonempty_four (a b c d : string) :
  all_nonempty [a; b; c; d] = true ->
  a <> "" /\ b <> "" /\ c <> "" /\ d <> "".
Proof.
  unfold all_nonempty. cbn [forallb]. rewrite !andb_true_iff, !negb_true_iff.
  intros (Ha & Hb & Hc & Hd & _).
  repeat split; intros ->; discriminate.
Qed.

(** Loading from the environment validates: a configuration it returns has a
    non-empty server, share, username and password, whatever [int] does. *)
Lemma load_config_from_env_validates (py_int : string -> outcome Z)
    (env : gmap string string) (cfg : SMBConfig) :
  load_config_from_env py_int env = Ok cfg ->
  server cfg <> "" /\ share cfg <> "" /\ username cfg <> "" /\ password cfg <> "".
Proof.
  unfold load_config_from_env, obind.
  destruct (py_int (getenv env "SMB_PORT" "445")) as [port_|e]; [| discriminate].
  destruct (py_int (getenv env "SMB_TIMEOUT" "30")) as [timeout_|e]; [| discriminate].
  cbn [server share username password].
  destruct (all_nonempty _) eqn:Hall; cbn [negb]; [| discriminate].
  intros Hcfg. inversion Hcfg; subst cfg. cbn [server share username password].
  apply all_nonempty_four. exact Hall.
Qed.

(** With one of the four variables unset or empty, loading from the
    environment raises. *)
Lemma load_config_from_env_rejects (py_int : string -> outcome Z)
    (env : gmap string string) :
  all_nonempty [getenv env "SMB_SERVER" ""; getenv env "SMB_SHARE" "";
                getenv env "SMB_USERNAME" ""; getenv env "SMB_PASSWORD" ""] = false ->
  exists e, load_config_from_env py_int env = Raised e.
Proof.
  intros Hmissing. unfold load_config_from_env, obind.
  destruct (py_int (getenv env "SMB_PORT" "445")) as [port_|e]; [| eauto].
  destruct (py_int (getenv env "SMB_TIMEOUT" "30")) as [timeout_|e]; [| eauto].
  cbn [server share username password]. rewrite Hmissing. cbn [negb]. eauto.
Qed.

(** C8 fails on the file path.  Loading from a file does not validate: the
    file with an empty server is loaded into a configuration with an empty
    server and no exception is raised; more generally, a file that spells out
    the fields of any configuration, empty ones included, loads into that
    configuration. *)
Theorem load_config_from_file_accepts_empty_server :
  load_config_from_file (Ok file_with_empty_server)
  = Ok {| server := ""; share := "data"; username := "alice"; password := "secret";
          domain := ""; port := 445; require_signing := true; encrypt := false;
          timeout := 30 |}
  /\ forall cfg : SMBConfig, load_config_from_file (Ok (members_of cfg)) = Ok cfg.
Proof.
  split; [reflexivity |].
  intros [sv sh us pw dm pt rs en tm]. reflexivity.
Qed.

(** ** The delete endpoint (C9) *)

Lemma dict_has_get (k : string) (d : pydict) :
  dict_has k d = match dict_get k d with Some _ => true | None => false end.
Proof. reflexivity. Qed.

(** Closes a case of the view once the response is a literal. *)
Ltac response_case :=
  eexists _, _; (split; [reflexivity |]);
  repeat split; auto; try discriminate; intros; lia.

(** Runs the next step of a view that comes from pure code. *)
Ltac next_lifted := rewrite bind_run; unfold lift at 1.

(** Closes a case of the delete view: the response is computed, and each of
    the statements about it is an equation that holds or has a premise that
    does not. *)
Ltac answer_case :=
  eexists _, _; (split; [reflexivity |]);
  repeat match goal with
         | |- _ /\ _ => split
         | |- _ <-> _ => split
         end;
  intros;
  repeat match goal with H : _ /\ _ |- _ => destruct H end;
  first [ reflexivity | discriminate | lia
        | split; reflexivity
        | left; reflexivity | right; left; reflexivity | right; right; reflexivity
        | right; reflexivity ].

(** C9, as the code has it.  With the service initialised, the delete view
    calls nothing and answers 400, 500 or 501.  It answers 501, with the
    not-implemented body, exactly when the request supplies a remote path; 500
    exactly when the body of a request that is not a DELETE cannot be read;
    and 400, with one of the two bodies that say [remote_path] is required, in
    every other case. *)
Theorem delete_file_not_implemented :
  forall (C : SMBClient) (svc : SMBFileService) (request : Request) (w : World (C:=C)),
  exists (body : pydict) (code : Z),
    delete_file (Some svc) request w = (Ok (body, code), w)
    /\ (code = 400 \/ code = 500 \/ code = 501)
    /\ (supplies_path request = true <-> code = 501)
    /\ (body_unreadable request = true <-> code = 500)
    /\ (supplies_path request = false /\ body_unreadable request = false <-> code = 400)
    /\ (code = 501 -> body = not_implemented_body)
    /\ (code = 400 ->
        body = error_body "remote_path is required"
        \/ body = error_body "remote_path parameter is required").
Proof.
  intros C svc request w.
  unfold delete_file, require_smb_service, delete_file_view, supplies_path,
    body_unreadable, try_except.
  destruct (method request).
  3: destruct (truthy (args_get "path" (args request))); cbn [negb]; answer_case.
  (* the JSON branch, by the kind of value the body is *)
  all: next_lifted; (destruct (get_json request) as [data|e]; [| answer_case]).
  all: next_lifted; unfold lacks_remote_path.
  all: destruct data as [| b | z | f | s | l | d];
    cbn [truthy negb obind py_contains]; try answer_case.
  - destruct b; cbn [negb obind]; answer_case.
  - destruct (negb (z =? 0)); cbn [negb obind]; answer_case.
  - destruct (negb (PrimFloat.eqb f 0)); cbn [negb obind]; answer_case.
  - destruct (String.eqb_spec s "") as [-> | Hs]; cbn [negb obind]; [answer_case |].
    destruct (str_contains "remote_path" s); cbn [negb]; [| answer_case].
    next_lifted. cbn [py_getitem]. answer_case.
  - destruct l as [|v l]; cbn [negb obind]; [answer_case |].
    destruct (existsb _ (v :: l)); cbn [negb]; [| answer_case].
    next_lifted. cbn [py_getitem]. answer_case.
  - destruct d as [|kv d]; cbn [negb obind]; [answer_case |].
    rewrite dict_has_get. cbn [py_getitem].
    destruct (dict_get "remote_path" (kv :: d)) as [v|]; cbn [negb]; [| answer_case].
    next_lifted. destruct (truthy v); cbn [negb]; answer_case.
  - destruct b; cbn [negb obind]; answer_case.
  - destruct (negb (z =? 0)); cbn [negb obind]; answer_case.
  - destruct (negb (PrimFloat.eqb f 0)); cbn [negb obind]; answer_case.
  - destruct (String.eqb_spec s "") as [-> | Hs]; cbn [negb obind]; [answer_case |].
    destruct (str_contains "remote_path" s); cbn [negb]; [| answer_case].
    next_lifted. cbn [py_getitem]. answer_case.
  - destruct l as [|v l]; cbn [negb obind]; [answer_case |].
    destruct (existsb _ (v :: l)); cbn [negb]; [| answer_case].
    next_lifted. cbn [py_getitem]. answer_case.
  - destruct d as [|kv d]; cbn [negb obind]; [answer_case |].
    rewrite dict_has_get. cbn [py_getitem].
    destruct (dict_get "remote_path" (kv :: d)) as [v|]; cbn [negb]; [| answer_case].
    next_lifted. destruct (truthy v); cbn [negb]; answer_case.
Qed.

(** Counterexample to C9 as stated: with the service initialised, a DELETE without a
    [path] parameter is answered 400, and so is a POST whose JSON body is an
    empty object. *)
Lemma delete_file_bad_request :
  delete_file (C:=MemShare.client) (Some demo_service)
    {| method := DELETE; args := []; get_json := Ok PNone |}
    (MemShare.world demo_local demo_share [])
  = (Ok (error_body "remote_path parameter is required", 400),
     MemShare.world demo_local demo_share [])
  /\ delete_file (C:=MemShare.client) (Some demo_service)
       {| method := POST; args := []; get_json := Ok (PDict []) |}
       (MemShare.world demo_local demo_share [])
     = (Ok (error_body "remote_path is required", 400),
        MemShare.world demo_local demo_share []).
Proof. split; reflexivity. Qed.

(** ** The mkdir endpoint (C10) *)

(** C10, as the code has it.  With the service initialised and a JSON object
    whose [remote_path] is a string, the mkdir view answers 200 with the
    success body for every client and every world: whatever the existence
    check and the creation do, [_ensure_remote_dir] returns normally and the
    view goes on to report success. *)
Theorem create_directory_reports_success :
  forall (C : SMBClient) (svc : SMBFileService) (request : Request) (w : World (C:=C))
         (d : pydict) (remote_path : string),
    get_json request = Ok (PDict d) ->
    dict_get "remote_path" d = Some (PStr remote_path) ->
    create_directory (Some svc) request w
    = (Ok ([ ("status", PStr "success");
             ("remote_path", PStr (server_url svc ++ "/" ++ lstrip_slash remote_path));
             ("message", PStr "Directory created successfully") ], 200),
       snd (_ensure_remote_dir (server_url svc ++ "/" ++ lstrip_slash remote_path) w)).
Proof.
  intros C svc request w d remote_path Hjson Hpath.
  unfold create_directory, require_smb_service, create_directory_view, try_except.
  next_lifted. rewrite Hjson.
  next_lifted. unfold lacks_remote_path.
  assert (Htruthy : truthy (PDict d) = true) by (destruct d; [discriminate Hpath | reflexivity]).
  rewrite Htruthy. cbn [negb py_contains obind]. rewrite dict_has_get, Hpath. cbn [negb].
  next_lifted. cbn [py_getitem]. rewrite Hpath.
  next_lifted. cbn [py_lstrip_slash].
  rewrite bind_run.
  destruct (ensure_remote_dir_total (server_url svc ++ "/" ++ lstrip_slash remote_path) w)
    as [w' Hw']. rewrite Hw'. reflexivity.
Qed.

(** The creation fails on the share, and the answer is 200 all the same. *)
Lemma create_directory_reports_success_witness :
  fst (makedirs MemShare.client "//srv/data/new"
         {| MemShare.store := demo_share; MemShare.faults := [Some access_denied] |})
  = Raised access_denied
  /\ create_directory (C:=MemShare.client) (Some demo_service)
       {| method := POST; args := [];
          get_json := Ok (PDict [("remote_path", PStr "/new")]) |}
       (MemShare.world demo_local demo_share [None; Some access_denied])
     = (Ok ([ ("status", PStr "success");
              ("remote_path", PStr "//srv/data/new");
              ("message", PStr "Directory created successfully") ], 200),
        @Build_World MemShare.client demo_local
          {| MemShare.store := demo_share; MemShare.faults := [] |}
          [CallExists "//srv/data/new"; CallMakedirs "//srv/data/new"]).
Proof.
  split; [reflexivity |].
  exact (create_directory_reports_success MemShare.client demo_service
           {| method := POST; args := [];
              get_json := Ok (PDict [("remote_path", PStr "/new")]) |}
           (MemShare.world demo_local demo_share [None; Some access_denied])
           [("remote_path", PStr "/new")] "/new" eq_refl eq_refl).
Defined.

(** Counterexample to C10 as stated: the JSON body contains [remote_path], as a number,
    and the answer is 500; the share is not called. *)
Lemma create_directory_non_string_path :
  create_directory (C:=MemShare.client) (Some demo_service)
    {| method := POST; args := []; get_json := Ok (PDict [("remote_path", PInt 5)]) |}
    (MemShare.world demo_local demo_share [])
  = (Ok (error_body "'int' object has no attribute 'lstrip'", 500),
     MemShare.world demo_local demo_share []).
Proof. reflexivity. Qed.

Lemma delete_file_not_implemented_witness :
  supplies_path {| method := DELETE; args := [("path", "old/a.txt")]; get_json := Ok PNone |}
  = true
  /\ delete_file (C:=MemShare.client) (Some demo_service)
       {| method := DELETE; args := [("path", "old/a.txt")]; get_json := Ok PNone |}
       (MemShare.world demo_local demo_share [])
     = (Ok (not_implemented_body, 501), MemShare.world demo_local demo_share [])
  /\ exists (body : pydict) (code : Z),
      delete_file (C:=MemShare.client) (Some demo_service)
        {| method := POST; args := []; get_json := Ok (PInt 5) |}
        (MemShare.world demo_local demo_share [])
      = (Ok (body, code), MemShare.world demo_local demo_share [])
      /\ (code = 400 \/ code = 500 \/ code = 501)
      /\ (supplies_path {| method := POST; args := []; get_json := Ok (PInt 5) |}
          = true <-> code = 501)
      /\ (body_unreadable {| method := POST; args := []; get_json := Ok (PInt 5) |}
          = true <-> code = 500)
      /\ (supplies_path {| method := POST; args := []; get_json := Ok (PInt 5) |} = false
          /\ body_unreadable {| method := POST; args := []; get_json := Ok (PInt 5) |}
             = false <-> code = 400)
      /\ (code = 501 -> body = not_implemented_body)
      /\ (code = 400 ->
          body = error_body "remote_path is required"
          \/ body = error_body "remote_path parameter is required").
Proof.
  split; [reflexivity |]. split; [reflexivity |].
  exact (delete_file_not_implemented MemShare.client demo_service
           {| method := POST; args := []; get_json := Ok (PInt 5) |}
           (MemShare.world demo_local demo_share [])).
Defined.

(** * Further properties of the service *)

(** ** Composing steps *)

Section LocalSteps.

Context {C : SMBClient}.
Variable R : relation (gmap string lnode).
Hypothesis R_refl : forall fs, R fs fs.
Hypothesis R_trans : forall fs1 fs2 fs3, R fs1 fs2 -> R fs2 fs3 -> R fs1 fs3.

Lemma local_step_ret {A} (a : A) : local_step (C:=C) R (ret a).
Proof. intros w. apply R_refl. Qed.

Lemma local_step_raise {A} (e : exn) : local_step (C:=C) R (raise (A:=A) e).
Proof. intros w. apply R_refl. Qed.

Lemma local_step_lift {A} (o : outcome A) : local_step (C:=C) R (lift o).
Proof. intros w. apply R_refl. Qed.

Lemma local_step_smb {A} (c : smb_call) (op : smb_state C -> outcome A * smb_state C) :
  local_step R (smb c op).
Proof. intros w. unfold smb. destruct (op (w_smb w)). apply R_refl. Qed.

Lemma local_step_local {A} (op : gmap string lnode -> outcome A * gmap string lnode) :
  (forall fs, R fs (snd (op fs))) -> local_step (C:=C) R (local op).
Proof.
  intros Hop w. unfold local. specialize (Hop (w_local w)).
  destruct (op (w_local w)). exact Hop.
Qed.

Lemma local_step_local_read {A} (f : gmap string lnode -> outcome A) :
  local_step (C:=C) R (local_read f).
Proof. apply local_step_local. intros fs. apply R_refl. Qed.

Lemma local_step_bind {A B} (m : M (C:=C) A) (k : A -> M (C:=C) B) :
  local_step R m -> (forall a, local_step R (k a)) -> local_step R (bind m k).
Proof.
  intros Hm Hk w. unfold bind. specialize (Hm w).
  destruct (m w) as [[a|e] w1]; cbn [snd] in *; [| exact Hm].
  eapply R_trans; [exact Hm | apply Hk].
Qed.

Lemma local_step_try_except {A} (m : M (C:=C) A) (h : exn -> M (C:=C) A) :
  local_step R m -> (forall e, local_step R (h e)) -> local_step R (try_except m h).
Proof.
  intros Hm Hh w. unfold try_except. specialize (Hm w).
  destruct (m w) as [[a|e] w1]; cbn [snd] in *; [exact Hm |].
  eapply R_trans; [exact Hm | apply Hh].
Qed.

Lemma local_step_finally {A} (m : M (C:=C) A) (cleanup : M (C:=C) unit) :
  local_step R m -> local_step R cleanup -> local_step R (finally m cleanup).
Proof.
  intros Hm Hc w. unfold finally. specialize (Hm w).
  destruct (m w) as [r w1]. specialize (Hc w1). cbn [snd] in *.
  destruct (cleanup w1) as [[u|e] w2]; cbn [snd] in *; eapply R_trans; eassumption.
Qed.

End LocalSteps.

Section Calls.

Context {C : SMBClient}.
Variable allowed : smb_call -> bool.

Lemma calls_only_ret {A} (a : A) : calls_only (C:=C) allowed (ret a).
Proof. intros w. exists []. rewrite app_nil_r. split; reflexivity. Qed.

Lemma calls_only_raise {A} (e : exn) : calls_only (C:=C) allowed (raise (A:=A) e).
Proof. intros w. exists []. rewrite app_nil_r. split; reflexivity. Qed.

Lemma calls_only_lift {A} (o : outcome A) : calls_only (C:=C) allowed (lift o).
Proof. intros w. exists []. rewrite app_nil_r. split; reflexivity. Qed.

Lemma calls_only_local {A} (op : gmap string lnode -> outcome A * gmap string lnode) :
  calls_only (C:=C) allowed (local op).
Proof.
  intros w. exists []. unfold local. destruct (op (w_local w)).
  rewrite app_nil_r. split; reflexivity.
Qed.

Lemma calls_only_smb {A} (c : smb_call) (op : smb_state C -> outcome A * smb_state C) :
  allowed c = true -> calls_only allowed (smb c op).
Proof.
  intros Hc w. exists [c]. unfold smb. destruct (op (w_smb w)).
  split; [reflexivity | cbn [forallb]; rewrite Hc; reflexivity].
Qed.

Lemma calls_only_bind {A B} (m : M (C:=C) A) (k : A -> M (C:=C) B) :
  calls_only allowed m -> (forall a, calls_only allowed (k a)) ->
  calls_only allowed (bind m k).
Proof.
  intros Hm Hk w. unfold bind. destruct (Hm w) as [added1 [Htr1 Hall1]].
  destruct (m w) as [[a|e] w1]; cbn [snd] in *; [| eauto].
  destruct (Hk a w1) as [added2 [Htr2 Hall2]].
  exists (added1 ++ added2)%list. rewrite Htr2, Htr1, app_assoc, forallb_app, Hall1, Hall2.
  split; reflexivity.
Qed.

Lemma calls_only_try_except {A} (m : M (C:=C) A) (h : exn -> M (C:=C) A) :
  calls_only allowed m -> (forall e, calls_only allowed (h e)) ->
  calls_only allowed (try_except m h).
Proof.
  intros Hm Hh w. unfold try_except. destruct (Hm w) as [added1 [Htr1 Hall1]].
  destruct (m w) as [[a|e] w1]; cbn [snd] in *; [eauto |].
  destruct (Hh e w1) as [added2 [Htr2 Hall2]].
  exists (added1 ++ added2)%list. rewrite Htr2, Htr1, app_assoc, forallb_app, Hall1, Hall2.
  split; reflexivity.
Qed.

Lemma calls_only_finally {A} (m : M (C:=C) A) (cleanup : M (C:=C) unit) :
  calls_only allowed m -> calls_only allowed cleanup ->
  calls_only allowed (finally m cleanup).
Proof.
  intros Hm Hc w. unfold finally. destruct (Hm w) as [added1 [Htr1 Hall1]].
  destruct (m w) as [r w1]. cbn [snd] in *.
  destruct (Hc w1) as [added2 [Htr2 Hall2]].
  exists (added1 ++ added2)%list.
  destruct (cleanup w1) as [[u|e] w2]; cbn [snd] in *;
    rewrite Htr2, Htr1, app_assoc, forallb_app, Hall1, Hall2; split; reflexivity.
Qed.

End Calls.

Ltac calls_steps :=
  repeat first
    [ apply calls_only_ret
    | apply calls_only_raise
    | apply calls_only_lift
    | apply calls_only_local
    | apply calls_only_smb; reflexivity
    | apply calls_only_bind; [| intros]
    | apply calls_only_try_except; [| intros]
    | apply calls_only_finally
    | match goal with |- calls_only _ (if ?b then _ else _) => destruct b end ].

(** ** What the operations call and what they leave alone *)

Lemma download_loop_calls {C : SMBClient} (fail : option exn) (p : PurePath)
    (reads : list bytes) :
  forall total : Z, calls_only (C:=C) download_call (download_loop reads fail p total).
Proof.
  induction reads as [|chunk reads IH]; intros total; cbn [download_loop].
  - calls_steps.
  - apply calls_only_bind; [apply calls_only_smb; reflexivity | intros _].
    destruct chunk; [apply calls_only_ret |].
    apply calls_only_bind; [apply calls_only_local | intros _; apply IH].
Qed.

(** X1.  Whatever the client does and whatever the outcome, [download_file]
    calls the share only to check existence, to open a file for reading, to
    read and to close: it never creates a directory, opens a file for writing
    or writes. *)
Theorem download_file_only_reads_share :
  forall (C : SMBClient) (svc : SMBFileService) (remote_path local_path : string)
         (overwrite : bool),
    calls_only (C:=C) download_call (download_file svc remote_path local_path overwrite).
Proof.
  intros C svc remote_path local_path overwrite.
  unfold download_file, download_file_try, local_read.
  calls_steps. apply download_loop_calls.
Qed.

Lemma list_entries_calls {C : SMBClient} (full_remote_path : string)
    (entries : list string) :
  calls_only (C:=C) listing_call (list_entries full_remote_path entries).
Proof.
  induction entries as [|entry entries IH]; cbn [list_entries]; [apply calls_only_ret |].
  apply calls_only_bind; [unfold list_entry; calls_steps | intros f].
  apply calls_only_bind; [exact IH | intros fs; apply calls_only_ret].
Qed.

Lemma keeps_local_list_entries {C : SMBClient} (full_remote_path : string)
    (entries : list string) :
  keeps_local (C:=C) (list_entries full_remote_path entries).
Proof.
  induction entries as [|entry entries IH]; cbn [list_entries]; [apply keeps_local_ret |].
  apply keeps_local_bind.
  - unfold list_entry. apply keeps_local_try_except.
    + apply keeps_local_bind; [apply keeps_local_smb | intros info].
      apply keeps_local_bind; [apply keeps_local_smb | intros d; apply keeps_local_ret].
    + intros e. apply keeps_local_ret.
  - intros f. apply keeps_local_bind; [exact IH | intros fs; apply keeps_local_ret].
Qed.

(** X2.  [list_files] and [test_connection] only query: the calls they make
    are [listdir], [stat] and [isdir], and the local file system is the same
    after as before, whatever the client does. *)
Theorem listing_only_queries :
  forall (C : SMBClient) (svc : SMBFileService),
    (forall remote_path,
        calls_only (C:=C) listing_call (list_files svc remote_path)
        /\ keeps_local (C:=C) (list_files svc remote_path))
    /\ calls_only (C:=C) listing_call (test_connection svc)
    /\ keeps_local (C:=C) (test_connection svc).
Proof.
  intros C svc. split; [intros remote_path; split | split].
  - unfold list_files.
    apply calls_only_try_except; [| intros e; apply calls_only_ret].
    apply calls_only_bind; [apply calls_only_smb; reflexivity | intros entries].
    apply calls_only_bind; [apply list_entries_calls | intros files; apply calls_only_ret].
  - unfold list_files.
    apply keeps_local_try_except; [| intros e; apply keeps_local_ret].
    apply keeps_local_bind; [apply keeps_local_smb | intros entries].
    apply keeps_local_bind; [apply keeps_local_list_entries | intros files; apply keeps_local_ret].
  - unfold test_connection. calls_steps.
  - unfold test_connection.
    apply keeps_local_try_except; [| intros e; apply keeps_local_ret].
    apply keeps_local_bind; [apply keeps_local_smb | intros r; apply keeps_local_ret].
Qed.

Lemma upload_loop_calls {C : SMBClient} (remote_f : smb_handle C) (fuel : nat) :
  forall rest : bytes, calls_only (C:=C) upload_call (upload_loop fuel rest remote_f).
Proof.
  induction fuel as [|fuel IH]; intros rest; cbn [upload_loop]; [apply calls_only_ret |].
  destruct (take chunk_size rest) as [|b chunk]; [apply calls_only_ret |].
  apply calls_only_bind; [apply calls_only_smb; reflexivity | intros _; apply IH].
Qed.

(** X3.  Whatever the client does and whatever the outcome, [upload_file]
    leaves the local file system as it found it, and it calls the share only
    to check existence, to create directories, to open a file for writing, to
    write and to close: it never reads or lists. *)
Theorem upload_file_effects :
  forall (C : SMBClient) (svc : SMBFileService) (local_path remote_path : string)
         (create_dirs : bool),
    keeps_local (C:=C) (upload_file svc local_path remote_path create_dirs)
    /\ calls_only (C:=C) upload_call (upload_file svc local_path remote_path create_dirs).
Proof.
  intros C svc local_path remote_path create_dirs. split.
  - unfold upload_file, upload_file_try.
    apply keeps_local_try_except; [| intros e; apply keeps_local_ret].
    apply keeps_local_bind; [apply keeps_local_local_read | intros there].
    destruct (negb there); [apply keeps_local_raise |].
    apply keeps_local_bind.
    { destruct create_dirs; [apply keeps_local_ensure_remote_dir | apply keeps_local_ret]. }
    intros _. apply keeps_local_bind; [apply keeps_local_upload_copy | intros _].
    apply keeps_local_bind; [apply keeps_local_local_read | intros size; apply keeps_local_ret].
  - unfold upload_file, upload_file_try, upload_copy, _ensure_remote_dir, local_read.
    calls_steps. apply upload_loop_calls.
Qed.

(** X4.  When the existence check on [local_path] answers that the path is
    not there, [upload_file] returns the error record of the
    [FileNotFoundError]; when the check itself raises, as it does on a path
    that cannot be looked up, it returns the error record of that exception.
    Either way the world is untouched: the share is not called, not even to
    create the remote directory. *)
Theorem upload_file_missing_local :
  forall (C : SMBClient) (svc : SMBFileService) (local_path remote_path : string)
         (create_dirs : bool) (w : World (C:=C)),
    (local_exists (w_local w) (Path local_path) = Ok false ->
     upload_file svc local_path remote_path create_dirs w
     = (Ok [ ("status", PStr "error");
             ("local_path", PStr local_path);
             ("remote_path", PStr remote_path);
             ("error", PStr ("Local file not found: " ++ local_path)) ], w))
    /\ (forall e : exn,
          local_exists (w_local w) (Path local_path) = Raised e ->
          upload_file svc local_path remote_path create_dirs w
          = (Ok [ ("status", PStr "error");
                  ("local_path", PStr local_path);
                  ("remote_path", PStr remote_path);
                  ("error", PStr (exn_str e)) ], w)).
Proof.
  intros C svc local_path remote_path create_dirs w. split.
  - intros Hmissing. unfold upload_file, try_except, upload_file_try.
    rewrite bind_run, local_read_run, Hmissing. reflexivity.
  - intros e Hraised. unfold upload_file, try_except, upload_file_try.
    rewrite bind_run, local_read_run, Hraised. reflexivity.
Qed.

Lemma upload_file_missing_local_witness :
  (local_exists demo_local (Path "nothing.txt") = Ok false
   /\ upload_file (C:=MemShare.client) demo_service "nothing.txt" "in/a.txt" true
        (MemShare.world demo_local demo_share [])
      = (Ok [ ("status", PStr "error");
              ("local_path", PStr "nothing.txt");
              ("remote_path", PStr "in/a.txt");
              ("error", PStr "Local file not found: nothing.txt") ],
         MemShare.world demo_local demo_share []))
  /\ (local_exists demo_locked_local (Path "locked/a.txt") = Raised stat_denied
      /\ upload_file (C:=MemShare.client) demo_service "locked/a.txt" "in/a.txt" true
           (MemShare.world demo_locked_local demo_share [])
         = (Ok [ ("status", PStr "error");
                 ("local_path", PStr "locked/a.txt");
                 ("remote_path", PStr "in/a.txt");
                 ("error", PStr "[Errno 13] Permission denied: 'locked/a.txt'") ],
            MemShare.world demo_locked_local demo_share [])).
Proof.
  split; (split; [reflexivity |]).
  - exact (proj1 (upload_file_missing_local MemShare.client demo_service "nothing.txt"
                    "in/a.txt" true (MemShare.world demo_local demo_share [])) eq_refl).
  - exact (proj2 (upload_file_missing_local MemShare.client demo_service "locked/a.txt"
                    "in/a.txt" true (MemShare.world demo_locked_local demo_share []))
                 stat_denied eq_refl).
Defined.

(** ** What a download does to the local file system *)

Lemma touches_only_refl (key : string) (fs : gmap string lnode) : touches_only key fs fs.
Proof. intros k _. left. reflexivity. Qed.

Lemma touches_only_trans (key : string) (fs1 fs2 fs3 : gmap string lnode) :
  touches_only key fs1 fs2 -> touches_only key fs2 fs3 -> touches_only key fs1 fs3.
Proof.
  intros H12 H23 k Hk.
  destruct (H12 k Hk) as [E12 | [N1 D2]], (H23 k Hk) as [E23 | [N2 D3]].
  - left. congruence.
  - right. split; congruence.
  - right. split; congruence.
  - congruence.
Qed.

Lemma touches_only_insert (key : string) (node : lnode) (fs : gmap string lnode) :
  touches_only key fs (<[key := node]> fs).
Proof. intros k Hk. left. apply lookup_insert_ne. congruence. Qed.

Lemma touches_only_dirs_added (key : string) (fs fs' : gmap string lnode) :
  dirs_added fs fs' -> touches_only key fs fs'.
Proof. intros H k _. apply H. Qed.

Lemma touches_only_open_wb (p : PurePath) (fs : gmap string lnode) :
  touches_only (path_str p) fs (snd (local_open_wb p fs)).
Proof.
  unfold local_open_wb.
  destruct (local_lookup fs p) as [[c| |?|?]|];
    try (destruct (local_lookup fs (path_parent p)) as [[c'| |?|?]|]);
    cbn [snd]; first [apply touches_only_refl | apply touches_only_insert].
Qed.

Lemma touches_only_write (p : PurePath) (chunk : bytes) (fs : gmap string lnode) :
  touches_only (path_str p) fs (local_write p chunk fs).
Proof.
  unfold local_write.
  destruct (fs !! path_str p) as [[c| |?|?]|];
    first [apply touches_only_refl | apply touches_only_insert].
Qed.

Lemma download_loop_touches {C : SMBClient} (fail : option exn) (p : PurePath)
    (reads : list bytes) :
  forall total : Z,
    local_step (C:=C) (touches_only (path_str p)) (download_loop reads fail p total).
Proof.
  pose proof (touches_only_refl (path_str p)) as Hrefl.
  pose proof (touches_only_trans (path_str p)) as Htrans.
  induction reads as [|chunk reads IH]; intros total; cbn [download_loop].
  - apply local_step_bind; [assumption | apply local_step_smb; assumption |].
    intros _. apply local_step_ret; assumption.
  - apply local_step_bind; [assumption | apply local_step_smb; assumption | intros _].
    destruct chunk; [apply local_step_ret; assumption |].
    apply local_step_bind; [assumption | | intros _; apply IH].
    apply local_step_local. intros fs. apply touches_only_write.
Qed.

(** X5.  Whatever the client does and whatever the outcome, [download_file]
    changes nothing of the local file system but [local_path] itself, apart
    from directories it may add: every other path names after the call what it
    named before, or named nothing before and names a directory after. *)
Theorem download_file_touches_only_target :
  forall (C : SMBClient) (svc : SMBFileService) (remote_path local_path : string)
         (overwrite : bool) (w : World (C:=C)),
    touches_only (path_str (Path local_path)) (w_local w)
      (w_local (snd (download_file svc remote_path local_path overwrite w))).
Proof.
  intros C svc remote_path local_path overwrite.
  pose proof (touches_only_refl (path_str (Path local_path))) as Hrefl.
  pose proof (touches_only_trans (path_str (Path local_path))) as Htrans.
  change (local_step (C:=C) (touches_only (path_str (Path local_path)))
            (download_file svc remote_path local_path overwrite)).
  unfold download_file, download_file_try.
  apply local_step_try_except; [assumption | | intros e; apply local_step_ret; assumption].
  apply local_step_bind; [assumption | apply local_step_local_read; assumption | intros there].
  destruct (there && negb overwrite); [apply local_step_raise; assumption |].
  apply local_step_bind; [assumption | | intros _].
  { apply local_step_local. intros fs. apply touches_only_dirs_added.
    unfold local_mkdir_parents.
    destruct (mkdir_chain _ _ _ fs) as [r fs'] eqn:Hmk. cbn [snd].
    eapply mkdir_chain_dirs_added. exact Hmk. }
  apply local_step_bind; [assumption | apply local_step_smb; assumption | intros remote_there].
  destruct (negb remote_there); [apply local_step_raise; assumption |].
  apply local_step_bind; [assumption | | intros total; apply local_step_ret; assumption].
  apply local_step_bind; [assumption | apply local_step_smb; assumption | intros opened].
  apply local_step_finally; [assumption | | apply local_step_smb; assumption].
  apply local_step_bind; [assumption | | intros _; apply download_loop_touches].
  apply local_step_local. intros fs. apply touches_only_open_wb.
Qed.


Lemma local_open_wb_ok (p : PurePath) (fs fs' : gmap string lnode) :
  local_open_wb p fs = (Ok tt, fs') ->
  fs' = <[path_str p := LFile []]> fs /\ p_parts p <> [].
Proof.
  unfold local_open_wb, local_lookup.
  destruct (p_parts p) as [|c ps] eqn:Hparts; [discriminate |].
  intros Hrun. split; [| discriminate].
  destruct (fs !! path_str p) as [[c0| |?|?]|];
    try discriminate Hrun;
    (destruct (match p_parts (path_parent p) with [] => Some LDir | _ => _ end)
       as [[c1| |?|?]|]; inversion Hrun; reflexivity).
Qed.



(** The loop of [download_file] when the remote file breaks after [chunks]:
    the chunks are in the local file, and the exception goes up. *)
Lemma download_loop_breaks {C : SMBClient} (e : exn) (p : PurePath) (chunks : list bytes) :
  forall (total : Z) (c0 : bytes) (fs : gmap string lnode) (s : smb_state C)
         (tr : list smb_call),
    Forall (fun c : bytes => c <> []) chunks ->
    fs !! path_str p = Some (LFile c0) ->
    exists tr',
      download_loop chunks (Some e) p total (Build_World fs s tr)
      = (Raised e, Build_World (<[path_str p := LFile (c0 ++ concat chunks)]> fs) s tr').
Proof.
  induction chunks as [|chunk chunks IH]; intros total c0 fs s tr Hne Hfile;
    cbn [download_loop]; rewrite bind_run; unfold smb at 1; cbn [w_smb w_local w_trace].
  - eexists. cbn [concat]. rewrite app_nil_r, insert_id by exact Hfile. reflexivity.
  - inversion Hne as [|? ? Hchunk Hrest]; subst.
    destruct chunk as [|b chunk]; [congruence |].
    rewrite bind_run. unfold local at 1. cbn [w_smb w_local w_trace].
    unfold local_write. rewrite Hfile.
    destruct (IH (total + Z.of_nat (length (b :: chunk))) (c0 ++ b :: chunk)%list
                 (<[path_str p := LFile (c0 ++ b :: chunk)]> fs) s
                 (tr ++ [CallRead])%list Hrest ltac:(apply lookup_insert_eq)) as [tr' Hrun].
    exists tr'. rewrite Hrun, insert_insert_eq. cbn [concat].
    rewrite <- app_assoc. reflexivity.
Qed.

(** X7.  A download that breaks in the middle leaves what it got.  When the
    checks pass, the local file is opened, and the remote file delivers
    [chunks] (none of them empty) and then raises, [download_file] returns an
    error record, and [local_path] is left holding the chunks received: the
    partial file is not removed. *)
Theorem download_file_leaves_partial_file :
  forall (C : SMBClient) (svc : SMBFileService) (remote_path local_path : string)
         (overwrite : bool) (w : World (C:=C)) (there : bool)
         (fs1 fs2 : gmap string lnode)
         (s1 s2 : smb_state C) (h : smb_handle C) (chunks : list bytes) (e : exn),
    local_exists (w_local w) (Path local_path) = Ok there ->
    there && negb overwrite = false ->
    local_mkdir_parents (path_parent (Path local_path)) (w_local w) = (Ok tt, fs1) ->
    path_exists C (full_remote svc remote_path) (w_smb w) = (Ok true, s1) ->
    open_file_rb C (full_remote svc remote_path) s1
    = (Ok (h, {| rs_chunks := chunks; rs_fail := Some e |}), s2) ->
    Forall (fun c : bytes => c <> []) chunks ->
    local_open_wb (Path local_path) fs1 = (Ok tt, fs2) ->
    exists (msg : string) (w' : World (C:=C)),
      download_file svc remote_path local_path overwrite w
      = (Ok [ ("status", PStr "error");
              ("remote_path", PStr remote_path);
              ("local_path", PStr local_path);
              ("error", PStr msg) ], w')
      /\ local_lookup (w_local w') (Path local_path) = Some (LFile (concat chunks)).
Proof.
  intros C svc remote_path local_path overwrite w there fs1 fs2 s1 s2 h chunks e
         Hthere Hcheck Hmk Hex Hopen Hne Hwb.
  destruct (local_open_wb_ok _ _ _ Hwb) as [-> Hparts].
  destruct (download_loop_breaks e (Path local_path) chunks 0 []
              (<[path_str (Path local_path) := LFile []]> fs1) s2
              ((w_trace w ++ [CallExists (full_remote svc remote_path)])
                 ++ [CallOpenRB (full_remote svc remote_path)])%list
              Hne ltac:(apply lookup_insert_eq)) as [tr' Hloop].
  rewrite insert_insert_eq in Hloop. cbn [app] in Hloop.
  assert (Hlookup : forall s tr,
    local_lookup
      (w_local (@Build_World C (<[path_str (Path local_path) := LFile (concat chunks)]> fs1) s tr))
      (Path local_path) = Some (LFile (concat chunks))).
  { intros s tr. unfold local_lookup. cbn [w_local].
    destruct (p_parts (Path local_path)); [congruence | apply lookup_insert_eq]. }
  unfold download_file, try_except, download_file_try.
  rewrite bind_run, local_read_run, Hthere, Hcheck.
  rewrite bind_run. unfold local at 1. rewrite Hmk.
  rewrite bind_run. unfold smb at 1. cbn [w_smb w_local w_trace]. rewrite Hex. cbn [negb].
  rewrite bind_run. rewrite bind_run.
  unfold smb at 1. cbn [w_smb w_local w_trace]. rewrite Hopen.
  unfold finally. rewrite bind_run. unfold local at 1. cbn [w_smb w_local w_trace].
  rewrite Hwb. cbn [fst snd rs_chunks rs_fail]. rewrite Hloop.
  unfold smb at 1. cbn [w_smb w_local w_trace].
  destruct (close C h s2) as [[u|e'] s3]; unfold ret; eexists _, _;
    (split; [reflexivity | apply Hlookup]).
Qed.

Lemma download_file_leaves_partial_file_witness :
  Forall (fun c : bytes => c <> []) [demo_bytes]
  /\ exists (msg : string) (w' : World (C:=flaky_client)),
      download_file (C:=flaky_client) demo_service "a.txt" "part.bin" false
        (@Build_World flaky_client demo_local
           {| MemShare.store := share_with_file; MemShare.faults := [] |} [])
      = (Ok [ ("status", PStr "error");
              ("remote_path", PStr "a.txt");
              ("local_path", PStr "part.bin");
              ("error", PStr msg) ], w')
      /\ local_lookup (w_local w') (Path "part.bin") = Some (LFile (concat [demo_bytes])).
Proof.
  assert (Hne : Forall (fun c : bytes => c <> []) [demo_bytes])
    by (repeat constructor; discriminate).
  split; [exact Hne |].
  exact (download_file_leaves_partial_file flaky_client demo_service "a.txt" "part.bin" false
           (@Build_World flaky_client demo_local
              {| MemShare.store := share_with_file; MemShare.faults := [] |} [])
           false demo_local (<["part.bin" := LFile []]> demo_local)
           {| MemShare.store := share_with_file; MemShare.faults := [] |}
           {| MemShare.store := share_with_file; MemShare.faults := [] |}
           "//srv/data/a.txt" [demo_bytes] connection_lost
           eq_refl eq_refl eq_refl eq_refl eq_refl Hne eq_refl).
Defined.

(** ** The writes of an upload *)

Lemma chunks_bounds (fuel : nat) :
  forall content : bytes,
    Forall (fun c : bytes => (0 < length c <= chunk_size)%nat) (MemShare.chunks fuel content).
Proof.
  induction fuel as [|fuel IH]; intros content; cbn [MemShare.chunks]; [constructor |].
  destruct (take chunk_size content) as [|b chunk] eqn:Htake; constructor; [| apply IH].
  rewrite <- Htake, length_take. split; [| lia].
  rewrite <- length_take, Htake. cbn [length]. lia.
Qed.

Lemma upload_loop_trace {C : SMBClient} (remote_f : smb_handle C) (fuel : nat) :
  forall (rest : bytes) (w : World (C:=C)),
  exists n : nat,
    (n <= length (MemShare.chunks fuel rest))%nat
    /\ w_trace (snd (upload_loop fuel rest remote_f w))
       = (w_trace w
          ++ map (fun c : bytes => CallWrite (length c)) (take n (MemShare.chunks fuel rest)))%list
    /\ (fst (upload_loop fuel rest remote_f w) = Ok tt ->
        n = length (MemShare.chunks fuel rest)).
Proof.
  induction fuel as [|fuel IH]; intros rest w; cbn [upload_loop MemShare.chunks].
  - exists 0%nat. cbn. rewrite app_nil_r. auto.
  - destruct (take chunk_size rest) as [|b chunk] eqn:Htake.
    + exists 0%nat. cbn. rewrite app_nil_r. auto.
    + rewrite bind_run. unfold smb.
      destruct (write C remote_f (b :: chunk) (w_smb w)) as [[u|e] s1].
      * destruct (IH (drop chunk_size rest)
                     (@Build_World C (w_local w) s1
                        (w_trace w ++ [CallWrite (length (b :: chunk))])))
          as [n [Hn [Htr Hok]]].
        exists (S n). cbn [take map]. split; [cbn [length]; lia |].
        split; [| intros H; rewrite (Hok H); reflexivity].
        rewrite Htr. cbn [w_trace]. rewrite <- app_assoc. reflexivity.
      * exists 1%nat. cbn [take map fst snd w_trace]. split; [cbn [length]; lia |].
        split; [| discriminate]. rewrite take_0. reflexivity.
Qed.

(** The loop of [upload_file] writes the chunks of what is left, in order. *)
Lemma upload_loop_pieces {C : SMBClient} (remote_f : smb_handle C) (fuel : nat) :
  forall (rest : bytes) (w : World (C:=C)),
    upload_loop fuel rest remote_f w
    = write_pieces remote_f (MemShare.chunks fuel rest) w.
Proof.
  induction fuel as [|fuel IH]; intros rest w; cbn [upload_loop MemShare.chunks];
    [reflexivity |].
  destruct (take chunk_size rest) as [|b chunk]; [reflexivity |].
  cbn [write_pieces]. rewrite !bind_run.
  destruct (smb _ _ w) as [[u|e] w1]; [apply IH | reflexivity].
Qed.

(** Every chunk but the last is a full one. *)
Lemma chunks_full (fuel : nat) :
  forall content : bytes,
    Forall (fun c : bytes => length c = chunk_size)
           (removelast (MemShare.chunks fuel content)).
Proof.
  induction fuel as [|fuel IH]; intros content; cbn [MemShare.chunks]; [constructor |].
  destruct (take chunk_size content) as [|b chunk] eqn:Htake; [constructor |].
  specialize (IH (drop chunk_size content)).
  destruct (MemShare.chunks fuel (drop chunk_size content)) as [|c2 l] eqn:Hnext;
    [constructor |].
  change (removelast ((b :: chunk) :: c2 :: l))
    with ((b :: chunk) :: removelast (c2 :: l)).
  constructor; [| exact IH].
  rewrite <- Htake, length_take.
  destruct (Nat.le_gt_cases chunk_size (length content)) as [Hle | Hgt]; [lia |].
  exfalso. rewrite drop_ge in Hnext by lia.
  destruct fuel as [|fuel']; cbn [MemShare.chunks] in Hnext; [discriminate Hnext |].
  rewrite take_nil in Hnext. discriminate Hnext.
Qed.

(** X8.  The loop of [upload_file] cuts [content] into pieces that put
    together give [content] back, each of at least one byte and at most 64 KiB,
    every piece but the last of 64 KiB exactly.  For every client, handle and
    world, running the loop is writing these pieces, byte for byte, through
    the handle one after the other, up to the first write that raises. *)
Theorem upload_loop_writes_in_chunks :
  forall content : bytes,
  exists pieces : list bytes,
    concat pieces = content
    /\ Forall (fun c : bytes => (0 < length c <= 64 * 1024)%nat) pieces
    /\ Forall (fun c : bytes => length c = (64 * 1024)%nat) (removelast pieces)
    /\ forall (C : SMBClient) (remote_f : smb_handle C) (w : World (C:=C)),
         upload_loop (S (length content)) content remote_f w
         = write_pieces remote_f pieces w.
Proof.
  intros content. exists (MemShare.chunks (S (length content)) content).
  split; [apply chunks_concat; lia |].
  split; [apply (chunks_bounds (S (length content)) content) |].
  split; [apply (chunks_full (S (length content)) content) |].
  intros C remote_f w. apply upload_loop_pieces.
Qed.

(** * Further properties of the configuration loaders *)

(** X9.  A configuration loaded from the environment has a non-empty server,
    share, user name and password, taken from the four variables.  Signing is
    required exactly when [SMB_REQUIRE_SIGNING], lower-cased, is [true]: it is
    required when the variable is unset, and any other value, [1] or [yes]
    included, turns it off. *)
Theorem load_config_from_env_result :
  forall (py_int : string -> outcome Z) (env : gmap string string) (cfg : SMBConfig),
    load_config_from_env py_int env = Ok cfg ->
    (server cfg = getenv env "SMB_SERVER" "" /\ server cfg <> "")
    /\ (share cfg = getenv env "SMB_SHARE" "" /\ share cfg <> "")
    /\ (username cfg = getenv env "SMB_USERNAME" "" /\ username cfg <> "")
    /\ (password cfg = getenv env "SMB_PASSWORD" "" /\ password cfg <> "")
    /\ (require_signing cfg = true
        <-> lower (getenv env "SMB_REQUIRE_SIGNING" "true") = "true")
    /\ (env !! "SMB_REQUIRE_SIGNING" = None -> require_signing cfg = true).
Proof.
  intros py_int env cfg Hload.
  destruct (load_config_from_env_validates py_int env cfg Hload) as (Hs & Hsh & Hu & Hp).
  unfold load_config_from_env, obind in Hload.
  destruct (py_int (getenv env "SMB_PORT" "445")) as [port_|e]; [| discriminate].
  destruct (py_int (getenv env "SMB_TIMEOUT" "30")) as [timeout_|e]; [| discriminate].
  destruct (negb (all_nonempty _)); [discriminate |].
  inversion Hload; subst cfg. cbn [server share username password require_signing] in *.
  repeat split; try assumption.
  - apply String.eqb_eq.
  - intros H. apply String.eqb_eq. exact H.
  - intros Hunset. unfold getenv. rewrite Hunset. reflexivity.
Qed.

Lemma load_config_from_env_result_witness :
  load_config_from_env demo_int demo_env
  = Ok {| server := "srv"; share := "data"; username := "alice"; password := "secret";
          domain := ""; port := 445; require_signing := false; encrypt := false;
          timeout := 30 |}
  /\ (require_signing
        {| server := "srv"; share := "data"; username := "alice"; password := "secret";
           domain := ""; port := 445; require_signing := false; encrypt := false;
           timeout := 30 |} = true
      <-> lower (getenv demo_env "SMB_REQUIRE_SIGNING" "true") = "true").
Proof.
  assert (Hload : load_config_from_env demo_int demo_env
                  = Ok {| server := "srv"; share := "data"; username := "alice";
                          password := "secret"; domain := ""; port := 445;
                          require_signing := false; encrypt := false; timeout := 30 |})
    by (vm_compute; reflexivity).
  split; [exact Hload |].
  exact (proj1 (proj2 (proj2 (proj2 (proj2
           (load_config_from_env_result demo_int demo_env _ Hload)))))).
Defined.

(** X10.  When the two numbers parse and one of the four required variables
    is unset or empty, loading from the environment raises the [ValueError]
    that names the four variables. *)
Theorem load_config_from_env_missing_field :
  forall (py_int : string -> outcome Z) (env : gmap string string) (port_ timeout_ : Z),
    py_int (getenv env "SMB_PORT" "445") = Ok port_ ->
    py_int (getenv env "SMB_TIMEOUT" "30") = Ok timeout_ ->
    getenv env "SMB_SERVER" "" = "" \/ getenv env "SMB_SHARE" "" = ""
    \/ getenv env "SMB_USERNAME" "" = "" \/ getenv env "SMB_PASSWORD" "" = "" ->
    load_config_from_env py_int env
    = Raised (Exn ValueError
        "Missing required environment variables: SMB_SERVER, SMB_SHARE, SMB_USERNAME, SMB_PASSWORD").
Proof.
  intros py_int env port_ timeout_ Hport Htimeout Hmissing.
  unfold load_config_from_env, obind. rewrite Hport, Htimeout.
  cbn [server share username password].
  assert (Hall : all_nonempty [getenv env "SMB_SERVER" ""; getenv env "SMB_SHARE" "";
                               getenv env "SMB_USERNAME" ""; getenv env "SMB_PASSWORD" ""]
                 = false).
  { unfold all_nonempty. cbn [forallb].
    destruct Hmissing as [-> | [-> | [-> | ->]]]; cbn [String.eqb negb andb];
      rewrite ?andb_false_r; reflexivity. }
  rewrite Hall. reflexivity.
Qed.

Lemma load_config_from_env_missing_field_witness :
  getenv (delete "SMB_PASSWORD" demo_env) "SMB_PASSWORD" "" = ""
  /\ load_config_from_env demo_int (delete "SMB_PASSWORD" demo_env)
     = Raised (Exn ValueError
         "Missing required environment variables: SMB_SERVER, SMB_SHARE, SMB_USERNAME, SMB_PASSWORD").
Proof.
  split; [reflexivity |].
  exact (load_config_from_env_missing_field demo_int (delete "SMB_PASSWORD" demo_env)
           445 30 eq_refl eq_refl (or_intror (or_intror (or_intror eq_refl)))).
Defined.

(** Collecting members that hold none of a kind leaves the kind's argument as
    it was. *)
Lemma collect_kwargs_keeps (es : list cfg_entry) :
  forall k k' : cfg_kwargs,
    collect_kwargs es k = Ok k' ->
    (existsb is_server es = false -> k_server k' = k_server k)
    /\ (existsb is_share es = false -> k_share k' = k_share k)
    /\ (existsb is_username es = false -> k_username k' = k_username k)
    /\ (existsb is_password es = false -> k_password k' = k_password k).
Proof.
  induction es as [|e es IH]; intros k k' Hrun; cbn [collect_kwargs] in Hrun.
  - inversion Hrun; subst. repeat split; reflexivity.
  - unfold obind in Hrun. destruct (add_kwarg e k) as [k1|x] eqn:Hadd; [| discriminate].
    destruct (IH k1 k' Hrun) as (H1 & H2 & H3 & H4).
    destruct e; cbn [add_kwarg] in Hadd; inversion Hadd; subst k1;
      cbn [existsb is_server is_share is_username is_password orb
           k_server k_share k_username k_password] in *;
      repeat split; intros Hnone; try discriminate Hnone; auto.
Qed.

Lemma collect_kwargs_unknown (es : list cfg_entry) :
  forall k : cfg_kwargs,
    existsb is_other es = true ->
    exists msg, collect_kwargs es k = Raised (Exn TypeError msg).
Proof.
  induction es as [|e es IH]; intros k Hother; [discriminate |].
  cbn [collect_kwargs existsb] in *. unfold obind.
  destruct e; cbn [add_kwarg is_other orb] in *; eauto.
Qed.

(** X11.  Loading from a file fails with a [TypeError] when the file has a
    member that is no field of the configuration, and when it has no member
    for the server, the share, the user name or the password. *)
Theorem load_config_from_file_rejects :
  forall members : list cfg_entry,
    existsb is_other members = true
    \/ existsb is_server members = false \/ existsb is_share members = false
    \/ existsb is_username members = false \/ existsb is_password members = false ->
    exists msg, load_config_from_file (Ok members) = Raised (Exn TypeError msg).
Proof.
  intros members Hbad. unfold load_config_from_file. cbn [obind].
  destruct (existsb is_other members) eqn:Hother.
  { destruct (collect_kwargs_unknown members no_kwargs Hother) as [msg Hmsg].
    exists msg. rewrite Hmsg. reflexivity. }
  destruct Hbad as [Hbad | Hbad]; [discriminate |].
  destruct (collect_kwargs members no_kwargs) as [k|e] eqn:Hcollect.
  - destruct (collect_kwargs_keeps members no_kwargs k Hcollect) as (H1 & H2 & H3 & H4).
    cbn [obind]. unfold SMBConfig_of_kwargs.
    destruct Hbad as [Hb | [Hb | [Hb | Hb]]].
    + rewrite (H1 Hb). cbn. eauto.
    + rewrite (H2 Hb). cbn. destruct (k_server k); eauto.
    + rewrite (H3 Hb). cbn. destruct (k_server k), (k_share k); eauto.
    + rewrite (H4 Hb). cbn. destruct (k_server k), (k_share k), (k_username k); eauto.
  - exfalso. clear Hbad. revert Hcollect Hother. generalize no_kwargs.
    induction members as [|m members IH]; intros k0 Hcollect Hother; [discriminate |].
    cbn [collect_kwargs existsb] in *. unfold obind in Hcollect.
    destruct m; cbn [add_kwarg is_other orb] in *; try discriminate Hother;
      eapply IH; eassumption.
Qed.

Lemma load_config_from_file_rejects_witness :
  existsb is_password [E_server "srv"; E_share "data"; E_username "alice"] = false
  /\ exists msg,
      load_config_from_file (Ok [E_server "srv"; E_share "data"; E_username "alice"])
      = Raised (Exn TypeError msg).
Proof.
  split; [reflexivity |].
  exact (load_config_from_file_rejects [E_server "srv"; E_share "data"; E_username "alice"]
           (or_intror (or_intror (or_intror (or_intror eq_refl))))).
Defined.

(** * Further properties of the gateway *)

Lemma list_files_returns {C : SMBClient} (svc : SMBFileService) (remote_path : string)
    (w : World (C:=C)) :
  exists d w', list_files svc remote_path w = (Ok d, w') /\ result_record d.
Proof.
  apply (try_except_total result_record).
  - yields_steps. apply success_record; reflexivity.
  - intros e. apply error_record; reflexivity.
Qed.

Lemma test_connection_returns {C : SMBClient} (svc : SMBFileService) (w : World (C:=C)) :
  exists d w', test_connection svc w = (Ok d, w') /\ result_record d.
Proof.
  apply (try_except_total result_record).
  - yields_steps. apply success_record; reflexivity.
  - intros e. apply error_record; reflexivity.
Qed.

Lemma status_code_record (d : pydict) :
  result_record d -> status_code d = Ok (answer_code d).
Proof.
  intros [[Hs | Hs] _]; unfold status_code, status_is_success, answer_code;
    rewrite Hs; reflexivity.
Qed.

(** X12.  The routes [/smb/files] and [/smb/test] answer with the record the
    service returned, under 200 when its status is [success] and 400
    otherwise: with the service initialised they never answer 500, whatever
    the client does.  [/smb/files] lists the [path] of the query string, the
    share root when there is none.  Without a service both answer 500 and
    call nothing. *)
Theorem query_routes_answer :
  forall (C : SMBClient) (svc : SMBFileService) (request : Request) (w : World (C:=C)),
    (exists d w',
        list_files svc (args_get_default "path" "" (args request)) w = (Ok d, w')
        /\ smb_api.list_files (Some svc) request w = (Ok (d, answer_code d), w')
        /\ (answer_code d = 200 \/ answer_code d = 400))
    /\ (exists d w',
        test_connection svc w = (Ok d, w')
        /\ smb_api.test_connection (Some svc) request w = (Ok (d, answer_code d), w')
        /\ (answer_code d = 200 \/ answer_code d = 400))
    /\ smb_api.list_files None request w = (Ok not_initialized, w)
    /\ smb_api.test_connection None request w = (Ok not_initialized, w).
Proof.
  intros C svc request w.
  assert (Hcode : forall d, answer_code d = 200 \/ answer_code d = 400).
  { intros d. unfold answer_code.
    destruct (dict_get "status" d) as [[| | | | s | |]|]; auto.
    destruct (String.eqb s "success"); auto. }
  repeat split.
  - destruct (list_files_returns svc (args_get_default "path" "" (args request)) w)
      as [d [w' [Hrun Hrec]]].
    exists d, w'. split; [exact Hrun |]. split; [| apply Hcode].
    unfold smb_api.list_files, require_smb_service, smb_api.list_files_view, try_except.
    rewrite bind_run, Hrun. next_lifted. rewrite (status_code_record d Hrec). reflexivity.
  - destruct (test_connection_returns svc w) as [d [w' [Hrun Hrec]]].
    exists d, w'. split; [exact Hrun |]. split; [| apply Hcode].
    unfold smb_api.test_connection, require_smb_service, smb_api.test_connection_view,
      try_except.
    rewrite bind_run, Hrun. next_lifted. rewrite (status_code_record d Hrec). reflexivity.
Qed.

(** X13.  With the service initialised, the mkdir view never raises and
    answers 200, 400 or 500; unless it answers 200 it leaves the world as it
    found it: a request it rejects costs no call to the share. *)
Theorem create_directory_rejects_without_calls :
  forall (C : SMBClient) (svc : SMBFileService) (request : Request) (w : World (C:=C)),
  exists (body : pydict) (code : Z) (w' : World (C:=C)),
    create_directory (Some svc) request w = (Ok (body, code), w')
    /\ (code = 200 \/ code = 400 \/ code = 500)
    /\ (code <> 200 -> w' = w).
Proof.
  intros C svc request w.
  assert (Hdone : forall (body : pydict) (code : Z),
             code = 400 \/ code = 500 ->
             exists (body' : pydict) (code' : Z) (w' : World (C:=C)),
               (Ok (body, code), w) = (Ok (body', code'), w')
               /\ (code' = 200 \/ code' = 400 \/ code' = 500)
               /\ (code' <> 200 -> w' = w)).
  { intros body code Hcode. exists body, code, w.
    split; [reflexivity |]. split; [tauto | reflexivity]. }
  unfold create_directory, require_smb_service, create_directory_view, try_except.
  next_lifted. destruct (get_json request) as [data|e]; [| apply Hdone; auto].
  next_lifted. destruct (lacks_remote_path data) as [[|]|e]; [apply Hdone; auto | | apply Hdone; auto].
  next_lifted. destruct (py_getitem data "remote_path") as [remote_path|e]; [| apply Hdone; auto].
  next_lifted. destruct (py_lstrip_slash remote_path) as [stripped|e]; [| apply Hdone; auto].
  rewrite bind_run.
  destruct (ensure_remote_dir_total (server_url svc ++ "/" ++ stripped) w) as [w' Hw'].
  rewrite Hw'. eexists _, 200, w'. split; [reflexivity |]. split; [auto | congruence].
Qed.

(** X14.  Initialising the service never raises.  From the environment it
    answers [True] only with a service whose server, share, user name and
    password are non-empty and whose share root is [//server/share]; when it
    answers [False], from the environment or from a file, the global service is
    what it was before. *)
Theorem init_smb_service_result :
  forall (C : SMBClient) (py_int : string -> outcome Z) (env : gmap string string)
         (config_data : outcome (list cfg_entry)) (current : option SMBFileService)
         (w : World (C:=C)),
    (exists (ok : bool) (g : option SMBFileService) (w' : World (C:=C)),
        smb_api.init_smb_service_from_env py_int env current w = (Ok (ok, g), w')
        /\ (ok = false -> g = current)
        /\ (ok = true ->
            exists svc, g = Some svc
              /\ server (config svc) <> "" /\ share (config svc) <> ""
              /\ username (config svc) <> "" /\ password (config svc) <> ""
              /\ server_url svc = "//" ++ server (config svc) ++ "/" ++ share (config svc)))
    /\ (exists (ok : bool) (g : option SMBFileService) (w' : World (C:=C)),
        smb_api.init_smb_service_from_config config_data current w = (Ok (ok, g), w')
        /\ (ok = false -> g = current)
        /\ (ok = true -> exists svc, g = Some svc)).
Proof.
  intros C py_int env config_data current w. split.
  - unfold smb_api.init_smb_service_from_env, try_except. next_lifted.
    destruct (load_config_from_env py_int env) as [cfg|e] eqn:Hload.
    2: { exists false, current, w. split; [reflexivity | split; [intros _; reflexivity | discriminate]]. }
    rewrite bind_run.
    destruct (SMBFileService_init cfg w) as [[svc|e] w1] eqn:Hinit.
    2: { exists false, current, w1. split; [reflexivity | split; [intros _; reflexivity | discriminate]]. }
    exists true, (Some svc), w1. split; [reflexivity |]. split; [discriminate |].
    intros _. exists svc. split; [reflexivity |].
    unfold SMBFileService_init in Hinit. rewrite bind_run in Hinit.
    destruct (_setup_client_config cfg w) as [[u|e] w2]; [| discriminate Hinit].
    inversion Hinit; subst svc. cbn [config server_url new_service].
    destruct (load_config_from_env_validates py_int env cfg Hload) as (Hsv & Hsh & Hus & Hpw).
    repeat split; assumption.
  - unfold smb_api.init_smb_service_from_config, try_except. next_lifted.
    destruct (load_config_from_file config_data) as [cfg|e].
    2: { exists false, current, w. split; [reflexivity | split; [intros _; reflexivity | discriminate]]. }
    rewrite bind_run.
    destruct (SMBFileService_init cfg w) as [[svc|e] w1].
    2: { exists false, current, w1. split; [reflexivity | split; [intros _; reflexivity | discriminate]]. }
    exists true, (Some svc), w1. split; [reflexivity |]. split; [discriminate | eauto].
Qed.

(** ** The scratch file of an upload *)





(** Called with a string and a boolean, the untyped [upload_file] is the
    typed one. *)
Lemma upload_file_dyn_str {C : SMBClient} (svc : SMBFileService)
    (local_path remote_path : string) (create_dirs : bool) (w : World (C:=C)) :
  upload_file_dyn svc local_path (PStr remote_path) (PBool create_dirs) w
  = upload_file svc local_path remote_path create_dirs w.
Proof.
  unfold upload_file_dyn, upload_file, try_except, upload_file_dyn_try, upload_file_try.
  rewrite !bind_run. destruct (local_read _ w) as [[there|e] w1]; [| reflexivity].
  destruct (negb there); [reflexivity |].
  rewrite bind_run. reflexivity.
Qed.

(** The unlink of the scratch file, with its handler, returns normally. *)
Lemma unlink_scratch_total {C : SMBClient} (p : PurePath) (w : World (C:=C)) :
  try_except (local (local_unlink p)) (fun e => ret tt) w
  = (Ok tt, {| w_local := snd (local_unlink p (w_local w)); w_smb := w_smb w;
               w_trace := w_trace w |}).
Proof.
  unfold try_except, local, ret.
  destruct (local_unlink p (w_local w)) as [[[]|e] fs']; reflexivity.
Qed.

Lemma unlink_created (p : PurePath) (data : bytes) (fs : gmap string lnode) :
  p_parts p <> [] -> fs !! path_str p = None ->
  snd (local_unlink p (<[path_str p := LFile data]> fs)) = fs.
Proof.
  intros Hparts Hfresh. unfold local_unlink, local_lookup.
  destruct (p_parts p); [congruence |].
  rewrite lookup_insert_eq. cbn [snd]. rewrite delete_insert_eq. apply delete_id. exact Hfresh.
Qed.




(** An upload to the reference share that returned the success record has
    stored the content of the local file under the remote path. *)
Lemma upload_file_stores (svc : SMBFileService) (local_path remote_path : string)
    (create_dirs : bool) (content : bytes) (fs : gmap string lnode)
    (st : gmap string MemShare.rnode) (tr : list smb_call) (d : pydict)
    (w' : World (C:=MemShare.client)) :
  local_lookup fs (Path local_path) = Some (LFile content) ->
  upload_file svc local_path remote_path create_dirs (calm_world fs st tr) = (Ok d, w') ->
  dict_get "status" d = Some (PStr "success") ->
  exists st' tr',
    w' = calm_world fs st' tr'
    /\ MemShare.lookup st' (full_remote svc remote_path)
       = Some (MemShare.RFile content 0%float)
    /\ dict_get "size_bytes" d = Some (PInt (Z.of_nat (length content))).
Proof.
  intros Hfile Hup Hstatus.
  unfold upload_file, try_except in Hup.
  destruct (upload_file_try svc local_path remote_path create_dirs (calm_world fs st tr))
    as [[d0|e] wb] eqn:Hbody;
    [| inversion Hup; subst; discriminate Hstatus].
  inversion Hup; subst d0 wb. clear Hup.
  unfold upload_file_try in Hbody.
  apply bind_ok_inv in Hbody as [there [wa [Hthere Hbody]]].
  rewrite local_read_run in Hthere. inversion Hthere as [[Hex Hwa]]. subst wa. clear Hthere.
  destruct (negb there); [discriminate Hbody |].
  apply bind_ok_inv in Hbody as [u [wa [Hpre Hbody]]].
  assert (Hwa : exists sta tra, wa = calm_world fs sta tra).
  { destruct create_dirs.
    - destruct (ensure_remote_dir_calm
                  (path_str (path_parent (Path (full_remote svc remote_path)))) fs st tr)
        as [sta [tra Hens]].
      rewrite Hens in Hpre. inversion Hpre; subst. eauto.
    - inversion Hpre; subst. eauto. }
  destruct Hwa as [sta [tra ->]]. clear Hpre.
  apply bind_ok_inv in Hbody as [[] [wb [Hcopy Hbody]]].
  destruct (upload_copy_stores _ _ _ _ _ _ _ Hfile Hcopy) as [stb [trb [-> Hstored]]].
  apply bind_ok_inv in Hbody as [size [wc [Hsize Hbody]]].
  rewrite local_read_run in Hsize. cbn [w_local] in Hsize.
  unfold local_stat_size in Hsize. rewrite Hfile in Hsize.
  inversion Hsize; subst size wc.
  inversion Hbody; subst d w'.
  exists stb, trb. repeat split; [exact Hstored].
Qed.

Lemma status_is_success_true (d : pydict) :
  status_is_success d = Ok true -> dict_get "status" d = Some (PStr "success").
Proof.
  unfold status_is_success.
  destruct (dict_get "status" d) as [[| | | | s | |]|]; try discriminate.
  destruct (String.eqb s "success") eqn:E; [| discriminate].
  apply String.eqb_eq in E. subst s. reflexivity.
Qed.

(** X16.  A multipart upload that the route answers with 200 has put the
    bytes of the file part on the share, under the share root joined with the
    [remote_path] field (the secured file name when the form has none), and
    the record in the body counts them; the scratch file is gone.  Stated on a
    share that keeps what is written to it. *)
Theorem upload_route_stores_payload :
  forall (secure_filename : string -> string) (b64decode : pyval -> outcome bytes)
         (temp_path : string) (svc : SMBFileService) (name : string) (content : bytes)
         (form : list (string * string)) (is_json : bool) (json : outcome pyval)
         (fs : gmap string lnode) (st : gmap string MemShare.rnode)
         (tr : list smb_call) (body : pydict) (w' : World (C:=MemShare.client)),
    name <> "" ->
    p_parts (Path temp_path) <> [] ->
    fs !! path_str (Path temp_path) = None ->
    smb_api.upload_file secure_filename b64decode temp_path (Some svc)
      {| u_file := Some (name, content); u_form := form;
         u_is_json := is_json; u_get_json := json |}
      (@Build_World MemShare.client fs
         {| MemShare.store := st; MemShare.faults := [] |} tr)
    = (Ok (body, 200), w') ->
    MemShare.lookup (MemShare.store (w_smb w'))
      (server_url svc ++ "/"
       ++ lstrip_slash (args_get_default "remote_path" (secure_filename name) form))
    = Some (MemShare.RFile content 0%float)
    /\ dict_get "size_bytes" body = Some (PInt (Z.of_nat (length content)))
    /\ w_local w' = fs.
Proof.
  intros secure_filename b64decode temp_path svc name content form is_json json
         fs st tr body w' Hname Hparts Hfresh Hrun.
  unfold smb_api.upload_file, smb_api.upload_file_view, try_except in Hrun.
  cbn [u_file u_form] in Hrun.
  assert (Hne : String.eqb name "" = false) by (apply String.eqb_neq; exact Hname).
  rewrite Hne in Hrun.
  set (remote_path := args_get_default "remote_path" (secure_filename name) form) in *.
  set (create_dirs := String.eqb (lower (args_get_default "create_dirs" "true" form)) "true") in *.
  unfold smb_api.upload_staged in Hrun.
  rewrite bind_run in Hrun. unfold local at 1, local_create in Hrun.
  cbn [fst snd w_local w_smb w_trace] in Hrun.
  set (fs1 := <[path_str (Path temp_path) := LFile content]> fs) in *.
  assert (Hfile : local_lookup fs1 (Path temp_path) = Some (LFile content)).
  { unfold local_lookup. destruct (p_parts (Path temp_path)); [congruence |].
    apply lookup_insert_eq. }
  unfold finally in Hrun. rewrite bind_run, upload_file_dyn_str in Hrun.
  destruct (upload_file svc temp_path remote_path create_dirs (calm_world fs1 st tr))
    as [[d|e] w2] eqn:Hup.
  2: { rewrite unlink_scratch_total in Hrun. discriminate Hrun. }
  rewrite bind_run in Hrun. unfold lift at 1, status_code in Hrun.
  destruct (status_is_success d) as [[|]|e] eqn:Hok; cbn [obind] in Hrun.
  2: { change (ret (d, 400) w2) with (Ok (d, 400), w2) in Hrun. cbv beta iota in Hrun.
       rewrite unlink_scratch_total in Hrun. discriminate Hrun. }
  2: { rewrite unlink_scratch_total in Hrun. discriminate Hrun. }
  change (ret (d, 200) w2) with (Ok (d, 200), w2) in Hrun. cbv beta iota in Hrun.
  rewrite unlink_scratch_total in Hrun.
  apply status_is_success_true in Hok.
  destruct (upload_file_stores _ _ _ _ _ _ _ _ _ _ Hfile Hup Hok)
    as [st' [tr' [-> [Hstored Hsize]]]].
  unfold ret in Hrun. inversion Hrun; subst body w'. cbn [w_smb w_local MemShare.store].
  split; [exact Hstored |]. split; [exact Hsize |].
  subst fs1. apply unlink_created; assumption.
Qed.

Lemma upload_route_stores_payload_witness :
  "a.txt" <> ""
  /\ p_parts (Path "/tmp/tmpab12") <> []
  /\ demo_local !! path_str (Path "/tmp/tmpab12") = None
  /\ MemShare.lookup
       (MemShare.store (w_smb (snd (smb_api.upload_file (C:=MemShare.client)
          demo_secure_filename demo_b64decode "/tmp/tmpab12" (Some demo_service)
          {| u_file := Some ("a.txt", demo_bytes); u_form := [("remote_path", "/in/a.txt")];
             u_is_json := false; u_get_json := Ok PNone |}
          (MemShare.world demo_local demo_share [])))))
       (server_url demo_service ++ "/"
        ++ lstrip_slash (args_get_default "remote_path" (demo_secure_filename "a.txt")
                           [("remote_path", "/in/a.txt")]))
     = Some (MemShare.RFile demo_bytes 0%float).
Proof.
  assert (Hname : "a.txt" <> "") by discriminate.
  assert (Hparts : p_parts (Path "/tmp/tmpab12") <> []) by discriminate.
  split; [exact Hname |]. split; [exact Hparts |]. split; [reflexivity |].
  exact (proj1 (upload_route_stores_payload demo_secure_filename demo_b64decode
           "/tmp/tmpab12" demo_service "a.txt" demo_bytes [("remote_path", "/in/a.txt")]
           false (Ok PNone) demo_local demo_share [] _ _
           Hname Hparts eq_refl eq_refl)).
Defined.

(** ** The scratch file of a download *)

Lemma scratch_step_refl (key : string) (fs : gmap string lnode) : scratch_step key fs fs.
Proof. split; [apply touches_only_refl | tauto]. Qed.

Lemma scratch_step_trans (key : string) (fs1 fs2 fs3 : gmap string lnode) :
  scratch_step key fs1 fs2 -> scratch_step key fs2 fs3 -> scratch_step key fs1 fs3.
Proof.
  intros [T12 F12] [T23 F23]. split; [eapply touches_only_trans; eassumption | auto].
Qed.

Lemma scratch_step_dirs_added (key : string) (fs fs' : gmap string lnode) :
  dirs_added fs fs' -> scratch_step key fs fs'.
Proof.
  intros H. split; [apply touches_only_dirs_added; exact H |].
  intros [c Hc]. exists c. destruct (H key) as [E | [N _]]; congruence.
Qed.

Lemma scratch_step_open_wb (p : PurePath) (fs : gmap string lnode) :
  scratch_step (path_str p) fs (snd (local_open_wb p fs)).
Proof.
  split; [apply touches_only_open_wb |].
  intros [c Hc]. unfold local_open_wb.
  destruct (local_lookup fs p) as [[c1| |?|?]|];
    try (destruct (local_lookup fs (path_parent p)) as [[c'| |?|?]|]); cbn [snd];
    first [ exists c; exact Hc | exists []; apply lookup_insert_eq ].
Qed.

Lemma scratch_step_write (p : PurePath) (chunk : bytes) (fs : gmap string lnode) :
  scratch_step (path_str p) fs (local_write p chunk fs).
Proof.
  split; [apply touches_only_write |].
  intros [c Hc]. unfold local_write. rewrite Hc.
  exists (c ++ chunk)%list. apply lookup_insert_eq.
Qed.

Lemma download_loop_scratch {C : SMBClient} (fail : option exn) (p : PurePath)
    (reads : list bytes) :
  forall total : Z,
    local_step (C:=C) (scratch_step (path_str p)) (download_loop reads fail p total).
Proof.
  pose proof (scratch_step_refl (path_str p)) as Hrefl.
  pose proof (scratch_step_trans (path_str p)) as Htrans.
  induction reads as [|chunk reads IH]; intros total; cbn [download_loop].
  - apply local_step_bind; [assumption | apply local_step_smb; assumption |].
    intros _. apply local_step_ret; assumption.
  - apply local_step_bind; [assumption | apply local_step_smb; assumption | intros _].
    destruct chunk; [apply local_step_ret; assumption |].
    apply local_step_bind; [assumption | | intros _; apply IH].
    apply local_step_local. intros fs. apply scratch_step_write.
Qed.

(** Whatever it is called with, [download_file] keeps a regular file at
    [local_path] a regular file, and touches nothing else but directories. *)
Lemma download_file_dyn_scratch {C : SMBClient} (svc : SMBFileService)
    (remote_path : pyval) (local_path : string) (overwrite : bool) :
  local_step (C:=C) (scratch_step (path_str (Path local_path)))
    (download_file_dyn svc remote_path local_path overwrite).
Proof.
  pose proof (scratch_step_refl (path_str (Path local_path))) as Hrefl.
  pose proof (scratch_step_trans (path_str (Path local_path))) as Htrans.
  unfold download_file_dyn, download_file_dyn_try.
  apply local_step_try_except; [assumption | | intros e; apply local_step_ret; assumption].
  apply local_step_bind; [assumption | apply local_step_local_read; assumption | intros there].
  destruct (there && negb overwrite); [apply local_step_raise; assumption |].
  apply local_step_bind; [assumption | | intros _].
  { apply local_step_local. intros fs. apply scratch_step_dirs_added.
    unfold local_mkdir_parents.
    destruct (mkdir_chain _ _ _ fs) as [r fs'] eqn:Hmk. cbn [snd].
    eapply mkdir_chain_dirs_added. exact Hmk. }
  apply local_step_bind; [assumption | apply local_step_lift; assumption | intros stripped].
  apply local_step_bind; [assumption | apply local_step_smb; assumption | intros remote_there].
  destruct (negb remote_there); [apply local_step_raise; assumption |].
  apply local_step_bind; [assumption | | intros total; apply local_step_ret; assumption].
  apply local_step_bind; [assumption | apply local_step_smb; assumption | intros opened].
  apply local_step_finally; [assumption | | apply local_step_smb; assumption].
  apply local_step_bind; [assumption | | intros _; apply download_loop_scratch].
  apply local_step_local. intros fs. apply scratch_step_open_wb.
Qed.

Lemma download_file_dyn_str {C : SMBClient} (svc : SMBFileService)
    (remote_path local_path : string) (overwrite : bool) (w : World (C:=C)) :
  download_file_dyn svc (PStr remote_path) local_path overwrite w
  = download_file svc remote_path local_path overwrite w.
Proof. reflexivity. Qed.

Lemma tidy_refl (key : string) (fs : gmap string lnode) : tidy key fs fs.
Proof. split; [apply touches_only_refl | tauto]. Qed.

Lemma tidy_trans (key : string) (fs1 fs2 fs3 : gmap string lnode) :
  tidy key fs1 fs2 -> tidy key fs2 fs3 -> tidy key fs1 fs3.
Proof.
  intros [T12 F12] [T23 F23]. split; [eapply touches_only_trans; eassumption | auto].
Qed.

Lemma unlink_file (p : PurePath) (fs : gmap string lnode) :
  p_parts p <> [] -> is_file_at (path_str p) fs ->
  snd (local_unlink p fs) = delete (path_str p) fs.
Proof.
  intros Hparts [c Hc]. unfold local_unlink, local_lookup.
  destruct (p_parts p); [congruence |]. rewrite Hc. reflexivity.
Qed.

(** The end of the download view when [return_file] is false: the scratch
    file is made and unlinked again. *)
Lemma download_staged_tidy {C : SMBClient} (b64encode : bytes -> string)
    (svc : SMBFileService) (temp_path : string) (remote_path return_file : pyval) :
  p_parts (Path temp_path) <> [] ->
  truthy return_file = false ->
  local_step (C:=C) (tidy (path_str (Path temp_path)))
    (smb_api.download_staged b64encode svc temp_path remote_path return_file).
Proof.
  intros Hparts Hrf w. unfold smb_api.download_staged.
  destruct (negb (truthy remote_path)); [apply tidy_refl |].
  rewrite Hrf. cbn [negb].
  rewrite bind_run. unfold local at 1, local_create. cbn [fst snd].
  unfold finally.
  match goal with |- context [bind ?m ?k ?w1] =>
    assert (Hbody : scratch_step (path_str (Path temp_path)) (w_local w1)
                      (w_local (snd (bind m k w1))));
    [| destruct (bind m k w1) as [r w2] ]
  end.
  { pose proof (scratch_step_refl (path_str (Path temp_path))) as Hrefl.
    pose proof (scratch_step_trans (path_str (Path temp_path))) as Htrans.
    apply (local_step_bind (C:=C)); [assumption | apply download_file_dyn_scratch | intros result].
    apply local_step_bind; [assumption | apply local_step_lift; assumption | intros ok].
    destruct (negb ok); [apply local_step_ret; assumption |].
    apply local_step_bind; [assumption | apply local_step_local_read; assumption | intros content].
    apply local_step_ret; assumption. }
  cbn [snd w_local] in Hbody. rewrite unlink_scratch_total. cbn [snd w_local].
  destruct Hbody as [Htouch Hfile].
  rewrite unlink_file; [| exact Hparts | apply Hfile; exists []; apply lookup_insert_eq].
  split.
  - intros k Hk. rewrite lookup_delete_ne by congruence.
    destruct (Htouch k Hk) as [E | [N D]]; rewrite lookup_insert_ne in * by congruence; auto.
  - intros _. apply lookup_delete_eq.
Qed.

(** The end of the download view when [return_file] holds: the scratch file
    is made and stays. *)
Lemma download_staged_keeps {C : SMBClient} (b64encode : bytes -> string)
    (svc : SMBFileService) (temp_path : string) (remote_path return_file : pyval)
    (w : World (C:=C)) :
  truthy remote_path = true ->
  truthy return_file = true ->
  is_file_at (path_str (Path temp_path))
    (w_local (snd (smb_api.download_staged b64encode svc temp_path remote_path
                     return_file w))).
Proof.
  intros Hrp Hrf. unfold smb_api.download_staged.
  rewrite Hrp, Hrf. cbn [negb].
  rewrite bind_run. unfold local at 1, local_create. cbn [fst snd].
  unfold finally.
  match goal with |- context [bind ?m ?k ?w1] =>
    assert (Hbody : scratch_step (path_str (Path temp_path)) (w_local w1)
                      (w_local (snd (bind m k w1))));
    [| destruct (bind m k w1) as [r w2] ]
  end.
  { pose proof (scratch_step_refl (path_str (Path temp_path))) as Hrefl.
    pose proof (scratch_step_trans (path_str (Path temp_path))) as Htrans.
    apply (local_step_bind (C:=C)); [assumption | apply download_file_dyn_scratch | intros result].
    apply local_step_bind; [assumption | apply local_step_lift; assumption | intros ok].
    destruct (negb ok); [apply local_step_ret; assumption |].
    apply local_step_bind; [assumption | apply local_step_lift; assumption | intros filename].
    apply local_step_ret; assumption. }
  cbn [snd w_local] in Hbody. unfold ret. cbn [snd w_local].
  destruct Hbody as [_ Hfile]. apply Hfile. exists []. apply lookup_insert_eq.
Qed.

(** A request that names a remote path reaches the end of the view, with the
    path it names and a [return_file] as [wants_file] reads it. *)
Lemma download_view_staged {C : SMBClient} (b64encode : bytes -> string)
    (temp_path : string) (svc : SMBFileService) (request : Request) (rp : pyval) :
  download_path request = Some rp ->
  truthy rp = true
  /\ exists rf, truthy rf = wants_file request
       /\ forall w : World (C:=C),
           smb_api.download_file_view b64encode temp_path svc request w
           = try_except (smb_api.download_staged b64encode svc temp_path rp rf)
               (fun e => ret (JsonResponse (error_body (exn_str e)) 500)) w.
Proof.
  unfold download_path, wants_file, smb_api.download_file_view.
  destruct (method request).
  - destruct (truthy (args_get "path" (args request))) eqn:Ht; [| discriminate].
    intros [= <-]. split; [exact Ht |].
    eexists (PBool _). split; [reflexivity |]. intros w. reflexivity.
  - destruct (get_json request) as [[ | | | | | | d]|e]; try discriminate.
    destruct (dict_get "remote_path" d) as [v|] eqn:Hd; [| discriminate].
    destruct (truthy v) eqn:Ht; [| discriminate].
    intros [= <-]. split; [exact Ht |].
    exists (match dict_get "return_file" d with Some v' => v' | None => PBool false end).
    split; [destruct (dict_get "return_file" d); reflexivity |].
    assert (Htr : truthy (PDict d) = true) by (destruct d; [discriminate Hd | reflexivity]).
    intros w. unfold try_except, bind, lift, lacks_remote_path.
    rewrite Htr. cbn [negb]. unfold py_contains, dict_has, py_getitem, py_get, obind.
    rewrite Hd. reflexivity.
  - destruct (get_json request) as [[ | | | | | | d]|e]; try discriminate.
    destruct (dict_get "remote_path" d) as [v|] eqn:Hd; [| discriminate].
    destruct (truthy v) eqn:Ht; [| discriminate].
    intros [= <-]. split; [exact Ht |].
    exists (match dict_get "return_file" d with Some v' => v' | None => PBool false end).
    split; [destruct (dict_get "return_file" d); reflexivity |].
    assert (Htr : truthy (PDict d) = true) by (destruct d; [discriminate Hd | reflexivity]).
    intros w. unfold try_except, bind, lift, lacks_remote_path.
    rewrite Htr. cbn [negb]. unfold py_contains, dict_has, py_getitem, py_get, obind.
    rewrite Hd. reflexivity.
Qed.

Lemma keeps_local_lift_bind {C : SMBClient} {A B} (o : outcome A) (k : A -> M (C:=C) B) :
  (forall a, o = Ok a -> keeps_local (k a)) -> keeps_local (bind (lift o) k).
Proof.
  intros H w. unfold bind, lift. destruct o as [a|e]; [apply (H a eq_refl) | reflexivity].
Qed.

(** A request that names no remote path is answered without a scratch file. *)
Lemma download_view_unstaged {C : SMBClient} (b64encode : bytes -> string)
    (temp_path : string) (svc : SMBFileService) (request : Request) :
  download_path request = None ->
  keeps_local (C:=C) (smb_api.download_file_view b64encode temp_path svc request).
Proof.
  intros Hnone. unfold smb_api.download_file_view.
  apply keeps_local_try_except; [| intros e; apply keeps_local_ret].
  unfold download_path in Hnone.
  assert (Hjson :
    (match get_json request with
     | Ok (PDict d) =>
         match dict_get "remote_path" d with
         | Some v => if truthy v then Some v else None
         | None => None
         end
     | _ => None
     end = None) ->
    keeps_local (C:=C)
      (data <- lift (get_json request) ;;
       lacking <- lift (lacks_remote_path data) ;;
       if lacking
       then ret (JsonResponse (error_body "remote_path is required") 400)
       else
         remote_path <- lift (py_getitem data "remote_path") ;;
         return_file <- lift (py_get data "return_file" (PBool false)) ;;
         smb_api.download_staged b64encode svc temp_path remote_path return_file)).
  { intros Hn.
    apply keeps_local_lift_bind; intros data Hj.
    apply keeps_local_lift_bind; intros lacking Hl.
    destruct lacking; [apply keeps_local_ret |].
    apply keeps_local_lift_bind; intros v Hg.
    apply keeps_local_lift_bind; intros rf Hrf.
    assert (Hv : truthy v = false).
    { rewrite Hj in Hn. destruct data; try discriminate Hg. cbn [py_getitem] in Hg.
      destruct (dict_get "remote_path" d) eqn:Hd; [| discriminate Hg].
      injection Hg as ->. destruct (truthy v); [discriminate Hn | reflexivity]. }
    unfold smb_api.download_staged. rewrite Hv. apply keeps_local_ret. }
  destruct (method request); [| exact (Hjson Hnone) | exact (Hjson Hnone)].
  unfold smb_api.download_staged.
  destruct (truthy (args_get "path" (args request))); [discriminate Hnone |].
  apply keeps_local_ret.
Qed.

(** X17.  The download route leaves no scratch file behind when the request
    does not ask for the file itself.  Provided the name the platform picks
    for the scratch file names nothing beforehand, the local file system after
    the route is the one before it, apart from directories added, for every
    request without [return_file], every client and every outcome. *)
Theorem download_route_removes_scratch_file :
  forall (C : SMBClient) (b64encode : bytes -> string) (temp_path : string)
         (smb_service : option SMBFileService) (request : Request)
         (w : World (C:=C)),
    p_parts (Path temp_path) <> [] ->
    wants_file request = false ->
    w_local w !! path_str (Path temp_path) = None ->
    dirs_added (w_local w)
      (w_local (snd (smb_api.download_file b64encode temp_path smb_service request w))).
Proof.
  intros C b64encode temp_path smb_service request w Hparts Hwants Hfresh.
  unfold smb_api.download_file.
  destruct smb_service as [svc|]; [| apply dirs_added_refl].
  destruct (download_path request) as [rp|] eqn:Hpath.
  - destruct (download_view_staged (C:=C) b64encode temp_path svc request rp Hpath)
      as [Hrp [rf [Hrf Hview]]].
    rewrite Hview. rewrite Hwants in Hrf.
    pose proof (tidy_refl (path_str (Path temp_path))) as Hrefl.
    pose proof (tidy_trans (path_str (Path temp_path))) as Htrans.
    assert (Hstep : local_step (C:=C) (tidy (path_str (Path temp_path)))
              (try_except (smb_api.download_staged b64encode svc temp_path rp rf)
                 (fun e => ret (JsonResponse (error_body (exn_str e)) 500)))).
    { apply local_step_try_except; [assumption | | intros e; apply local_step_ret; assumption].
      apply download_staged_tidy; assumption. }
    destruct (Hstep w) as [Htouch Hnone]. intros k.
    destruct (decide (k = path_str (Path temp_path))) as [-> | Hk].
    + left. rewrite Hnone by exact Hfresh. symmetry. exact Hfresh.
    + apply Htouch. exact Hk.
  - rewrite (download_view_unstaged (C:=C) b64encode temp_path svc request Hpath w).
    apply dirs_added_refl.
Qed.

Lemma download_route_removes_scratch_file_witness :
  p_parts (Path "/tmp/tmpab12") <> []
  /\ wants_file demo_download_request = false
  /\ demo_local !! path_str (Path "/tmp/tmpab12") = None
  /\ dirs_added demo_local
       (w_local (snd (smb_api.download_file (C:=MemShare.client) demo_b64encode
                        "/tmp/tmpab12" (Some demo_service) demo_download_request
                        (MemShare.world demo_local demo_stocked_share [])))).
Proof.
  assert (Hparts : p_parts (Path "/tmp/tmpab12") <> []) by discriminate.
  split; [exact Hparts |]. split; [reflexivity |]. split; [reflexivity |].
  exact (download_route_removes_scratch_file MemShare.client demo_b64encode "/tmp/tmpab12"
           (Some demo_service) demo_download_request
           (MemShare.world demo_local demo_stocked_share []) Hparts eq_refl eq_refl).
Defined.

(** X18.  The download route never removes the scratch file of a request that
    asks for the file itself.  When [return_file] holds and the request names
    a remote path, the scratch file is a regular file of the local file system
    when the route returns, whether the download succeeded or failed, for
    every client. *)
Theorem download_route_keeps_sent_file :
  forall (C : SMBClient) (b64encode : bytes -> string) (temp_path : string)
         (svc : SMBFileService) (request : Request) (remote_path : pyval)
         (w : World (C:=C)),
    wants_file request = true ->
    download_path request = Some remote_path ->
    is_file_at (path_str (Path temp_path))
      (w_local (snd (smb_api.download_file b64encode temp_path (Some svc) request w))).
Proof.
  intros C b64encode temp_path svc request remote_path w Hwants Hpath.
  unfold smb_api.download_file.
  destruct (download_view_staged (C:=C) b64encode temp_path svc request remote_path Hpath)
    as [Hrp [rf [Hrf Hview]]].
  rewrite Hview. rewrite Hwants in Hrf.
  pose proof (download_staged_keeps b64encode svc temp_path remote_path rf w Hrp Hrf)
    as Hkeeps.
  unfold try_except.
  destruct (smb_api.download_staged b64encode svc temp_path remote_path rf w)
    as [[a|e] w1]; exact Hkeeps.
Qed.

Lemma download_route_keeps_sent_file_witness :
  wants_file demo_send_file_request = true
  /\ download_path demo_send_file_request = Some (PStr "a.txt")
  /\ is_file_at (path_str (Path "/tmp/tmpab12"))
       (w_local (snd (smb_api.download_file (C:=MemShare.client) demo_b64encode
                        "/tmp/tmpab12" (Some demo_service) demo_send_file_request
                        (MemShare.world demo_local demo_share [])))).
Proof.
  split; [reflexivity |]. split; [reflexivity |].
  exact (download_route_keeps_sent_file MemShare.client demo_b64encode "/tmp/tmpab12"
           demo_service demo_send_file_request (PStr "a.txt")
           (MemShare.world demo_local demo_share []) eq_refl eq_refl).
Defined.

(** ** The content a download answers with *)

Lemma dict_get_set_eq (k : string) (v : pyval) (d : pydict) :
  dict_get k (dict_set k v d) = Some v.
Proof.
  induction d as [|[k' v'] d IH]; cbn [dict_set dict_get].
  - rewrite String.eqb_refl. reflexivity.
  - destruct (String.eqb k k') eqn:E; cbn [dict_get].
    + rewrite String.eqb_refl. reflexivity.
    + rewrite E. exact IH.
Qed.

Lemma dict_get_set_ne (k k0 : string) (v : pyval) (d : pydict) :
  k0 <> k -> dict_get k0 (dict_set k v d) = dict_get k0 d.
Proof.
  intros Hne. apply String.eqb_neq in Hne.
  induction d as [|[k' v'] d IH]; cbn [dict_set dict_get].
  - rewrite Hne. reflexivity.
  - destruct (String.eqb k k') eqn:E; cbn [dict_get].
    + apply String.eqb_eq in E. subst k'. rewrite Hne. reflexivity.
    + rewrite IH. reflexivity.
Qed.

(** A download from the reference share that returned the success record has
    written the content of the remote file to the local path. *)
Lemma download_file_reads (svc : SMBFileService) (remote_path local_path : string)
    (overwrite : bool) (content : bytes) (mtime : float) (fs : gmap string lnode)
    (st : gmap string MemShare.rnode) (tr : list smb_call) (d : pydict)
    (w' : World (C:=MemShare.client)) :
  MemShare.lookup st (full_remote svc remote_path) = Some (MemShare.RFile content mtime) ->
  download_file svc remote_path local_path overwrite (calm_world fs st tr) = (Ok d, w') ->
  dict_get "status" d = Some (PStr "success") ->
  local_lookup (w_local w') (Path local_path) = Some (LFile content)
  /\ dict_get "size_bytes" d = Some (PInt (Z.of_nat (length content))).
Proof.
  intros Hstored Hrun Hstatus.
  assert (Hexists : MemShare.do_exists (full_remote svc remote_path) st = Ok true)
    by (unfold MemShare.do_exists; rewrite Hstored; reflexivity).
  assert (Hopen : MemShare.do_open_rb (full_remote svc remote_path) st
                  = Ok (MemShare.key (full_remote svc remote_path),
                        {| rs_chunks := MemShare.chunks (S (length content)) content;
                           rs_fail := None |}))
    by (unfold MemShare.do_open_rb; rewrite Hstored; reflexivity).
  unfold download_file, try_except in Hrun.
  destruct (download_file_try svc remote_path local_path overwrite (calm_world fs st tr))
    as [[d0|e] wb] eqn:Hbody;
    [| inversion Hrun; subst; discriminate Hstatus].
  inversion Hrun; subst d0 wb. clear Hrun.
  unfold download_file_try in Hbody.
  apply bind_ok_inv in Hbody as [there [wa [Hthere Hbody]]].
  rewrite local_read_run in Hthere. inversion Hthere as [[Hex0 Hwa]]. subst wa. clear Hthere.
  destruct (_ && negb overwrite); [discriminate Hbody |].
  apply bind_ok_inv in Hbody as [[] [wa [Hmk Hbody]]].
  unfold local in Hmk. cbn [w_local w_smb w_trace] in Hmk.
  destruct (local_mkdir_parents (path_parent (Path local_path)) fs) as [[[]|e] fs1];
    inversion Hmk; subst wa. clear Hmk.
  rewrite bind_run in Hbody. unfold smb at 1 in Hbody. share_simpl in Hbody.
  rewrite query_no_fault, Hexists in Hbody. cbn [negb] in Hbody.
  apply bind_ok_inv in Hbody as [total [wb [Hcopy Hbody]]].
  inversion Hbody; subst d w'. clear Hbody Hstatus.
  rewrite bind_run in Hcopy. unfold smb at 1 in Hcopy. share_simpl in Hcopy.
  rewrite query_no_fault, Hopen in Hcopy.
  unfold finally in Hcopy. rewrite bind_run in Hcopy. unfold local at 1 in Hcopy.
  cbn [w_local w_smb w_trace] in Hcopy.
  destruct (local_open_wb (Path local_path) fs1) as [[[]|e] fs2] eqn:Hwb.
  2: { unfold smb in Hcopy. share_simpl in Hcopy. rewrite query_no_fault in Hcopy.
       discriminate Hcopy. }
  apply local_open_wb_ok in Hwb as [-> Hparts].
  cbn [fst snd rs_chunks rs_fail] in Hcopy.
  match type of Hcopy with
  | context [download_loop _ _ _ _ (Build_World _ ?s ?t)] =>
      destruct (download_loop_chunks (C:=MemShare.client) (Path local_path)
                  (S (length content)) content [] 0
                  (<[path_str (Path local_path) := LFile []]> fs1) s t
                  ltac:(lia) ltac:(apply lookup_insert_eq))
        as [trc Hloop]
  end.
  rewrite Hloop in Hcopy.
  unfold smb at 1 in Hcopy. share_simpl in Hcopy. rewrite query_no_fault in Hcopy.
  inversion Hcopy; subst total wb. clear Hcopy.
  split; [| reflexivity].
  cbn [w_local app]. unfold local_lookup.
  destruct (p_parts (Path local_path)); [congruence |].
  rewrite insert_insert_eq. apply lookup_insert_eq.
Qed.

(** X19.  What a download answered with 200 carries.  For a request that
    names the remote path of a file of the share and does not ask for the file
    itself, a 200 answer is the success record with [file_data] set to the
    base-64 encoding of the content the share holds there, [encoding] set to
    [base64] and [size_bytes] to the number of bytes.  Stated on a share that
    keeps what is written to it. *)
Theorem download_route_returns_content :
  forall (b64encode : bytes -> string) (temp_path : string) (svc : SMBFileService)
         (request : Request) (remote_path : string) (content : bytes) (mtime : float)
         (fs : gmap string lnode) (st : gmap string MemShare.rnode)
         (tr : list smb_call) (body : pydict) (w' : World (C:=MemShare.client)),
    wants_file request = false ->
    download_path request = Some (PStr remote_path) ->
    MemShare.lookup st (server_url svc ++ "/" ++ lstrip_slash remote_path)
    = Some (MemShare.RFile content mtime) ->
    smb_api.download_file b64encode temp_path (Some svc) request
      (@Build_World MemShare.client fs
         {| MemShare.store := st; MemShare.faults := [] |} tr)
    = (Ok (JsonResponse body 200), w') ->
    dict_get "status" body = Some (PStr "success")
    /\ dict_get "file_data" body = Some (PStr (b64encode content))
    /\ dict_get "encoding" body = Some (PStr "base64")
    /\ dict_get "size_bytes" body = Some (PInt (Z.of_nat (length content))).
Proof.
  intros b64encode temp_path svc request remote_path content mtime fs st tr body w'
         Hwants Hpath Hstored Hrun.
  unfold smb_api.download_file in Hrun.
  destruct (download_view_staged (C:=MemShare.client) b64encode temp_path svc request
              (PStr remote_path) Hpath) as [Hrp [rf [Hrf Hview]]].
  rewrite Hview in Hrun. rewrite Hwants in Hrf. clear Hview.
  unfold try_except, smb_api.download_staged in Hrun.
  rewrite Hrp, Hrf in Hrun. cbn [negb] in Hrun.
  rewrite bind_run in Hrun. unfold local at 1, local_create in Hrun.
  cbn [fst snd w_local w_smb w_trace] in Hrun.
  unfold finally in Hrun. rewrite bind_run, download_file_dyn_str in Hrun.
  match type of Hrun with
  | context [download_file svc remote_path temp_path true ?w1] =>
      destruct (download_file svc remote_path temp_path true w1) as [[d|e] w2] eqn:Hdl
  end.
  2: { rewrite unlink_scratch_total in Hrun. discriminate Hrun. }
  rewrite bind_run in Hrun. unfold lift at 1 in Hrun.
  destruct (status_is_success d) as [[|]|e] eqn:Hok; cbn [negb] in Hrun.
  2: { change (ret (JsonResponse d 400) w2) with (Ok (JsonResponse d 400), w2) in Hrun.
       cbv beta iota in Hrun. rewrite unlink_scratch_total in Hrun. discriminate Hrun. }
  2: { rewrite unlink_scratch_total in Hrun. discriminate Hrun. }
  apply status_is_success_true in Hok.
  destruct (download_file_reads _ _ _ _ _ _ _ _ _ _ _ Hstored Hdl Hok) as [Hfile Hsize].
  rewrite bind_run, local_read_run in Hrun. unfold local_open_rb in Hrun.
  rewrite Hfile in Hrun. unfold ret at 1 in Hrun. cbv beta iota in Hrun.
  rewrite unlink_scratch_total in Hrun.
  inversion Hrun; subst body w'. clear Hrun.
  split; [rewrite !dict_get_set_ne by discriminate; exact Hok |].
  split; [rewrite dict_get_set_ne by discriminate; apply dict_get_set_eq |].
  split; [apply dict_get_set_eq |].
  rewrite !dict_get_set_ne by discriminate. exact Hsize.
Qed.

Lemma download_route_returns_content_witness :
  wants_file demo_download_request = false
  /\ download_path demo_download_request = Some (PStr "a.txt")
  /\ MemShare.lookup demo_stocked_share (server_url demo_service ++ "/" ++ lstrip_slash "a.txt")
     = Some (MemShare.RFile demo_bytes 0%float)
  /\ exists body,
       fst (smb_api.download_file (C:=MemShare.client) demo_b64encode "/tmp/tmpab12"
              (Some demo_service) demo_download_request
              (MemShare.world demo_local demo_stocked_share []))
       = Ok (JsonResponse body 200)
       /\ dict_get "file_data" body = Some (PStr (demo_b64encode demo_bytes)).
Proof.
  split; [reflexivity |]. split; [reflexivity |]. split; [reflexivity |].
  eexists. split; [reflexivity |].
  exact (proj1 (proj2 (download_route_returns_content demo_b64encode "/tmp/tmpab12"
           demo_service demo_download_request "a.txt" demo_bytes 0%float demo_local
           demo_stocked_share [] _ _ eq_refl eq_refl eq_refl eq_refl))).
Defined.

(** * Further properties of the entry points *)

Lemma upload_file_returns {C : SMBClient} (svc : SMBFileService)
    (local_path remote_path : string) (create_dirs : bool) (w : World (C:=C)) :
  exists d w', upload_file svc local_path remote_path create_dirs w = (Ok d, w')
               /\ result_record d.
Proof.
  apply (try_except_total result_record).
  - unfold upload_file_try. yields_steps. apply success_record; reflexivity.
  - intros e. apply error_record; reflexivity.
Qed.

Lemma download_file_returns {C : SMBClient} (svc : SMBFileService)
    (remote_path local_path : string) (overwrite : bool) (w : World (C:=C)) :
  exists d w', download_file svc remote_path local_path overwrite w = (Ok d, w')
               /\ result_record d.
Proof.
  apply (try_except_total result_record).
  - unfold download_file_try. yields_steps. apply success_record; reflexivity.
  - intros e. apply error_record; reflexivity.
Qed.

Lemma exit_status_record (d : pydict) :
  result_record d ->
  (exit_status_of d = 1 /\ dict_get "status" d = Some (PStr "error"))
  \/ (exit_status_of d = 0 /\ dict_get "status" d = Some (PStr "success")).
Proof.
  intros [[Hs | Hs] _]; unfold exit_status_of; rewrite Hs; [right | left];
    split; reflexivity.
Qed.

(** X20.  The exit status of the command line.  Once the configuration is
    resolved and the session registered, [main] lets no exception escape, for
    every client.  With a sub-command it prints a result record and ends with
    status 1 when the status of the record is [error], with status 0 when it
    is [success].  Without one it prints the help, the session having been
    registered all the same. *)
Theorem main_exit_status :
  forall (C : SMBClient) (py_int : string -> outcome Z) (env : gmap string string)
         (read_config : string -> outcome (list cfg_entry)) (args : Namespace)
         (cfg : SMBConfig) (svc : SMBFileService) (w w1 : World (C:=C)),
    main_config py_int env read_config args = Ok (inl cfg) ->
    SMBFileService_init cfg w = (Ok svc, w1) ->
    exists (r : Ending) (w' : World (C:=C)),
      main py_int env read_config args w = (Ok r, w')
      /\ match args_command args with
         | CmdNone => r = HelpPrinted /\ w' = w1
         | _ =>
             exists d, result_record d
               /\ ((r = ResultPrinted d 1 /\ dict_get "status" d = Some (PStr "error"))
                   \/ (r = ResultPrinted d 0
                       /\ dict_get "status" d = Some (PStr "success")))
         end.
Proof.
  intros C py_int env read_config args cfg svc w w1 Hcfg Hinit.
  assert (Hprinted : forall (op : M (C:=C) pydict),
    (forall w0, exists d w', op w0 = (Ok d, w') /\ result_record d) ->
    exists (r : Ending) (w' : World (C:=C)),
      finally (result <- op ;; ret (ResultPrinted result (exit_status_of result)))
              (ret tt) w1 = (Ok r, w')
      /\ exists d, result_record d
           /\ ((r = ResultPrinted d 1 /\ dict_get "status" d = Some (PStr "error"))
               \/ (r = ResultPrinted d 0 /\ dict_get "status" d = Some (PStr "success")))).
  { intros op Hop. destruct (Hop w1) as [d [w2 [Hrun Hrec]]].
    exists (ResultPrinted d (exit_status_of d)), w2. split.
    - unfold finally. rewrite bind_run, Hrun. reflexivity.
    - exists d. split; [exact Hrec |].
      destruct (exit_status_record d Hrec) as [[-> Hs] | [-> Hs]]; [left | right];
        split; [reflexivity | exact Hs | reflexivity | exact Hs]. }
  unfold main. rewrite bind_run. unfold lift at 1. rewrite Hcfg.
  rewrite bind_run, Hinit. unfold main_command.
  destruct (args_command args) as [lp rp ncd | rp lp ow | rp | |].
  - apply Hprinted. intros w0. apply upload_file_returns.
  - apply Hprinted. intros w0. apply download_file_returns.
  - apply Hprinted. intros w0. apply list_files_returns.
  - apply Hprinted. intros w0. apply test_connection_returns.
  - exists HelpPrinted, w1. split; [reflexivity | split; reflexivity].
Qed.

Lemma main_exit_status_witness :
  main_config demo_int demo_env no_config_file demo_args = Ok (inl demo_config)
  /\ fst (SMBFileService_init (C:=MemShare.client) demo_config
            (MemShare.world demo_local demo_share []))
     = Ok demo_service
  /\ exists (r : Ending) (w' : World (C:=MemShare.client)),
      main demo_int demo_env no_config_file demo_args
        (MemShare.world demo_local demo_share []) = (Ok r, w')
      /\ exists d, result_record d
           /\ ((r = ResultPrinted d 1 /\ dict_get "status" d = Some (PStr "error"))
               \/ (r = ResultPrinted d 0 /\ dict_get "status" d = Some (PStr "success"))).
Proof.
  split; [reflexivity |]. split; [reflexivity |].
  exact (main_exit_status MemShare.client demo_int demo_env no_config_file demo_args
           demo_config demo_service (MemShare.world demo_local demo_share []) _
           eq_refl eq_refl).
Defined.

(** Initialising the global service returns, and answers [True] only with a
    service just built. *)
Lemma init_outcome {C : SMBClient} (o : outcome SMBConfig)
    (current : option SMBFileService) (w : World (C:=C)) :
  exists (ok : bool) (g : option SMBFileService) (w' : World (C:=C)),
    try_except
      (config_ <- lift o ;;
       svc <- SMBFileService_init config_ ;;
       ret (true, Some svc))
      (fun e => ret (false, current)) w = (Ok (ok, g), w')
    /\ (ok = true -> exists cfg, g = Some (new_service cfg))
    /\ (ok = false -> g = current).
Proof.
  unfold try_except. rewrite bind_run. unfold lift at 1.
  destruct o as [cfg|e].
  2: { exists false, current, w. split; [reflexivity | split; [discriminate | reflexivity]]. }
  rewrite bind_run. unfold SMBFileService_init. rewrite bind_run.
  destruct (_setup_client_config cfg w) as [[[]|e] w1].
  - exists true, (Some (new_service cfg)), w1.
    split; [reflexivity | split; [intros _; exists cfg; reflexivity | discriminate]].
  - exists false, current, w1. split; [reflexivity | split; [discriminate | reflexivity]].
Qed.

(** X21.  The server starts only with a service.  [main] of the gateway lets
    no exception escape: it ends in [exit(1)], or it runs the application on
    the host and port of the command line with a service built in this run, so
    that a route reached through [main] never finds the service missing.  This
    holds for every client, environment and configuration file. *)
Theorem api_main_serves_initialised :
  forall (C : SMBClient) (py_int : string -> outcome Z) (env : gmap string string)
         (read_config : string -> outcome (list cfg_entry)) (args : smb_api.Namespace)
         (current : option SMBFileService) (w : World (C:=C)),
  exists (r : smb_api.Startup) (w' : World (C:=C)),
    smb_api.main py_int env read_config args current w = (Ok r, w')
    /\ match r with
       | smb_api.Exit code => code = 1
       | smb_api.Run g host port_ debug =>
           (exists cfg, g = Some (new_service cfg))
           /\ host = smb_api.ns_host args /\ port_ = smb_api.ns_port args
           /\ debug = smb_api.ns_debug args
       end.
Proof.
  intros C py_int env read_config args current w.
  assert (Hend : forall o : outcome SMBConfig,
    exists (r : smb_api.Startup) (w' : World (C:=C)),
      (r0 <- try_except
               (config_ <- lift o ;;
                svc <- SMBFileService_init config_ ;;
                ret (true, Some svc))
               (fun e => ret (false, current)) ;;
       if negb (fst r0) then ret (smb_api.Exit 1)
       else ret (smb_api.Run (snd r0) (smb_api.ns_host args) (smb_api.ns_port args)
                   (smb_api.ns_debug args))) w = (Ok r, w')
      /\ match r with
         | smb_api.Exit code => code = 1
         | smb_api.Run g host port_ debug =>
             (exists cfg, g = Some (new_service cfg))
             /\ host = smb_api.ns_host args /\ port_ = smb_api.ns_port args
             /\ debug = smb_api.ns_debug args
         end).
  { intros o. destruct (init_outcome o current w) as [ok [g [w' [Hrun [Htrue _]]]]].
    rewrite bind_run, Hrun. destruct ok; cbn [fst snd negb].
    - eexists _, w'. split; [reflexivity |]. cbn beta iota.
      split; [apply Htrue; reflexivity | repeat split].
    - eexists _, w'. split; [reflexivity |]. reflexivity. }
  unfold smb_api.main.
  destruct (smb_api.ns_env args); [apply Hend |].
  destruct (given (smb_api.ns_config args)); apply Hend.
Qed.
